(** * Guardian-V: the [/api/verify] handler of [server.ts]

    A shallow embedding of the Express handler that [startServer] registers
    for [POST /api/verify], and the properties of its routing decision;
    then of the dashboard of [App.tsx]: its simulated upload and what it
    renders from the state.

    JavaScript numbers are IEEE 754 binary64 values; they are embedded as
    Rocq's primitive [float]s, whose operations are the same binary64
    operations, so that [(x + y) / 2] and [c > 0.85] below compute exactly
    what the handler computes.  Strings are the UTF-8 bytes of their
    text. *)

From Stdlib Require Import ZArith Bool List String Ascii Lia.
From Stdlib Require Import Floats DecimalString.
Import ListNotations.

Set Warnings "-inexact-float,-register-all".
Local Open Scope string_scope.

(** ** JavaScript values *)

Module JS.

(** What [JSON.parse] returns, and what [express.json()] puts in [req.body].
    An object lists each key once ([JSON.parse] keeps the last duplicate). *)
Inductive json : Type :=
| JNull
| JBool (b : bool)
| JNumber (n : float)
| JString (s : string)
| JArray (items : list json)
| JObject (members : list (string * json)).

(** A JavaScript value of the handler: [None] is [undefined]. *)
Definition value : Type := option json.

Definition undefined : value := None.

(** The exceptions the handler's [try] block can see. *)
Inductive error : Type :=
| TypeError
| SyntaxError
| Rejected.

(** The completion of an expression or statement. *)
Inductive completion (A : Type) : Type :=
| Normal (a : A)
| Throw (e : error).

Arguments Normal {A} a.
Arguments Throw {A} e.

(** Sequencing: an abrupt completion skips what follows. *)
Definition and_then {A B} (c : completion A) (k : A -> completion B) : completion B :=
  match c with
  | Normal a => k a
  | Throw e => Throw e
  end.

Fixpoint assoc (k : string) (members : list (string * json)) : value :=
  match members with
  | [] => undefined
  | (k', v) :: rest => if String.eqb k k' then Some v else assoc k rest
  end.

(** [v.k] for a key [k] that names no built-in property ([confidence] and
    [logicScore] are the only keys the handler reads): a [TypeError] on
    [undefined] and [null], the member of an object, [undefined] on
    booleans, numbers, strings and arrays. *)
Definition member (v : value) (k : string) : completion value :=
  match v with
  | None => Throw TypeError
  | Some JNull => Throw TypeError
  | Some (JObject members) => Normal (assoc k members)
  | Some _ => Normal undefined
  end.

(** [ToNumber] on [undefined], [null], booleans and numbers; [None] on the
    operands that make [+] concatenate (strings, arrays, objects), which
    [plus] below converts. *)
Definition ToNumber (v : value) : option float :=
  match v with
  | None => Some nan
  | Some JNull => Some 0%float
  | Some (JBool true) => Some 1%float
  | Some (JBool false) => Some 0%float
  | Some (JNumber n) => Some n
  | Some _ => None
  end.

(** [x > y] on numbers: the IEEE comparison, false when either is NaN. *)
Definition gt (x y : float) : bool := (y <? x)%float.

(** [!v] on what [process.env] holds: a variable is unset or a string. *)
Definition falsy (v : option string) : bool :=
  match v with
  | None => true
  | Some s => String.eqb s ""
  end.

(** [s.split(c)] for a one-character separator. *)
Fixpoint split (c : ascii) (s : string) : list string :=
  match s with
  | EmptyString => [EmptyString]
  | String a rest =>
      if Ascii.eqb a c then EmptyString :: split c rest
      else match split c rest with
           | [] => [String a EmptyString]
           | piece :: pieces => String a piece :: pieces
           end
  end.

(** [s.substr(start, length)]. *)
Definition substr (s : string) (start length : nat) : string :=
  String.substring start length s.

(** [s.includes(c)] for a one-character [c]. *)
Fixpoint includes (c : ascii) (s : string) : bool :=
  match s with
  | EmptyString => false
  | String a rest => Ascii.eqb a c || includes c rest
  end.

(** [s.toUpperCase()] on ASCII text: the letters [a] to [z] are raised,
    every other character is kept. *)
Definition lower_case (a : ascii) : bool :=
  ((97 <=? nat_of_ascii a) && (nat_of_ascii a <=? 122))%nat.

Definition upper (a : ascii) : ascii :=
  if lower_case a then ascii_of_nat (nat_of_ascii a - 32) else a.

Fixpoint toUpperCase (s : string) : string :=
  match s with
  | EmptyString => EmptyString
  | String a rest => String (upper a) (toUpperCase rest)
  end.

(** *** Numbers and strings

    [StringToNumber] and [Number::toString], which [+] and [/] apply when
    an operand is not a number. *)

(** The value of a digit below [base] (up to sixteen). *)
Definition digit (base : Z) (a : ascii) : option Z :=
  let n := Z.of_nat (nat_of_ascii a) in
  let v := if ((48 <=? n) && (n <=? 57))%Z then Some (n - 48)%Z
           else if ((97 <=? n) && (n <=? 102))%Z then Some (n - 87)%Z
           else if ((65 <=? n) && (n <=? 70))%Z then Some (n - 55)%Z
           else None in
  match v with
  | Some d => if (d <? base)%Z then Some d else None
  | None => None
  end.

(** The longest run of digits at the head of [s], read onto [acc]: the
    number read, how many digits it had, and what follows. *)
Fixpoint digits (base acc : Z) (count : nat) (s : string) : Z * nat * string :=
  match s with
  | String a rest =>
      match digit base a with
      | Some d => digits base (acc * base + d)%Z (S count) rest
      | None => (acc, count, s)
      end
  | EmptyString => (acc, count, s)
  end.

(** [WhiteSpace] and [LineTerminator] in UTF-8: one, two or three bytes. *)
Definition white1 (a : ascii) : bool :=
  let n := nat_of_ascii a in
  (((9 <=? n) && (n <=? 13)) || (n =? 32))%nat.

Definition white2 (a b : ascii) : bool :=
  ((nat_of_ascii a =? 194) && (nat_of_ascii b =? 160))%nat.

Definition white3 (a b c : ascii) : bool :=
  let x := nat_of_ascii a in
  let y := nat_of_ascii b in
  let z := nat_of_ascii c in
  ((x =? 225) && (y =? 154) && (z =? 128) ||
   (x =? 226) && (y =? 128) && ((128 <=? z) && (z <=? 138) || (z =? 168) || (z =? 169) || (z =? 175)) ||
   (x =? 226) && (y =? 129) && (z =? 159) ||
   (x =? 227) && (y =? 128) && (z =? 128) ||
   (x =? 239) && (y =? 187) && (z =? 191))%nat.

(** [s] without the white space at its head. *)
Fixpoint trim_start (s : string) : string :=
  match s with
  | String a r1 =>
      if white1 a then trim_start r1
      else match r1 with
           | String b r2 =>
               if white2 a b then trim_start r2
               else match r2 with
                    | String c r3 => if white3 a b c then trim_start r3 else s
                    | EmptyString => s
                    end
           | EmptyString => s
           end
  | EmptyString => s
  end.

Definition is_empty (s : string) : bool :=
  match s with
  | EmptyString => true
  | String _ _ => false
  end.

(** [s] with [prefix] taken off its head. *)
Fixpoint after_prefix (prefix s : string) : option string :=
  match prefix, s with
  | EmptyString, _ => Some s
  | String a p, String b r => if Ascii.eqb a b then after_prefix p r else None
  | String _ _, EmptyString => None
  end.

(** The binary64 number nearest to [num / den], ties to even. *)
Definition nearest (negative : bool) (num den : Z) : float :=
  match num, den with
  | Zpos n, Zpos d =>
      SF2Prim (SFdiv prec emax (S754_finite negative n 0) (S754_finite false d 0))
  | _, _ => if negative then neg_zero else zero
  end.

(** The binary64 number nearest to [m * 10^e]. *)
Definition decimal (negative : bool) (m e : Z) : float :=
  if (0 <=? e)%Z then nearest negative (m * 10 ^ e) 1
  else nearest negative m (10 ^ (- e)).

(** [ExponentPart], when there is one at the head of [s]. *)
Definition exponent (s : string) : Z * string :=
  match s with
  | String a r =>
      if Ascii.eqb a "e" || Ascii.eqb a "E" then
        let '(sign, r1) :=
          match r with
          | String b r' =>
              if Ascii.eqb b "+" then (1%Z, r')
              else if Ascii.eqb b "-" then ((-1)%Z, r')
              else (1%Z, r)
          | EmptyString => (1%Z, r)
          end in
        let '(v, n, r2) := digits 10 0 0 r1 in
        match n with
        | O => (0%Z, s)
        | S _ => ((sign * v)%Z, r2)
        end
      else (0%Z, s)
  | EmptyString => (0%Z, s)
  end.

(** [StrUnsignedDecimalLiteral] at the head of [s]: its value, with the
    sign given, and what follows it. *)
Definition unsigned_decimal (negative : bool) (s : string) : option (float * string) :=
  match after_prefix "Infinity" s with
  | Some rest => Some (if negative then neg_infinity else infinity, rest)
  | None =>
      let '(whole, n, r1) := digits 10 0 0 s in
      match r1 with
      | String "." r2 =>
          let '(m, f, r3) := digits 10 whole 0 r2 in
          match n, f with
          | O, O => None
          | _, _ =>
              let '(e, r4) := exponent r3 in
              Some (decimal negative m (e - Z.of_nat f), r4)
          end
      | _ =>
          match n with
          | O => None
          | S _ =>
              let '(e, r4) := exponent r1 in
              Some (decimal negative whole e, r4)
          end
      end
  end.

(** [NonDecimalIntegerLiteral] at the head of [s]. *)
Definition non_decimal (s : string) : option (float * string) :=
  match s with
  | String "0" (String x r) =>
      let base :=
        if Ascii.eqb x "x" || Ascii.eqb x "X" then Some 16%Z
        else if Ascii.eqb x "o" || Ascii.eqb x "O" then Some 8%Z
        else if Ascii.eqb x "b" || Ascii.eqb x "B" then Some 2%Z
        else None in
      match base with
      | Some b =>
          let '(v, n, rest) := digits b 0 0 r in
          match n with
          | O => None
          | S _ => Some (nearest false v 1, rest)
          end
      | None => None
      end
  | _ => None
  end.

(** [StrNumericLiteral] at the head of [s]. *)
Definition numeric_literal (s : string) : option (float * string) :=
  match non_decimal s with
  | Some r => Some r
  | None =>
      match s with
      | String "+" r => unsigned_decimal false r
      | String "-" r => unsigned_decimal true r
      | _ => unsigned_decimal false s
      end
  end.

(** [StringToNumber]: the number a string converts to. *)
Definition StringToNumber (s : string) : float :=
  let t := trim_start s in
  if is_empty t then zero
  else match numeric_literal t with
       | Some (v, rest) => if is_empty (trim_start rest) then v else nan
       | None => nan
       end.

(** The decimal digits of a natural number. *)
Definition decimal_digits (n : Z) : string :=
  NilZero.string_of_uint (N.to_uint (Z.to_N n)).

Fixpoint zeros (n : nat) : string :=
  match n with
  | O => EmptyString
  | S n' => String "0" (zeros n')
  end.

(** The shortest decimal [s * 10^t] that converts back to the positive
    number [m * 2^e]; of two, the one nearest to it, and of two that are
    as near the even one. *)
Fixpoint shortest (fuel : nat) (m : positive) (e t : Z) : Z * Z :=
  let num := ((if 0 <=? e then Zpos m * 2 ^ e else Zpos m) *
              (if 0 <=? t then 1 else 10 ^ (- t)))%Z in
  let den := ((if 0 <=? e then 1 else 2 ^ (- e)) *
              (if 0 <=? t then 10 ^ t else 1))%Z in
  let low := (num / den)%Z in
  let high := (low + 1)%Z in
  let back s :=
    ((0 <? s)%Z &&
     match Prim2SF (decimal false s t) with
     | S754_finite false m' e' => Pos.eqb m' m && Z.eqb e' e
     | _ => false
     end) in
  match fuel with
  | O => (low, t)
  | S fuel' =>
      match back low, back high with
      | true, true =>
          match (2 * (num mod den) ?= den)%Z with
          | Lt => (low, t)
          | Gt => (high, t)
          | Eq => if Z.even low then (low, t) else (high, t)
          end
      | true, false => (low, t)
      | false, true => (high, t)
      | false, false => shortest fuel' m e (t - 1)%Z
      end
  end.

(** [Number::toString] of a positive finite number [m * 2^e]. *)
Definition positive_toString (m : positive) (e : Z) : string :=
  let start := ((Z.log2 (Zpos m) + e) * 30103 / 100000 + 2)%Z in
  let '(s, t) := shortest 40 m e start in
  let ds := decimal_digits s in
  let k := Z.of_nat (String.length ds) in
  let n := (k + t)%Z in
  if ((k <=? n) && (n <=? 21))%Z then ds ++ zeros (Z.to_nat (n - k))
  else if ((0 <? n) && (n <=? 21))%Z then
    String.substring 0 (Z.to_nat n) ds ++ "." ++
    String.substring (Z.to_nat n) (Z.to_nat (k - n)) ds
  else if ((-6 <? n) && (n <=? 0))%Z then "0." ++ zeros (Z.to_nat (- n)) ++ ds
  else
    let x := (n - 1)%Z in
    let sign := if (0 <=? x)%Z then "+" else "-" in
    let head := String.substring 0 1 ds in
    let tail := String.substring 1 (Z.to_nat (k - 1)) ds in
    (if (k =? 1)%Z then head else head ++ "." ++ tail) ++
    "e" ++ sign ++ decimal_digits (Z.abs x).

(** [Number::toString(x)], in base ten. *)
Definition Number_toString (x : float) : string :=
  match Prim2SF x with
  | S754_nan => "NaN"
  | S754_zero _ => "0"
  | S754_infinity false => "Infinity"
  | S754_infinity true => "-Infinity"
  | S754_finite false m e => positive_toString m e
  | S754_finite true m e => "-" ++ positive_toString m e
  end.

(** [ToString] of a JSON value.  An array is joined with commas, [null]
    elements giving the empty text; an object gives [[object Object]],
    unless it has a member of its own named [toString]: the member is no
    function ([JSON.parse] makes none) and it hides the inherited one, so
    that the conversion throws. *)
Fixpoint ToString_json (j : json) : completion string :=
  match j with
  | JNull => Normal "null"
  | JBool b => Normal (if b then "true" else "false")
  | JNumber n => Normal (Number_toString n)
  | JString s => Normal s
  | JArray items =>
      (fix join (l : list json) : completion string :=
         match l with
         | [] => Normal EmptyString
         | x :: rest =>
             let element :=
               match x with
               | JNull => Normal EmptyString
               | _ => ToString_json x
               end in
             match rest with
             | [] => element
             | _ :: _ =>
                 and_then element (fun a =>
                 and_then (join rest) (fun b => Normal (a ++ "," ++ b)))
             end
         end) items
  | JObject members =>
      match assoc "toString" members with
      | Some _ => Throw TypeError
      | None => Normal "[object Object]"
      end
  end.

(** [ToString(v)], as a template literal applies it to [${v}]. *)
Definition ToString (v : value) : completion string :=
  match v with
  | None => Normal "undefined"
  | Some j => ToString_json j
  end.

(** [ToPrimitive(v)]: arrays and objects become their text (their
    [valueOf] gives no primitive), everything else is a primitive
    already. *)
Definition ToPrimitive (v : value) : completion value :=
  match v with
  | Some (JArray items) =>
      and_then (ToString_json (JArray items)) (fun s => Normal (Some (JString s)))
  | Some (JObject members) =>
      and_then (ToString_json (JObject members)) (fun s => Normal (Some (JString s)))
  | _ => Normal v
  end.

(** What [+] gives: a number, or a string when it concatenates. *)
Inductive sum : Type :=
| Num (n : float)
| Str (s : string).

(** [a + b]: the sum of two operands that are numbers, booleans, [null] or
    [undefined]; with a string, an array or an object among them, the
    texts of the two primitives joined. *)
Definition plus (a b : value) : completion sum :=
  match ToNumber a, ToNumber b with
  | Some x, Some y => Normal (Num (x + y)%float)
  | _, _ =>
      and_then (ToPrimitive a) (fun pa =>
      and_then (ToPrimitive b) (fun pb =>
      and_then (ToString pa) (fun sa =>
      and_then (ToString pb) (fun sb =>
      Normal (Str (sa ++ sb))))))
  end.

(** [ToNumber] of what [+] gave, as [/] applies it. *)
Definition ToNumber_sum (s : sum) : float :=
  match s with
  | Num n => n
  | Str t => StringToNumber t
  end.

End JS.

Import JS.

(** ** The handler *)

Module Server.

(** [req.body] after [express.json()], destructured on entry: a JSON object
    or array, of which a field that is absent reads [undefined]. *)
Record Request : Type := {
  documentImage : value;
  documentType : value;
  contextData : value
}.

(** The argument of a [generateContent] call, by the values its prompt
    interpolates: the vision prompt carries [documentType] (its text, in
    the template literal) and the image data, the logic prompt
    [JSON.stringify] of [contextData] and of the vision result, which
    throws on no value that [JSON.parse] made. *)
Inductive Prompt : Type :=
| VisionPrompt (documentType data : value)
| LogicPrompt (contextData : value) (visionResult : json).

(** [response.text], by what [JSON.parse] does with it. *)
Inductive ResponseText : Type :=
| NoText
| Unparsable
| Parses (j : json).

(** How an awaited [generateContent] call settles. *)
Inductive Outcome : Type :=
| Rejects
| Resolves (text : ResponseText).

(** What a run reads from outside the handler: the environment variable,
    the model behind [ai.models.generateContent], the text of
    [Math.random().toString(36)] and of [new Date().toISOString()]. *)
Record World : Type := {
  GEMINI_API_KEY : option string;
  engine : Prompt -> Outcome;
  random36 : string;
  isoNow : string
}.

(** The calls a run makes, in order. *)
Inductive Event : Type :=
| Called (p : Prompt)
| Settled (p : Prompt) (o : Outcome).

(** The object handed to [res.json] on the success path (its serialisation
    writes a NaN confidence as [null]). *)
Record Decision : Type := {
  id : string;
  status : string;
  confidence : float;
  vision : json;
  logic : json;
  timestamp : string
}.

Inductive HttpResponse : Type :=
| Ok200 (body : Decision)
| Error500 (error : string).

(** Computations of the handler: they read the world, append to the trace
    of engine calls, and complete normally or abruptly. *)
Definition Handler (A : Type) : Type :=
  World -> list Event -> completion A * list Event.

Definition ret {A} (a : A) : Handler A :=
  fun _ tr => (Normal a, tr).

Definition bind {A B} (m : Handler A) (k : A -> Handler B) : Handler B :=
  fun w tr =>
    match m w tr with
    | (Normal a, tr') => k a w tr'
    | (Throw e, tr') => (Throw e, tr')
    end.

Definition lift {A} (c : completion A) : Handler A :=
  fun _ tr => (c, tr).

Definition ask {A} (f : World -> A) : Handler A :=
  fun w tr => (Normal (f w), tr).

(** [try { m } catch (error) { h }]. *)
Definition try_catch {A} (m : Handler A) (h : error -> Handler A) : Handler A :=
  fun w tr =>
    match m w tr with
    | (Throw e, tr') => h e w tr'
    | r => r
    end.

Declare Scope handler_scope.
Delimit Scope handler_scope with handler.
Notation "x <- m ;; k" := (bind m (fun x => k))
  (at level 61, m at next level, right associativity) : handler_scope.

(** [await ai.models.generateContent(p)]. *)
Definition generateContent (p : Prompt) : Handler ResponseText :=
  fun w tr =>
    let o := engine w p in
    let tr' := (tr ++ [Called p; Settled p o])%list in
    match o with
    | Rejects => (Throw Rejected, tr')
    | Resolves text => (Normal text, tr')
    end.

(** [text || "{}"]: an absent or empty text becomes the text of the empty
    object. *)
Definition or_empty_object (text : ResponseText) : ResponseText :=
  match text with
  | NoText => Parses (JObject [])
  | _ => text
  end.

Definition JSON_parse (text : ResponseText) : completion json :=
  match text with
  | Parses j => Normal j
  | _ => Throw SyntaxError
  end.

(** [documentImage.split(',')[1]]. *)
Definition image_data (documentImage : value) : completion value :=
  match documentImage with
  | Some (JString s) => Normal (option_map JString (nth_error (split "," s) 1))
  | _ => Throw TypeError
  end.

(** [c > 0.85 ? "VERIFIED" : (c > 0.6 ? "PENDING_HITL" : "REJECTED")]. *)
Definition route (finalConfidence : float) : string :=
  if gt finalConfidence 0.85 then "VERIFIED"
  else if gt finalConfidence 0.6 then "PENDING_HITL"
  else "REJECTED".

(** [(visionResult.confidence + logicResult.logicScore) / 2]. *)
Definition finalConfidence (visionResult logicResult : json) : completion float :=
  and_then (member (Some visionResult) "confidence") (fun c =>
  and_then (member (Some logicResult) "logicScore") (fun l =>
  and_then (plus c l) (fun sum =>
  Normal (ToNumber_sum sum / 2)%float))).

Local Open Scope handler_scope.

(** [app.post("/api/verify", async (req, res) => ...)]. *)
Definition verify (req : Request) : Handler HttpResponse :=
  key <- ask GEMINI_API_KEY ;;
  if falsy key then ret (Error500 "API Key not configured")
  else
    try_catch
      (text <- lift (ToString (documentType req)) ;;
       data <- lift (image_data (documentImage req)) ;;
       visionResponse <- generateContent (VisionPrompt (documentType req) data) ;;
       visionResult <- lift (JSON_parse (or_empty_object visionResponse)) ;;
       logicResponse <- generateContent (LogicPrompt (contextData req) visionResult) ;;
       logicResult <- lift (JSON_parse (or_empty_object logicResponse)) ;;
       final <- lift (finalConfidence visionResult logicResult) ;;
       random <- ask random36 ;;
       now <- ask isoNow ;;
       ret (Ok200 {| id := substr random 2 9;
                     status := route final;
                     confidence := final;
                     vision := visionResult;
                     logic := logicResult;
                     timestamp := now |}))
      (fun _ => ret (Error500 "Verification failed")).

(** One request served in world [w]: the response sent and the engine calls
    made. *)
Definition run (w : World) (req : Request) : completion HttpResponse * list Event :=
  verify req w [].

Definition response (w : World) (req : Request) : completion HttpResponse :=
  fst (run w req).

Definition trace (w : World) (req : Request) : list Event :=
  snd (run w req).

(** Unfolds a run down to the tests the handler makes. *)
Ltac unfold_run :=
  unfold response, trace, run, verify, bind, ret, ask, lift, try_catch, generateContent;
  cbv beta iota.

(** The paths through the handler: what each one requires of the world and
    of the request, the response it sends and the engine calls it makes. *)
Inductive Served (w : World) (req : Request) :
  completion HttpResponse -> list Event -> Prop :=
| Unconfigured :
    falsy (GEMINI_API_KEY w) = true ->
    Served w req (Normal (Error500 "API Key not configured")) []
| PromptThrows (e : error) :
    falsy (GEMINI_API_KEY w) = false ->
    ToString (documentType req) = Throw e ->
    Served w req (Normal (Error500 "Verification failed")) []
| ImageThrows (text : string) (e : error) :
    falsy (GEMINI_API_KEY w) = false ->
    ToString (documentType req) = Normal text ->
    image_data (documentImage req) = Throw e ->
    Served w req (Normal (Error500 "Verification failed")) []
| VisionFails (text : string) (data : value) (o : Outcome) :
    falsy (GEMINI_API_KEY w) = false ->
    ToString (documentType req) = Normal text ->
    image_data (documentImage req) = Normal data ->
    engine w (VisionPrompt (documentType req) data) = o ->
    o = Rejects \/ o = Resolves Unparsable ->
    Served w req (Normal (Error500 "Verification failed"))
      [Called (VisionPrompt (documentType req) data);
       Settled (VisionPrompt (documentType req) data) o]
| LogicFails (text : string) (data : value) (tv : ResponseText) (vr : json) (o : Outcome) :
    falsy (GEMINI_API_KEY w) = false ->
    ToString (documentType req) = Normal text ->
    image_data (documentImage req) = Normal data ->
    engine w (VisionPrompt (documentType req) data) = Resolves tv ->
    JSON_parse (or_empty_object tv) = Normal vr ->
    engine w (LogicPrompt (contextData req) vr) = o ->
    o = Rejects \/ o = Resolves Unparsable ->
    Served w req (Normal (Error500 "Verification failed"))
      [Called (VisionPrompt (documentType req) data);
       Settled (VisionPrompt (documentType req) data) (Resolves tv);
       Called (LogicPrompt (contextData req) vr);
       Settled (LogicPrompt (contextData req) vr) o]
| Aggregates (text : string) (data : value) (tv tl : ResponseText) (vr lr : json) :
    falsy (GEMINI_API_KEY w) = false ->
    ToString (documentType req) = Normal text ->
    image_data (documentImage req) = Normal data ->
    engine w (VisionPrompt (documentType req) data) = Resolves tv ->
    JSON_parse (or_empty_object tv) = Normal vr ->
    engine w (LogicPrompt (contextData req) vr) = Resolves tl ->
    JSON_parse (or_empty_object tl) = Normal lr ->
    Served w req
      match finalConfidence vr lr with
      | Normal c =>
          Normal (Ok200 {| id := substr (random36 w) 2 9;
                           status := route c;
                           confidence := c;
                           vision := vr;
                           logic := lr;
                           timestamp := isoNow w |})
      | Throw _ => Normal (Error500 "Verification failed")
      end
      [Called (VisionPrompt (documentType req) data);
       Settled (VisionPrompt (documentType req) data) (Resolves tv);
       Called (LogicPrompt (contextData req) vr);
       Settled (LogicPrompt (contextData req) vr) (Resolves tl)].

End Server.

(** ** Vocabulary of the specification *)

Module Evidence.

Import Server.

(** The three evidence engines of the architecture. *)
Inductive Role : Type :=
| Vision
| Forensic
| Logic.

(** The engine a prompt of the handler addresses. *)
Definition role (p : Prompt) : Role :=
  match p with
  | VisionPrompt _ _ => Vision
  | LogicPrompt _ _ => Logic
  end.

(** The engines called in a trace, in the order of the calls. *)
Fixpoint calls (tr : list Event) : list Role :=
  match tr with
  | [] => []
  | Called p :: rest => role p :: calls rest
  | Settled _ _ :: rest => calls rest
  end.

(** The descriptors an engine result lists under key [k]. *)
Definition descriptors (result : json) (k : string) : list json :=
  match result with
  | JObject members =>
      match assoc k members with
      | Some (JArray items) => items
      | _ => []
      end
  | _ => []
  end.

(** A descriptor (field, reason, severity) is high-severity when its
    [severity] is ["high"]. *)
Definition high_severity (descriptor : json) : bool :=
  match descriptor with
  | JObject members =>
      match assoc "severity" members with
      | Some (JString s) => String.eqb s "high"
      | _ => false
      end
  | _ => false
  end.

(** The count of high-severity descriptors across the two results. *)
Definition high_severity_count (visionResult logicResult : json) : nat :=
  List.length (filter high_severity (descriptors visionResult "anomalies")) +
  List.length (filter high_severity (descriptors logicResult "discrepancies")).

End Evidence.

(** ** Rounding to binary64, on the grid of multiples of 2^-1075 *)

Module Binary64.

(** [m / 2^n] rounded to the nearest integer, ties to even ([m >= 0]). *)
Definition rne (m n : Z) : Z :=
  let q := (m / 2 ^ n)%Z in
  match (2 * (m mod 2 ^ n) ?= 2 ^ n)%Z with
  | Lt => q
  | Eq => if Z.even q then q else (q + 1)%Z
  | Gt => (q + 1)%Z
  end.

(** The value [m * 2^e], or an infinity when [e] is past the largest
    exponent. *)
Definition make (s : bool) (m : positive) (e : Z) : spec_float :=
  if (e <=? 971)%Z then S754_finite s m e else S754_infinity s.

(** The result of rounding once the mantissa [q <= 2^53] at exponent [t]
    is known: a mantissa of 2^53 is renormalised. *)
Definition finish (s : bool) (q t : Z) : spec_float :=
  match q with
  | Zpos m =>
      if (q =? 2 ^ 53)%Z then make s (2 ^ 52)%positive (t + 1) else make s m t
  | _ => S754_zero s
  end.

(** The binary64 value nearest to [K * 2^-1075], for [K > 0], with sign [s]. *)
Definition round_pos (s : bool) (K : Z) : spec_float :=
  let p := Z.max (Z.log2 K - 52) 1 in
  finish s (rne K p) (p - 1075).

(** The binary64 value nearest to [K * 2^-1075]. *)
Definition round (K : Z) : spec_float :=
  match K with
  | Z0 => S754_zero false
  | Zpos _ => round_pos false K
  | Zneg k => round_pos true (Zpos k)
  end.

(** A finite value in units of 2^-1074 (zero for the others). *)
Definition grid (x : spec_float) : Z :=
  match x with
  | S754_finite s m e => cond_Zopp s (Zpos m * 2 ^ (e + 1074))
  | _ => 0%Z
  end.

(** Zero, or a finite nonzero value. *)
Definition finite (x : spec_float) : bool :=
  match x with
  | S754_zero _ | S754_finite _ _ _ => true
  | _ => false
  end.

(** A value with the sign of a zero forgotten. *)
Definition unsigned_zero (x : spec_float) : spec_float :=
  match x with
  | S754_zero _ => S754_zero false
  | _ => x
  end.

Definition two : spec_float := S754_finite false (2 ^ 52)%positive (-51).

Definition one : spec_float := S754_finite false (2 ^ 52)%positive (-52).

(** What [n] right shifts leave of [m]: the quotient, the round bit (the
    remainder is at least half) and the sticky bit (it is not a multiple
    of the half). *)
Definition shifted (m : Z) (n : nat) (mrs : shr_record) : Prop :=
  let d := (2 ^ Z.of_nat n)%Z in
  shr_m mrs = (m / d)%Z /\
  (shr_r mrs = true <-> (d <= 2 * (m mod d))%Z) /\
  (shr_s mrs = true <-> ((2 * (m mod d)) mod d)%Z <> 0%Z).

(** The second half of [binary_round_aux]: the rounded mantissa [q] at
    exponent [t] is shifted once more if it needs it, then packed. *)
Definition renormalised (s : bool) (q t : Z) : spec_float :=
  let '(mrs, e') := shr_fexp prec emax q t loc_Exact in
  match shr_m mrs with
  | Z0 => S754_zero s
  | Zpos m => if (e' <=? emax - prec)%Z then S754_finite s m e' else S754_infinity s
  | Zneg _ => S754_nan
  end.

End Binary64.

(** ** Sample requests, engine results and worlds *)

Import Server Evidence.
Open Scope float_scope.

Module Samples.

Definition request : Request :=
  {| documentImage := Some (JString "data:image/jpeg;base64,/9j/4AAQ");
     documentType := Some (JString "passport");
     contextData := Some (JObject [("name", JString "A. Guardian")]) |}.

(** A request whose [documentType] has no text: its own [toString] member
    is no function. *)
Definition request_with_untyped_document : Request :=
  {| documentImage := Some (JString "data:image/jpeg;base64,/9j/4AAQ");
     documentType := Some (JObject [("toString", JNumber 0)]);
     contextData := undefined |}.

(** A request that carries no image. *)
Definition request_without_image : Request :=
  {| documentImage := undefined;
     documentType := Some (JString "passport");
     contextData := undefined |}.

Definition anomaly (severity : string) : json :=
  JObject [("field", JString "Expiry Date");
           ("reason", JString "Font kerning mismatch");
           ("severity", JString severity)].

Definition vision_result (confidence : float) (anomalies : list json) : json :=
  JObject [("confidence", JNumber confidence);
           ("anomalies", JArray anomalies);
           ("isAuthentic", JBool true)].

Definition logic_result (logicScore : float) : json :=
  JObject [("logicScore", JNumber logicScore); ("discrepancies", JArray [])].

Definition reply (j : json) : Outcome := Resolves (Parses j).

(** A configured world whose vision and logic calls settle as given. *)
Definition world (v l : Outcome) (random now : string) : World :=
  {| GEMINI_API_KEY := Some "AIza-key";
     engine := fun p => match p with VisionPrompt _ _ => v | LogicPrompt _ _ => l end;
     random36 := random;
     isoNow := now |}.

Definition morning : string := "2026-03-01T08:00:00.000Z".
Definition evening : string := "2026-03-01T20:00:00.000Z".

End Samples.

(** ** The dashboard: the [App] component of [App.tsx] *)

Module App.

Local Open Scope string_scope.
Local Open Scope float_scope.

Inductive Tab : Type :=
| DashboardTab
| ArchitectureTab
| LogicTab
| ChecklistTab
| AuditTab.

(** The [useState] cells of [App].  [verificationResult] is [null] or the
    object stored; [scanningMessage] is [undefined] when it was read past
    the end of [feedbackMessages]. *)
Record State : Type := {
  activeTab : Tab;
  isUploading : bool;
  verificationResult : option json;
  currentStep : nat;
  scanningMessage : option string;
  showAudit : bool
}.

(** [useState]'s initial values. *)
Definition initial : State :=
  {| activeTab := DashboardTab;
     isUploading := false;
     verificationResult := None;
     currentStep := 0;
     scanningMessage := Some "";
     showAudit := false |}.

Record Step : Type := {
  id : string;
  label : string;
  icon : string
}.

Definition steps : list Step :=
  [ {| id := "capture"; label := "Hardware Attestation"; icon := "Cpu" |};
    {| id := "liveness"; label := "Passive Liveness"; icon := "UserCheck" |};
    {| id := "forensics"; label := "Forensic Metadata"; icon := "FileSearch" |};
    {| id := "vision"; label := "VLM Vision Analysis"; icon := "Eye" |};
    {| id := "logic"; label := "Logic Validation"; icon := "Shield" |};
    {| id := "zkp"; label := "ZKP Compliance"; icon := "Lock" |} ].

Definition feedbackMessages : list string :=
  [ "Detecting hardware signature...";
    "Analyzing frame for digital overlays...";
    "Scanning for hologram glare...";
    "Adjusting focus for micro-text...";
    "Validating stamp alignment...";
    "Checking font kerning consistency..." ].

Definition glare_warning : string :=
  "⚠️ Too much glare on hologram. Adjusting filters...".

(** The file of a change event: [e.target.files?.[0]]. *)
Record File : Type := {
  name : string;
  bytes : list Byte.byte
}.

(** What the handler reads from the browser: the text of
    [Math.random().toString(36)] and of [new Date().toLocaleTimeString()]. *)
Record Browser : Type := {
  randomText : string;
  localeTime : string
}.

(** What is on display while the handler waits: the state at an [await],
    and the milliseconds of its [setTimeout]. *)
Record Frame : Type := {
  shown : State;
  wait : N
}.

(** The asynchronous code of the component: it reads the browser, updates
    the state, and leaves the frames of its waits behind. *)
Definition Task (A : Type) : Type :=
  Browser -> State -> A * State * list Frame.

Definition ret {A} (a : A) : Task A :=
  fun _ s => (a, s, []).

Definition bind {A B} (m : Task A) (k : A -> Task B) : Task B :=
  fun b s =>
    let '(a, s1, f1) := m b s in
    let '(r, s2, f2) := k a b s1 in
    (r, s2, (f1 ++ f2)%list).

Declare Scope task_scope.
Delimit Scope task_scope with task.
Notation "x <- m ;; k" := (bind m (fun x => k))
  (at level 61, m at next level, right associativity) : task_scope.
Notation "m ;; k" := (bind m (fun _ => k))
  (at level 61, right associativity) : task_scope.

Definition ask {A} (f : Browser -> A) : Task A :=
  fun b s => (f b, s, []).

Definition set (f : State -> State) : Task unit :=
  fun _ s => (tt, f s, []).

Definition setIsUploading (v : bool) : Task unit :=
  set (fun s => {| activeTab := activeTab s; isUploading := v;
                   verificationResult := verificationResult s;
                   currentStep := currentStep s;
                   scanningMessage := scanningMessage s;
                   showAudit := showAudit s |}).

Definition setVerificationResult (v : option json) : Task unit :=
  set (fun s => {| activeTab := activeTab s; isUploading := isUploading s;
                   verificationResult := v;
                   currentStep := currentStep s;
                   scanningMessage := scanningMessage s;
                   showAudit := showAudit s |}).

Definition setCurrentStep (v : nat) : Task unit :=
  set (fun s => {| activeTab := activeTab s; isUploading := isUploading s;
                   verificationResult := verificationResult s;
                   currentStep := v;
                   scanningMessage := scanningMessage s;
                   showAudit := showAudit s |}).

Definition setScanningMessage (v : option string) : Task unit :=
  set (fun s => {| activeTab := activeTab s; isUploading := isUploading s;
                   verificationResult := verificationResult s;
                   currentStep := currentStep s;
                   scanningMessage := v;
                   showAudit := showAudit s |}).

(** [await new Promise(r => setTimeout(r, ms))]. *)
Definition sleep (ms : N) : Task unit :=
  fun _ s => (tt, s, [ {| shown := s; wait := ms |} ]).

Local Open Scope task_scope.

(** [for (let i = first; i < first + count; i++) body(i)]. *)
Fixpoint for_from (first count : nat) (body : nat -> Task unit) : Task unit :=
  match count with
  | O => ret tt
  | S count' => body first ;; for_from (S first) count' body
  end.

Definition when (c : bool) (t : Task unit) : Task unit :=
  if c then t else ret tt.

(** The object stored as the result of the demonstration. *)
Definition mock_result (random time : string) : json :=
  JObject
    [ ("status", JString "VERIFIED");
      ("confidence", JNumber 0.982);
      ("id", JString ("GRD-" ++ toUpperCase (substr random 2 6)));
      ("timestamp", JString time);
      ("anomalies",
       JArray
         [ JObject [ ("field", JString "Expiry Date");
                     ("reason", JString "Font kerning mismatch (0.02mm)");
                     ("severity", JString "low") ];
           JObject [ ("field", JString "Issuer Seal");
                     ("reason", JString "Resolution inconsistency");
                     ("severity", JString "low") ] ]);
      ("logicScore", JNumber 0.99);
      ("extractedData",
       JObject [ ("name", JString "ALEXANDER V. GUARDIAN");
                 ("idNumber", JString "TX-8829-X01");
                 ("expiry", JString "2029-12-31");
                 ("dob", JString "1985-05-14") ]) ].

(** [handleFileUpload], on the file of the event. *)
Definition handleFileUpload (file : option File) : Task unit :=
  match file with
  | None => ret tt
  | Some _ =>
      setIsUploading true ;;
      setVerificationResult None ;;
      setCurrentStep 0 ;;
      setScanningMessage (nth_error feedbackMessages 0) ;;
      for_from 0 (List.length steps) (fun i =>
        setCurrentStep i ;;
        setScanningMessage (nth_error feedbackMessages i) ;;
        when (i =? 2)%nat
          (setScanningMessage (Some glare_warning) ;;
           sleep 1200%N) ;;
        sleep 800%N) ;;
      random <- ask randomText ;;
      time <- ask localeTime ;;
      setVerificationResult (Some (mock_result random time)) ;;
      setIsUploading false ;;
      setScanningMessage (Some "")
  end.

(** The state after a task, the frames it went through, and the time they
    took together. *)
Definition after {A} (t : Task A) (b : Browser) (s : State) : State :=
  snd (fst (t b s)).

Definition frames {A} (t : Task A) (b : Browser) (s : State) : list Frame :=
  snd (t b s).

Definition total_wait (fs : list Frame) : N :=
  fold_right (fun fr ms => (wait fr + ms)%N) 0%N fs.

(** *** What [App] renders from the state *)

Definition truthy (result : option json) : bool :=
  match result with
  | None => false
  | Some _ => true
  end.

(** The text over the pipeline, by its variable parts:
    [`STEP ${currentStep + 1}/6: ${steps[currentStep].label}`] or
    ['PIPELINE COMPLETE']. *)
Inductive Banner : Type :=
| StepOf (number : nat) (label : string)
| PipelineComplete.

(** The banner is rendered under [(isUploading || verificationResult)];
    reading [.label] of a step past the end throws. *)
Definition banner (s : State) : completion (option Banner) :=
  if isUploading s || truthy (verificationResult s) then
    if isUploading s then
      match nth_error steps (currentStep s) with
      | Some step => Normal (Some (StepOf (currentStep s + 1) (label step)))
      | None => Throw TypeError
      end
    else Normal (Some PipelineComplete)
  else Normal None.

Definition isComplete (idx : nat) (s : State) : bool :=
  (idx <? currentStep s)%nat || (negb (isUploading s) && truthy (verificationResult s)).

Definition isActive (idx : nat) (s : State) : bool :=
  (idx =? currentStep s)%nat && isUploading s.

(** The colours of the box of step [idx]. *)
Definition step_box (idx : nat) (s : State) : string :=
  if isComplete idx s then "bg-emerald-500/20 border-emerald-500 text-emerald-400"
  else if isActive idx s
       then "bg-guardian-accent/20 border-guardian-accent text-guardian-accent animate-pulse"
       else "bg-white/5 border-white/10 text-slate-600".

(** The colour of the caption of step [idx]. *)
Definition step_caption (idx : nat) (s : State) : string :=
  if isComplete idx s then "text-emerald-400"
  else if isActive idx s then "text-guardian-accent"
       else "text-slate-600".

(** [step.label.split(' ')[0]]. *)
Definition caption (step : Step) : option string :=
  nth_error (split " " (label step)) 0.

(** The look of the result card:
    [verificationResult.status === 'VERIFIED' ? ... : ...]. *)
Definition card (result : json) : completion string :=
  and_then (member (Some result) "status") (fun status =>
  Normal match status with
         | Some (JString "VERIFIED") => "border-l-emerald-500 status-glow-success"
         | _ => "border-l-rose-500 status-glow-error"
         end).

(** The box and the percentage of a field of the audit tab, by its
    confidence. *)
Definition zone_box (confidence : float) : string :=
  if gt confidence 0.9 then "bg-emerald-500/5 border-emerald-500/20"
  else if gt confidence 0.8 then "bg-amber-500/5 border-amber-500/20"
       else "bg-rose-500/5 border-rose-500/20".

Definition zone_text (confidence : float) : string :=
  if gt confidence 0.9 then "text-emerald-400"
  else if gt confidence 0.8 then "text-amber-400"
       else "text-rose-400".

Record Field : Type := {
  field_label : string;
  field_value : value;
  field_confidence : float
}.

(** The fields of the audit tab, read from
    [verificationResult.extractedData]. *)
Definition audit_fields (result : json) : completion (list Field) :=
  and_then (member (Some result) "extractedData") (fun data =>
  and_then (member data "name") (fun name =>
  and_then (member data "idNumber") (fun idNumber =>
  and_then (member data "dob") (fun dob =>
  and_then (member data "expiry") (fun expiry =>
  Normal [ {| field_label := "Full Name"; field_value := name; field_confidence := 0.99 |};
           {| field_label := "ID Number"; field_value := idNumber; field_confidence := 0.98 |};
           {| field_label := "Date of Birth"; field_value := dob; field_confidence := 0.95 |};
           {| field_label := "Expiry Date"; field_value := expiry; field_confidence := 0.62 |} ]))))).

(** The audit tab shows "No Active Session" without a result, and the
    fields of the result otherwise. *)
Definition audit_tab (s : State) : completion (option (list Field)) :=
  match verificationResult s with
  | None => Normal None
  | Some result => and_then (audit_fields result) (fun fields => Normal (Some fields))
  end.

(** What is on display during an upload. *)
Definition uploading (s0 s : State) : Prop :=
  isUploading s = true /\ verificationResult s = None /\
  activeTab s = activeTab s0 /\ showAudit s = showAudit s0.

Definition displayable (s0 : State) (fr : Frame) : Prop :=
  uploading s0 (shown fr) /\
  (currentStep (shown fr) < List.length steps)%nat /\
  (exists step,
     nth_error steps (currentStep (shown fr)) = Some step /\
     banner (shown fr) =
       Normal (Some (StepOf (currentStep (shown fr) + 1) (label step)))) /\
  (exists message, scanningMessage (shown fr) = Some message).

(** An upload that has reached its third step. *)
Definition at_third_step : State :=
  {| activeTab := DashboardTab;
     isUploading := true;
     verificationResult := None;
     currentStep := 2;
     scanningMessage := Some glare_warning;
     showAudit := false |}.

End App.

(** ** Order of binary64 values *)

Module Order.

Lemma compare_cont_Eq_refl (m : positive) : Pos.compare_cont Eq m m = Eq.
Proof. exact (Pos.compare_refl m). Qed.

(** Swapping the operands of a comparison mirrors its result. *)
Lemma SFcompare_swap (x y : spec_float) :
  SFcompare y x = option_map CompOpp (SFcompare x y).
Proof.
  destruct x as [sx | sx | | sx mx ex], y as [sy | sy | | sy my ey]; simpl;
    try reflexivity;
    try (destruct sx; reflexivity);
    try (destruct sy; reflexivity);
    try (destruct sx, sy; reflexivity).
  destruct sx, sy; simpl; try reflexivity;
    rewrite (Z.compare_antisym ex ey);
    destruct (ex ?= ey)%Z; simpl; try reflexivity;
    rewrite (Pos.compare_cont_antisym _ _ Eq); simpl;
    rewrite ?CompOpp_involutive; reflexivity.
Qed.

Lemma SFcompare_refl (x : spec_float) :
  x <> S754_nan -> SFcompare x x = Some Eq.
Proof.
  destruct x as [s | s | | s m e]; simpl; intro H;
    try reflexivity; try (destruct s; reflexivity); try congruence.
  destruct s; rewrite Z.compare_refl, compare_cont_Eq_refl; reflexivity.
Qed.

Lemma SFcompare_None (x y : spec_float) :
  SFcompare x y = None <-> x = S754_nan \/ y = S754_nan.
Proof.
  destruct x as [sx | sx | | sx mx ex], y as [sy | sy | | sy my ey]; simpl;
    split; intro H; try discriminate; auto;
    destruct H as [H | H]; discriminate.
Qed.

Lemma is_nan_spec (x : float) : is_nan x = true <-> Prim2SF x = S754_nan.
Proof.
  unfold is_nan. rewrite eqb_spec. unfold SFeqb. split.
  - intro H. destruct (Prim2SF x) as [s | s | | s m e] eqn:E; try reflexivity;
      rewrite SFcompare_refl in H by discriminate; discriminate.
  - intro H. rewrite H. reflexivity.
Qed.

Lemma is_nan_false (x : float) : is_nan x = false <-> Prim2SF x <> S754_nan.
Proof.
  rewrite <- is_nan_spec. destruct (is_nan x); split; congruence.
Qed.

(** [x > y] fails exactly when [x <= y] or one of them is NaN. *)
Lemma ltb_false (x y : float) :
  (y <? x) = false <-> (x <=? y) = true \/ is_nan x = true \/ is_nan y = true.
Proof.
  rewrite ltb_spec, leb_spec, !is_nan_spec. unfold SFltb, SFleb.
  rewrite (SFcompare_swap (Prim2SF x) (Prim2SF y)).
  destruct (SFcompare (Prim2SF x) (Prim2SF y)) as [[ | | ] | ] eqn:E; simpl;
    split; intro H; auto; try discriminate.
  - destruct H as [H | [H | H]]; try discriminate;
      rewrite H in E; destruct (Prim2SF x), (Prim2SF y); discriminate.
  - apply SFcompare_None in E. tauto.
Qed.

Lemma ltb_true_not_nan (x y : float) :
  (x <? y) = true -> is_nan x = false /\ is_nan y = false.
Proof.
  rewrite ltb_spec, !is_nan_false. unfold SFltb.
  destruct (SFcompare (Prim2SF x) (Prim2SF y)) as [[ | | ] | ] eqn:E; try discriminate.
  intros _. split; intro H; rewrite H in E; destruct (Prim2SF x), (Prim2SF y); discriminate.
Qed.

Lemma ltb_asym (x y : float) : (x <? y) = true -> (y <? x) = false.
Proof.
  rewrite !ltb_spec. unfold SFltb.
  rewrite (SFcompare_swap (Prim2SF x) (Prim2SF y)).
  destruct (SFcompare (Prim2SF x) (Prim2SF y)) as [[ | | ] | ]; try discriminate; reflexivity.
Qed.

End Order.

(** ** Rounding a mantissa: shifts and round-to-nearest-even *)

Module Binary64Facts.
Import Binary64.
Local Open Scope Z_scope.

Lemma digits2_pos_size (p : positive) : digits2_pos p = Pos.size p.
Proof. induction p; simpl; congruence. Qed.

Lemma digits_log2 (p : positive) : Zpos (digits2_pos p) = Z.log2 (Zpos p) + 1.
Proof.
  rewrite digits2_pos_size. destruct p; simpl; try reflexivity.
  - rewrite Pos2Z.inj_succ. lia.
  - rewrite Pos2Z.inj_succ. lia.
Qed.
Lemma digits_bounds (p : positive) :
  2 ^ (Z.log2 (Zpos p)) <= Zpos p < 2 ^ (Z.log2 (Zpos p) + 1).
Proof. rewrite Z.add_1_r. apply Z.log2_spec. lia. Qed.

Lemma shr_1_spec (m : Z) (r s : bool) :
  0 <= m ->
  shr_1 (Build_shr_record m r s) = Build_shr_record (m / 2) (Z.odd m) (r || s).
Proof.
  intro Hm. destruct m as [ | p | p ]; [ reflexivity | | lia ].
  rewrite <- Z.div2_div. destruct p; reflexivity.
Qed.

Lemma iter_pos_nat {A} (f : A -> A) (p : positive) (x : A) :
  iter_pos f p x = Nat.iter (Pos.to_nat p) f x.
Proof.
  revert x. induction p as [p IH | p IH | ]; intro x.
  - rewrite Pos2Nat.inj_xI. cbn [iter_pos]. rewrite !IH.
    generalize (Pos.to_nat p). intro n.
    replace (S (2 * n)) with (n + (n + 1))%nat by lia.
    rewrite !Nat.iter_add. reflexivity.
  - rewrite Pos2Nat.inj_xO. cbn [iter_pos]. rewrite !IH.
    generalize (Pos.to_nat p). intro n.
    replace (2 * n)%nat with (n + n)%nat by lia.
    rewrite Nat.iter_add. reflexivity.
  - reflexivity.
Qed.

Lemma shifted_iter (m : Z) (n : nat) :
  0 <= m -> shifted m n (Nat.iter n shr_1 (Build_shr_record m false false)).
Proof.
  intro Hm. induction n as [ | n IH ].
  - unfold shifted. simpl. rewrite Z.div_1_r, Z.mod_1_r. simpl.
    repeat split; try discriminate; try lia.
    intro H. exfalso. apply H. reflexivity.
  - rewrite Nat.iter_succ. destruct (Nat.iter n shr_1 _) as [q r s].
    unfold shifted in *. cbn [shr_m shr_r shr_s] in IH. destruct IH as (Hq & Hr & Hs).
    rewrite Nat2Z.inj_succ, Z.pow_succ_r by lia.
    set (d := 2 ^ Z.of_nat n) in *.
    assert (Hd : 0 < d) by (apply Z.pow_pos_nonneg; lia).
    assert (Hq0 : 0 <= q) by (subst q; apply Z.div_pos; lia).
    rewrite shr_1_spec by assumption. cbn [shr_m shr_r shr_s].
    assert (Hmod : m mod (2 * d) = m mod d + d * (q mod 2)).
    { subst q. rewrite (Z.mul_comm 2 d). apply Z.rem_mul_r; lia. }
    assert (Hb : 0 <= m mod d < d) by (apply Z.mod_pos_bound; lia).
    assert (Hq2 : q mod 2 = 0 \/ q mod 2 = 1) by (pose proof (Z.mod_pos_bound q 2); lia).
    assert (Hodd : Z.odd q = true <-> q mod 2 = 1).
    { rewrite Zodd_mod. destruct (Z.eqb_spec (q mod 2) 1); split; congruence. }
    repeat split.
    + subst q. rewrite Z.div_div by lia. f_equal. lia.
    + intro H. apply Hodd in H. rewrite Hmod. nia.
    + intro H. apply Hodd. rewrite Hmod in H. nia.
    + intro H. rewrite Z.mul_mod_distr_l by lia.
      assert (X : (m mod (2 * d)) mod d = m mod d).
      { rewrite Hmod. rewrite (Z.mul_comm d), Z.mod_add by lia. apply Z.mod_mod; lia. }
      rewrite X. apply orb_true_iff in H. destruct H as [H | H].
      * apply Hr in H. lia.
      * apply Hs in H. intro Y. apply H.
        assert (Z0' : m mod d = 0) by lia. rewrite Z0'. reflexivity.
    + intro H. rewrite Z.mul_mod_distr_l in H by lia.
      assert (X : (m mod (2 * d)) mod d = m mod d).
      { rewrite Hmod. rewrite (Z.mul_comm d), Z.mod_add by lia. apply Z.mod_mod; lia. }
      rewrite X in H. apply orb_true_iff.
      destruct (Z_lt_le_dec (2 * (m mod d)) d) as [L | L].
      * right. apply Hs. rewrite Z.mod_small by lia. lia.
      * left. apply Hr. exact L.
Qed.

Lemma shifted_rne (m : Z) (n : nat) (mrs : shr_record) :
  0 <= m -> shifted m n mrs ->
  round_nearest_even (shr_m mrs) (loc_of_shr_record mrs) = rne m (Z.of_nat n).
Proof.
  intros Hm (Hq & Hr & Hs). unfold rne.
  set (d := 2 ^ Z.of_nat n) in *.
  assert (Hd : 0 < d) by (apply Z.pow_pos_nonneg; lia).
  assert (Hb : 0 <= m mod d < d) by (apply Z.mod_pos_bound; lia).
  destruct mrs as [q r s]. cbn [shr_m shr_r shr_s] in *. subst q.
  destruct (Z.compare_spec (2 * (m mod d)) d) as [E | L | G].
  - assert (R : r = true) by (apply Hr; lia).
    assert (S : s = false).
    { destruct s; [ | reflexivity ]. exfalso. apply (proj1 Hs eq_refl).
      rewrite E. apply Z.mod_same. lia. }
    subst r s. reflexivity.
  - assert (R : r = false).
    { destruct r; [ | reflexivity ]. exfalso. pose proof (proj1 Hr eq_refl). lia. }
    subst r. destruct s; reflexivity.
  - assert (R : r = true) by (apply Hr; lia).
    assert (S : s = true).
    { apply Hs. replace (2 * (m mod d)) with ((2 * (m mod d) - d) + 1 * d) by lia.
      rewrite Z.mod_add by lia. rewrite Z.mod_small by lia. lia. }
    subst r s. reflexivity.
Qed.

(** The nearest-even quotient after a right shift by [n > 0]. *)
Lemma shr_rne (m e : Z) (p : positive) :
  0 <= m ->
  let '(mrs, e') := shr (shr_record_of_loc m loc_Exact) e (Zpos p) in
  round_nearest_even (shr_m mrs) (loc_of_shr_record mrs) = rne m (Zpos p) /\
  e' = e + Zpos p.
Proof.
  intro Hm. unfold shr. simpl. split; [ | reflexivity ].
  rewrite iter_pos_nat. rewrite <- (positive_nat_Z p).
  apply shifted_rne; [ assumption | ]. apply shifted_iter. assumption.
Qed.

(** *** Nearest-even quotients *)

Lemma rne_exact (k n : Z) : 0 <= n -> rne (k * 2 ^ n) n = k.
Proof.
  intro Hn. unfold rne.
  assert (Hd : 0 < 2 ^ n) by (apply Z.pow_pos_nonneg; lia).
  rewrite Z.div_mul, Z.mod_mul by lia.
  destruct (Z.compare_spec (2 * 0) (2 ^ n)); try reflexivity; lia.
Qed.

Lemma rne_mono (m m' n : Z) : 0 <= n -> m <= m' -> rne m n <= rne m' n.
Proof.
  intros Hn Hm. unfold rne.
  set (d := 2 ^ n).
  assert (Hd : 0 < d) by (apply Z.pow_pos_nonneg; lia).
  pose proof (Z.div_mod m d ltac:(lia)) as E.
  pose proof (Z.div_mod m' d ltac:(lia)) as E'.
  pose proof (Z.mod_pos_bound m d Hd) as B.
  pose proof (Z.mod_pos_bound m' d Hd) as B'.
  assert (Q : m / d <= m' / d) by (apply Z.div_le_mono; lia).
  destruct (Z.eq_dec (m / d) (m' / d)) as [Qe | Qn].
  - rewrite <- Qe in *.
    destruct (Z.compare_spec (2 * (m mod d)) d), (Z.compare_spec (2 * (m' mod d)) d);
      destruct (Z.even (m / d)); nia.
  - destruct (Z.compare_spec (2 * (m mod d)) d), (Z.compare_spec (2 * (m' mod d)) d);
      destruct (Z.even (m / d)), (Z.even (m' / d)); lia.
Qed.

Lemma rne_scale (m n j : Z) :
  0 <= n -> 0 <= j -> rne (m * 2 ^ j) (n + j) = rne m n.
Proof.
  intros Hn Hj. unfold rne.
  assert (Hd : 0 < 2 ^ n) by (apply Z.pow_pos_nonneg; lia).
  assert (Hc : 0 < 2 ^ j) by (apply Z.pow_pos_nonneg; lia).
  rewrite Z.pow_add_r by lia.
  rewrite Z.div_mul_cancel_r by lia.
  rewrite Z.mul_mod_distr_r by lia.
  replace (2 * (m mod 2 ^ n * 2 ^ j)) with ((2 * (m mod 2 ^ n)) * 2 ^ j) by ring.
  rewrite <- Zmult_compare_compat_r by lia.
  reflexivity.
Qed.

Lemma rne_nonneg (m n : Z) : 0 <= n -> 0 <= m -> 0 <= rne m n.
Proof.
  intros Hn Hm. rewrite <- (rne_exact 0 n Hn). apply rne_mono; lia.
Qed.

(** A value below a power of two does not round past it, and one above
    does not round below. *)
Lemma rne_le_pow (m n k : Z) :
  0 <= n -> 0 <= k -> m <= 2 ^ (k + n) -> rne m n <= 2 ^ k.
Proof.
  intros Hn Hk Hm. rewrite <- (rne_exact (2 ^ k) n Hn).
  apply rne_mono; [ assumption | ]. rewrite <- Z.pow_add_r by lia. assumption.
Qed.

Lemma rne_ge_pow (m n k : Z) :
  0 <= n -> 0 <= k -> 2 ^ (k + n) <= m -> 2 ^ k <= rne m n.
Proof.
  intros Hn Hk Hm. rewrite <- (rne_exact (2 ^ k) n Hn).
  apply rne_mono; [ assumption | ]. rewrite <- Z.pow_add_r by lia. assumption.
Qed.

End Binary64Facts.

(** ** [binary_round] computes [round] *)

Module RoundFacts.
Import Binary64 Binary64Facts.
Local Open Scope Z_scope.

Lemma fexp_eq (x : Z) : fexp prec emax x = Z.max (x - 53) (-1074).
Proof. reflexivity. Qed.

Lemma iter_xO (m k : positive) : Zpos (Pos.iter xO m k) = Zpos m * 2 ^ Zpos k.
Proof.
  induction k as [ | k IH ] using Pos.peano_ind.
  - simpl. lia.
  - rewrite Pos.iter_succ, Pos2Z.inj_succ, Z.pow_succ_r by lia.
    rewrite Pos2Z.inj_xO, IH. ring.
Qed.

Lemma log2_shift (m : positive) (j : Z) :
  0 <= j -> Z.log2 (Zpos m * 2 ^ j) = Z.log2 (Zpos m) + j.
Proof. intro Hj. rewrite Z.log2_mul_pow2 by lia. lia. Qed.

Lemma shr_nonpos (mrs : shr_record) (e n : Z) : n <= 0 -> shr mrs e n = (mrs, e).
Proof. intro Hn. destruct n; try reflexivity. lia. Qed.

(** A rounded mantissa of at most 2^53 needs one more shift only when it
    is 2^53. *)
Lemma renormalised_finish (s : bool) (q t : Z) :
  0 <= q <= 2 ^ 53 -> -1074 <= t -> renormalised s q t = finish s q t.
Proof.
  intros Hq Ht. unfold renormalised, shr_fexp. rewrite fexp_eq.
  destruct q as [ | m | m ]; [ | | lia ].
  - rewrite shr_nonpos by (simpl; lia). reflexivity.
  - unfold finish. destruct (Z.eqb_spec (Zpos m) (2 ^ 53)) as [E | N].
    + assert (Em : m = (2 ^ 53)%positive) by (apply Pos2Z.inj; exact E).
      subst m.
      change (Zdigits2 (Zpos (2 ^ 53))) with 54.
      replace (Z.max (54 + t - 53) (-1074) - t) with 1 by lia.
      reflexivity.
    + assert (D : Zdigits2 (Zpos m) <= 53).
      { cbn [Zdigits2]. rewrite digits_log2.
        assert (Z.log2 (Zpos m) < 53); [ | lia ].
        apply Z.log2_lt_pow2; lia. }
      rewrite shr_nonpos by lia. reflexivity.
Qed.

Lemma loc_of_record_of (m : Z) (l : location) :
  loc_of_shr_record (shr_record_of_loc m l) = l /\
  shr_m (shr_record_of_loc m l) = m.
Proof. destruct l as [ | [ | | ] ]; split; reflexivity. Qed.

(** [binary_round_aux] when the mantissa needs no shift. *)
Lemma round_aux_noshift (s : bool) (m e : Z) (l : location) :
  fexp prec emax (Zdigits2 m + e) <= e ->
  binary_round_aux prec emax s m e l = renormalised s (round_nearest_even m l) e.
Proof.
  intro H. unfold binary_round_aux, shr_fexp at 1.
  rewrite shr_nonpos by lia.
  destruct (loc_of_record_of m l) as [E1 E2]. rewrite E1, E2. reflexivity.
Qed.

(** [binary_round_aux] on an exact mantissa that is shifted by [k]. *)
Lemma round_aux_shift (s : bool) (m e : Z) (k : positive) :
  0 <= m ->
  fexp prec emax (Zdigits2 m + e) - e = Zpos k ->
  binary_round_aux prec emax s m e loc_Exact = renormalised s (rne m (Zpos k)) (e + Zpos k).
Proof.
  intros Hm H. unfold binary_round_aux, shr_fexp at 1. rewrite H.
  pose proof (shr_rne m e k Hm) as R.
  destruct (shr (shr_record_of_loc m loc_Exact) e (Zpos k)) as [mrs e'].
  destruct R as [R1 R2]. rewrite R1, R2. reflexivity.
Qed.

(** The exponent that [round_pos] picks is the one [fexp] gives. *)
Lemma round_pos_exponent (m : positive) (e : Z) :
  -1075 <= e ->
  Z.max (Z.log2 (Zpos m * 2 ^ (e + 1075)) - 52) 1 =
  fexp prec emax (Zpos (digits2_pos m) + e) + 1075.
Proof.
  intro He. rewrite fexp_eq, digits_log2, log2_shift by lia. lia.
Qed.

(** [binary_round] is [round_pos] of the value on the grid. *)
Lemma binary_round_grid (s : bool) (m : positive) (e : Z) :
  -1075 <= e ->
  binary_round prec emax s m e = round_pos s (Zpos m * 2 ^ (e + 1075)).
Proof.
  intro He. unfold binary_round, round_pos.
  rewrite round_pos_exponent by assumption.
  remember (fexp prec emax (Zpos (digits2_pos m) + e)) as t eqn:Ft.
  assert (Ht : t = Z.max (Z.log2 (Zpos m) + 1 + e - 53) (-1074)).
  { rewrite Ft, fexp_eq, digits_log2. reflexivity. }
  replace (t + 1075 - 1075) with t by lia.
  pose proof (digits_bounds m) as [Lo Hi].
  pose proof (Z.log2_nonneg (Zpos m)) as L0.
  unfold shl_align. destruct (t - e) as [ | k | k ] eqn:Ek.
  - (* the exponent is already the canonical one *)
    assert (Ee : e = t) by lia.
    rewrite round_aux_noshift by (cbn [Zdigits2]; rewrite <- Ft; lia).
    rewrite Ee.
    cbn [round_nearest_even].
    rewrite rne_exact by lia.
    apply renormalised_finish; [ | lia ].
    split; [ lia | ].
    apply Z.lt_le_incl. eapply Z.lt_le_trans; [ exact Hi | ].
    apply Z.pow_le_mono_r; lia.
  - (* a right shift by k *)
    rewrite (round_aux_shift s (Zpos m) e k)
      by (try (cbn [Zdigits2]; rewrite <- Ft); lia).
    replace (e + Zpos k) with t by lia.
    replace (t + 1075) with (Zpos k + (e + 1075)) by lia.
    rewrite rne_scale by lia.
    apply renormalised_finish; [ | lia ].
    split; [ apply rne_nonneg; lia | ].
    apply Z.le_trans with (2 ^ (Z.log2 (Zpos m) + 1 - Zpos k)).
    + apply rne_le_pow; try lia.
      replace (Z.log2 (Zpos m) + 1 - Zpos k + Zpos k) with (Z.log2 (Zpos m) + 1) by lia.
      lia.
    + apply Z.pow_le_mono_r; lia.
  - (* a left shift by k *)
    assert (Et : e = t + Zpos k) by lia.
    assert (Dz : Zpos (digits2_pos (Pos.iter xO m k)) + t = Zpos (digits2_pos m) + e).
    { rewrite !digits_log2, iter_xO, log2_shift by lia. lia. }
    rewrite round_aux_noshift by (cbn [Zdigits2]; rewrite Dz, <- Ft; lia).
    cbn [round_nearest_even]. rewrite iter_xO.
    replace (Zpos m * 2 ^ (e + 1075)) with ((Zpos m * 2 ^ Zpos k) * 2 ^ (t + 1075)).
    2:{ rewrite Et, <- Z.mul_assoc, <- Z.pow_add_r by lia. f_equal. f_equal. lia. }
    rewrite rne_exact by lia.
    apply renormalised_finish; [ | lia ].
    split; [ lia | ].
    apply Z.lt_le_incl.
    apply Z.lt_le_trans with (2 ^ (Z.log2 (Zpos m) + 1) * 2 ^ Zpos k).
    + apply Z.mul_lt_mono_pos_r; [ apply Z.pow_pos_nonneg; lia | exact Hi ].
    + rewrite <- Z.pow_add_r by lia. apply Z.pow_le_mono_r; lia.
Qed.

End RoundFacts.

(** ** Comparison of binary64 values on the grid *)

Module OrderFacts.
Import Binary64 Binary64Facts RoundFacts.
Local Open Scope Z_scope.

Lemma bounded_spec (m : positive) (e : Z) :
  bounded prec emax m e = true <->
  Z.max (Z.log2 (Zpos m) + 1 + e - 53) (-1074) = e /\ e <= 971.
Proof.
  unfold bounded, canonical_mantissa. rewrite fexp_eq, digits_log2.
  rewrite andb_true_iff, Z.eqb_eq, Z.leb_le. reflexivity.
Qed.

(** The mantissa of a valid value is below 2^53, and at least 2^52 unless
    the exponent is the smallest one. *)
Lemma bounded_mantissa (m : positive) (e : Z) :
  bounded prec emax m e = true ->
  -1074 <= e <= 971 /\ Zpos m < 2 ^ 53 /\ (-1074 < e -> 2 ^ 52 <= Zpos m).
Proof.
  intro B. apply bounded_spec in B. destruct B as [C E].
  pose proof (digits_bounds m) as [Lo Hi].
  pose proof (Z.log2_nonneg (Zpos m)) as L0.
  split; [ lia | split ].
  - eapply Z.lt_le_trans; [ exact Hi | ]. apply Z.pow_le_mono_r; lia.
  - intro He. eapply Z.le_trans; [ | exact Lo ]. apply Z.pow_le_mono_r; lia.
Qed.

(** Rounding a representable value gives it back. *)
Lemma round_pos_valid (s : bool) (m : positive) (e : Z) :
  bounded prec emax m e = true ->
  round_pos s (Zpos m * 2 ^ (e + 1075)) = S754_finite s m e.
Proof.
  intro B. pose proof (bounded_mantissa m e B) as (He & Hm & _).
  apply bounded_spec in B. destruct B as [C E].
  unfold round_pos. rewrite round_pos_exponent by lia.
  rewrite fexp_eq, digits_log2, C.
  replace (e + 1075 - 1075) with e by lia.
  rewrite rne_exact by lia.
  unfold finish, make.
  destruct (Z.eqb_spec (Zpos m) (2 ^ 53)); [ lia | ].
  destruct (Z.leb_spec e 971); [ reflexivity | lia ].
Qed.

Lemma grid_pos (m : positive) (e : Z) : -1074 <= e -> 0 < Zpos m * 2 ^ (e + 1074).
Proof. intro He. apply Z.mul_pos_pos; [ lia | apply Z.pow_pos_nonneg; lia ]. Qed.

(** Valid positive values are ordered as their exponents, then their
    mantissas. *)
Lemma grid_compare_pos (m1 m2 : positive) (e1 e2 : Z) :
  bounded prec emax m1 e1 = true -> bounded prec emax m2 e2 = true ->
  (Zpos m1 * 2 ^ (e1 + 1074) ?= Zpos m2 * 2 ^ (e2 + 1074)) =
  match e1 ?= e2 with
  | Lt => Lt
  | Gt => Gt
  | Eq => Pos.compare_cont Eq m1 m2
  end.
Proof.
  intros B1 B2.
  pose proof (bounded_mantissa m1 e1 B1) as (He1 & Hm1 & Hn1).
  pose proof (bounded_mantissa m2 e2 B2) as (He2 & Hm2 & Hn2).
  assert (Step : forall (a b : positive) (x y : Z),
             -1074 <= x -> x < y -> Zpos a < 2 ^ 53 -> 2 ^ 52 <= Zpos b ->
             Zpos a * 2 ^ (x + 1074) < Zpos b * 2 ^ (y + 1074)).
  { intros a b x y Hx Hxy Ha Hb.
    apply Z.lt_le_trans with (2 ^ 53 * 2 ^ (x + 1074)).
    - apply Z.mul_lt_mono_pos_r; [ apply Z.pow_pos_nonneg; lia | exact Ha ].
    - apply Z.le_trans with (2 ^ 52 * 2 ^ (y + 1074)).
      + rewrite <- !Z.pow_add_r by lia. apply Z.pow_le_mono_r; lia.
      + apply Z.mul_le_mono_nonneg_r; [ apply Z.pow_nonneg; lia | exact Hb ]. }
  destruct (Z.compare_spec e1 e2) as [E | L | G].
  - subst e2. rewrite <- Zmult_compare_compat_r by (apply Z.lt_gt, Z.pow_pos_nonneg; lia).
    reflexivity.
  - apply Z.compare_lt_iff. apply Step; lia.
  - apply Z.compare_gt_iff. apply Step; lia.
Qed.

(** On valid finite values [SFcompare] is the order of the grid. *)
Lemma SFcompare_grid (x y : spec_float) :
  valid_binary x = true -> valid_binary y = true ->
  finite x = true -> finite y = true ->
  SFcompare x y = Some (grid x ?= grid y).
Proof.
  intros Vx Vy Fx Fy.
  destruct x as [sx | sx | | sx mx ex], y as [sy | sy | | sy my ey];
    try discriminate; cbn [grid SFcompare].
  - reflexivity.
  - pose proof (bounded_mantissa my ey Vy) as (He & _).
    pose proof (grid_pos my ey ltac:(lia)) as P.
    destruct sy; cbn [cond_Zopp]; f_equal; symmetry;
      [ apply Z.compare_gt_iff | apply Z.compare_lt_iff ]; lia.
  - pose proof (bounded_mantissa mx ex Vx) as (He & _).
    pose proof (grid_pos mx ex ltac:(lia)) as P.
    destruct sx; cbn [cond_Zopp]; f_equal; symmetry;
      [ apply Z.compare_lt_iff | apply Z.compare_gt_iff ]; lia.
  - pose proof (bounded_mantissa mx ex Vx) as (Hex & _).
    pose proof (bounded_mantissa my ey Vy) as (Hey & _).
    pose proof (grid_pos mx ex ltac:(lia)) as Px.
    pose proof (grid_pos my ey ltac:(lia)) as Py.
    f_equal. destruct sx, sy; cbn [cond_Zopp].
    + rewrite Z.compare_opp, (grid_compare_pos my mx ey ex Vy Vx).
      rewrite (Z.compare_antisym ex ey).
      destruct (ex ?= ey); try reflexivity.
      cbn [CompOpp]. apply (Pos.compare_cont_antisym mx my Eq).
    + symmetry. apply Z.compare_lt_iff. lia.
    + symmetry. apply Z.compare_gt_iff. lia.
    + rewrite (grid_compare_pos mx my ex ey Vx Vy). reflexivity.
Qed.

End OrderFacts.

(** ** [round] is monotone *)

Module Monotone.
Import Binary64 Binary64Facts RoundFacts OrderFacts.
Local Open Scope Z_scope.

Lemma SFleb_refl (x : spec_float) : x <> S754_nan -> SFleb x x = true.
Proof. intro H. unfold SFleb. rewrite Order.SFcompare_refl by assumption. reflexivity. Qed.

Lemma SFcompare_opp (x y : spec_float) :
  SFcompare (SFopp x) (SFopp y) = SFcompare y x.
Proof.
  destruct x as [sx | sx | | sx mx ex], y as [sy | sy | | sy my ey];
    cbn [SFopp SFcompare]; try reflexivity;
    try (destruct sx; reflexivity); try (destruct sy; reflexivity);
    try (destruct sx, sy; reflexivity).
  destruct sx, sy; cbn [negb]; try reflexivity.
  - rewrite (Z.compare_antisym ex ey). destruct (ex ?= ey); try reflexivity.
    cbn [CompOpp]. f_equal. symmetry. apply (Pos.compare_cont_antisym my mx Eq).
  - rewrite (Z.compare_antisym ex ey). destruct (ex ?= ey); try reflexivity.
    cbn [CompOpp]. f_equal. apply (Pos.compare_cont_antisym mx my Eq).
Qed.

Lemma make_opp (s : bool) (m : positive) (e : Z) :
  make (negb s) m e = SFopp (make s m e).
Proof. unfold make. destruct (e <=? 971); reflexivity. Qed.

Lemma finish_opp (s : bool) (q t : Z) :
  finish (negb s) q t = SFopp (finish s q t).
Proof.
  unfold finish. destruct q; try reflexivity.
  destruct (_ =? _); apply make_opp.
Qed.

Lemma round_pos_opp (K : Z) : round_pos true K = SFopp (round_pos false K).
Proof. unfold round_pos. apply (finish_opp false). Qed.

(** What [finish] returns has the sign it is given. *)
Lemma finish_sign (s : bool) (q t : Z) :
  finish s q t = S754_zero s \/ finish s q t = S754_infinity s \/
  exists m e, finish s q t = S754_finite s m e.
Proof.
  unfold finish, make. destruct q; auto.
  destruct (_ =? _), (_ <=? 971); eauto.
Qed.

Lemma nonpos_le_nonneg (x y : spec_float) :
  (x = S754_zero true \/ x = S754_zero false \/ x = S754_infinity true \/
   exists m e, x = S754_finite true m e) ->
  (y = S754_zero true \/ y = S754_zero false \/ y = S754_infinity false \/
   exists m e, y = S754_finite false m e) ->
  SFleb x y = true.
Proof.
  intros [Hx | [Hx | [Hx | (m & e & Hx)]]] [Hy | [Hy | [Hy | (m' & e' & Hy)]]];
    subst x y; reflexivity.
Qed.

Lemma make_le (m m' : positive) (e e' : Z) :
  e < e' \/ (e = e' /\ (m <= m')%positive) ->
  SFleb (make false m e) (make false m' e') = true.
Proof.
  intro H. unfold make.
  destruct (Z.leb_spec e 971), (Z.leb_spec e' 971); try reflexivity; try lia.
  unfold SFleb, SFcompare.
  destruct (Z.compare_spec e e') as [E | L | G]; try reflexivity; try lia.
  change (Pos.compare_cont Eq m m') with (Pos.compare m m').
  destruct (Pos.compare_spec m m'); try reflexivity. lia.
Qed.

(** The mantissa [round_pos] computes. *)
Lemma round_pos_mantissa (K : Z) :
  0 < K ->
  let p := Z.max (Z.log2 K - 52) 1 in
  0 <= rne K p <= 2 ^ 53 /\ (1 < p -> 2 ^ 52 <= rne K p).
Proof.
  intros HK p.
  pose proof (Z.log2_spec K HK) as [Lo Hi].
  pose proof (Z.log2_nonneg K) as L0.
  repeat split.
  - apply rne_nonneg; lia.
  - apply rne_le_pow; try lia.
    eapply Z.le_trans; [ apply Z.lt_le_incl; exact Hi | ].
    apply Z.pow_le_mono_r; lia.
  - intro Hp. apply rne_ge_pow; try lia.
    eapply Z.le_trans; [ | exact Lo ].
    apply Z.pow_le_mono_r; lia.
Qed.

Lemma finish_le (q q' t t' : Z) :
  0 <= q <= 2 ^ 53 -> 0 <= q' <= 2 ^ 53 ->
  (t = t' /\ q <= q') \/ (t < t' /\ 2 ^ 52 <= q') ->
  SFleb (finish false q t) (finish false q' t') = true.
Proof.
  intros Hq Hq' H.
  destruct q as [ | m | m ]; [ | | lia ].
  - apply nonpos_le_nonneg; [ cbn [finish]; auto | ].
    destruct (finish_sign false q' t') as [E | [E | (m & e & E)]]; rewrite E; eauto 6.
  - destruct q' as [ | m' | m' ]; [ lia | | lia ].
    unfold finish.
    destruct (Z.eqb_spec (Zpos m) (2 ^ 53)) as [E | N],
             (Z.eqb_spec (Zpos m') (2 ^ 53)) as [E' | N'];
      apply make_le; lia.
Qed.

Lemma round_pos_mono (K K' : Z) :
  0 < K -> K <= K' -> SFleb (round_pos false K) (round_pos false K') = true.
Proof.
  intros HK HKK'. unfold round_pos.
  pose proof (round_pos_mantissa K HK) as [B1 B2].
  pose proof (round_pos_mantissa K' ltac:(lia)) as [B1' B2'].
  pose proof (Z.log2_le_mono K K' HKK') as L.
  cbv zeta in B1, B2, B1', B2'.
  apply finish_le; try assumption.
  destruct (Z.eq_dec (Z.max (Z.log2 K - 52) 1) (Z.max (Z.log2 K' - 52) 1)) as [E | N].
  - left. split; [ lia | ]. rewrite <- E. apply rne_mono; lia.
  - right. split; [ lia | ]. apply B2'. lia.
Qed.

(** Rounding is monotone. *)
Lemma round_mono (K K' : Z) : K <= K' -> SFleb (round K) (round K') = true.
Proof.
  intro H. destruct K as [ | k | k ], K' as [ | k' | k' ]; try lia; cbn [round].
  - reflexivity.
  - apply nonpos_le_nonneg; [ auto | ].
    destruct (finish_sign false (rne (Zpos k') (Z.max (Z.log2 (Zpos k') - 52) 1))
                (Z.max (Z.log2 (Zpos k') - 52) 1 - 1075)) as [E | [E | (m & e & E)]];
      unfold round_pos; rewrite E; eauto 6.
  - apply round_pos_mono; lia.
  - apply nonpos_le_nonneg; [ | auto ].
    destruct (finish_sign true (rne (Zpos k) (Z.max (Z.log2 (Zpos k) - 52) 1))
                (Z.max (Z.log2 (Zpos k) - 52) 1 - 1075)) as [E | [E | (m & e & E)]];
      unfold round_pos; rewrite E; eauto 6.
  - apply nonpos_le_nonneg.
    + destruct (finish_sign true (rne (Zpos k) (Z.max (Z.log2 (Zpos k) - 52) 1))
                (Z.max (Z.log2 (Zpos k) - 52) 1 - 1075)) as [E | [E | (m & e & E)]];
      unfold round_pos; rewrite E; eauto 6.
    + destruct (finish_sign false (rne (Zpos k') (Z.max (Z.log2 (Zpos k') - 52) 1))
                (Z.max (Z.log2 (Zpos k') - 52) 1 - 1075)) as [E | [E | (m & e & E)]];
      unfold round_pos; rewrite E; eauto 6.
  - rewrite !round_pos_opp. unfold SFleb. rewrite SFcompare_opp.
    apply round_pos_mono; lia.
Qed.

End Monotone.

(** ** Addition rounds the exact sum *)

Module Operations.
Import Binary64 Binary64Facts RoundFacts OrderFacts Monotone.
Local Open Scope Z_scope.

Lemma round_signed (s : bool) (K : Z) :
  0 < K -> round (cond_Zopp s K) = round_pos s K.
Proof.
  intro HK. destruct K as [ | k | k ]; try lia. destruct s; reflexivity.
Qed.

Lemma binary_normalize_grid (M e : Z) :
  -1075 <= e ->
  binary_normalize prec emax M e false = round (M * 2 ^ (e + 1075)).
Proof.
  intro He.
  assert (P : 0 < 2 ^ (e + 1075)) by (apply Z.pow_pos_nonneg; lia).
  destruct M as [ | m | m ]; cbn [binary_normalize].
  - reflexivity.
  - rewrite binary_round_grid by assumption.
    symmetry. apply (round_signed false). lia.
  - rewrite binary_round_grid by assumption.
    replace (Zneg m * 2 ^ (e + 1075)) with (cond_Zopp true (Zpos m * 2 ^ (e + 1075)))
      by (cbn [cond_Zopp]; lia).
    symmetry. apply (round_signed true). lia.
Qed.

Lemma shl_align_fst (m : positive) (e e' : Z) :
  e' <= e -> Zpos (fst (shl_align m e e')) = Zpos m * 2 ^ (e - e').
Proof.
  intro H. unfold shl_align. destruct (e' - e) as [ | d | d ] eqn:E; cbn [fst].
  - replace (e - e') with 0 by lia. lia.
  - lia.
  - rewrite iter_xO. f_equal. f_equal. lia.
Qed.

(** A valid finite value is the rounding of itself. *)
Lemma round_grid (x : spec_float) :
  valid_binary x = true -> finite x = true ->
  round (2 * grid x) = unsigned_zero x.
Proof.
  intros V F. destruct x as [s | s | | s m e]; try discriminate.
  - reflexivity.
  - cbn [grid unsigned_zero valid_binary] in *.
    pose proof (bounded_mantissa m e V) as (He & _).
    replace (2 * cond_Zopp s (Zpos m * 2 ^ (e + 1074)))
      with (cond_Zopp s (Zpos m * 2 ^ (e + 1075))).
    + rewrite round_signed by (apply Z.mul_pos_pos; [ lia | apply Z.pow_pos_nonneg; lia ]).
      apply round_pos_valid. assumption.
    + replace (e + 1075) with (Z.succ (e + 1074)) by lia.
      rewrite Z.pow_succ_r by lia. destruct s; cbn [cond_Zopp]; lia.
Qed.

Lemma unsigned_zero_idem (x : spec_float) :
  unsigned_zero (unsigned_zero x) = unsigned_zero x.
Proof. destruct x; reflexivity. Qed.

(** The sum of two valid finite values is the rounding of their exact
    sum. *)
Lemma SFadd_grid (x y : spec_float) :
  valid_binary x = true -> valid_binary y = true ->
  finite x = true -> finite y = true ->
  unsigned_zero (SFadd prec emax x y) = unsigned_zero (round (2 * (grid x + grid y))).
Proof.
  intros Vx Vy Fx Fy.
  destruct x as [sx | sx | | sx mx ex], y as [sy | sy | | sy my ey]; try discriminate.
  - destruct sx, sy; reflexivity.
  - cbn [SFadd]. change (grid (S754_zero sx)) with 0. rewrite Z.add_0_l.
    rewrite round_grid by assumption. symmetry. apply unsigned_zero_idem.
  - cbn [SFadd]. change (grid (S754_zero sy)) with 0. rewrite Z.add_0_r.
    rewrite round_grid by assumption. symmetry. apply unsigned_zero_idem.
  - cbn [SFadd]. cbn [valid_binary] in Vx, Vy.
    pose proof (bounded_mantissa mx ex Vx) as (Hex & _).
    pose proof (bounded_mantissa my ey Vy) as (Hey & _).
    rewrite binary_normalize_grid by lia.
    rewrite !shl_align_fst by lia.
    f_equal. f_equal. cbn [grid].
    assert (Sx : Zpos mx * 2 ^ (ex - Z.min ex ey) * 2 ^ (Z.min ex ey + 1075)
                 = 2 * (Zpos mx * 2 ^ (ex + 1074))).
    { rewrite <- Z.mul_assoc, <- Z.pow_add_r by lia.
      replace (ex - Z.min ex ey + (Z.min ex ey + 1075)) with (Z.succ (ex + 1074)) by lia.
      rewrite Z.pow_succ_r by lia. ring. }
    assert (Sy : Zpos my * 2 ^ (ey - Z.min ex ey) * 2 ^ (Z.min ex ey + 1075)
                 = 2 * (Zpos my * 2 ^ (ey + 1074))).
    { rewrite <- Z.mul_assoc, <- Z.pow_add_r by lia.
      replace (ey - Z.min ex ey + (Z.min ex ey + 1075)) with (Z.succ (ey + 1074)) by lia.
      rewrite Z.pow_succ_r by lia. ring. }
    destruct sx, sy; cbn [cond_Zopp]; lia.
Qed.

End Operations.

(** ** Division by two rounds the exact half *)

Module Halving.
Import Binary64 Binary64Facts RoundFacts OrderFacts Monotone Operations.
Local Open Scope Z_scope.

Lemma div_eucl_pair (a b : Z) : Z.div_eucl a b = (a / b, a mod b).
Proof. unfold Z.div, Z.modulo. destruct (Z.div_eucl a b). reflexivity. Qed.

(** The quotient, exponent and location that [SFdiv] computes for a
    division by two, by the exponent of the dividend. *)
Lemma div_core_two (m : positive) (e : Z) :
  bounded prec emax m e = true ->
  SFdiv_core_binary prec emax (Zpos m) e (Zpos (2 ^ 52)) (-51) =
  if -1072 <=? e then (2 * Zpos m, e - 2, loc_Exact)
  else if -1073 <=? e then (Zpos m, -1074, loc_Exact)
  else (Zpos m / 2, -1074, if Z.even (Zpos m) then loc_Exact else loc_Inexact Eq).
Proof.
  intro B. pose proof (bounded_mantissa m e B) as (He & Hm & Hn).
  apply bounded_spec in B. destruct B as [C _].
  unfold SFdiv_core_binary.
  change (Zdigits2 (Zpos (2 ^ 52))) with 53.
  cbn [Zdigits2]. rewrite fexp_eq, digits_log2.
  destruct (Z.leb_spec (-1072) e) as [H1 | H1]; [ | destruct (Z.leb_spec (-1073) e) as [H2 | H2] ].
  - replace (Z.min (Z.max (Z.log2 (Zpos m) + 1 + e - (53 + -51) - 53) (-1074)) (e - -51))
      with (e - 2) by lia.
    replace (e - -51 - (e - 2)) with 53 by lia.
    rewrite Z.shiftl_mul_pow2, div_eucl_pair by lia.
    replace (Zpos m * 2 ^ 53) with ((2 * Zpos m) * Zpos (2 ^ 52)) by lia.
    rewrite Z.div_mul, Z.mod_mul by lia. reflexivity.
  - replace (Z.min (Z.max (Z.log2 (Zpos m) + 1 + e - (53 + -51) - 53) (-1074)) (e - -51))
      with (-1074) by lia.
    replace (e - -51 - -1074) with 52 by lia.
    rewrite Z.shiftl_mul_pow2, div_eucl_pair by lia.
    change (2 ^ 52) with (Zpos (2 ^ 52)).
    rewrite Z.div_mul, Z.mod_mul by lia. reflexivity.
  - replace (Z.min (Z.max (Z.log2 (Zpos m) + 1 + e - (53 + -51) - 53) (-1074)) (e - -51))
      with (-1074) by lia.
    replace (e - -51 - -1074) with 51 by lia.
    rewrite Z.shiftl_mul_pow2, div_eucl_pair by lia.
    change (Zpos (2 ^ 52)) with (2 * 2 ^ 51).
    rewrite Z.div_mul_cancel_r, Z.mul_mod_distr_r by lia.
    f_equal. unfold new_location.
    change (Z.even (2 * 2 ^ 51)) with true. cbv iota. unfold new_location_even.
    rewrite Zeven_mod.
    destruct (Z.eqb_spec (Zpos m mod 2) 0) as [E | N].
    + rewrite E. reflexivity.
    + assert (E : Zpos m mod 2 = 1) by (pose proof (Z.mod_pos_bound (Zpos m) 2); lia).
      rewrite E. reflexivity.
Qed.

Lemma even_location (m : Z) :
  0 <= m ->
  round_nearest_even (m / 2) (if Z.even m then loc_Exact else loc_Inexact Eq) = rne m 1.
Proof.
  intro Hm. unfold rne. change (2 ^ 1) with 2. rewrite Zeven_mod.
  pose proof (Z.mod_pos_bound m 2 ltac:(lia)) as B.
  destruct (Z.eqb_spec (m mod 2) 0) as [E | N].
  - rewrite E. reflexivity.
  - replace (m mod 2) with 1 by lia. reflexivity.
Qed.

(** Halving a valid finite value is the rounding of its exact half. *)
Lemma SFdiv_two_grid (x : spec_float) :
  valid_binary x = true -> finite x = true ->
  unsigned_zero (SFdiv prec emax x two) = unsigned_zero (round (grid x)).
Proof.
  intros V F. destruct x as [s | s | | s m e]; try discriminate.
  - reflexivity.
  - cbn [valid_binary] in V. unfold two. cbn [SFdiv grid].
    rewrite (div_core_two m e V), xorb_false_r.
    pose proof (bounded_mantissa m e V) as (He & Hm & Hn).
    pose proof (Z.log2_nonneg (Zpos m)) as L0.
    assert (Lm : Z.log2 (Zpos m) <= 52).
    { assert (Z.log2 (Zpos m) < 53); [ apply Z.log2_lt_pow2; lia | lia ]. }
    assert (Ln : -1074 < e -> Z.log2 (Zpos m) = 52).
    { intro H. assert (52 <= Z.log2 (Zpos m)); [ apply Z.log2_le_pow2; lia | lia ]. }
    rewrite round_signed by (apply grid_pos; lia).
    f_equal. unfold round_pos. rewrite log2_shift by lia.
    destruct (Z.leb_spec (-1072) e) as [H1 | H1]; [ | destruct (Z.leb_spec (-1073) e) as [H2 | H2] ].
    + change (2 * Zpos m) with (Zpos m~0).
      rewrite (round_aux_shift s (Zpos m~0) (e - 2) 1).
      * replace (Z.max (Z.log2 (Zpos m) + (e + 1074) - 52) 1) with (e + 1074) by lia.
        rewrite rne_exact by lia.
        replace (Zpos m~0) with (Zpos m * 2 ^ 1) by lia. rewrite rne_exact by lia.
        replace (e - 2 + 1) with (e + 1074 - 1075) by lia.
        apply renormalised_finish; lia.
      * lia.
      * rewrite fexp_eq. cbn [Zdigits2]. rewrite digits_log2.
        replace (Zpos m~0) with (Zpos m * 2 ^ 1) by lia. rewrite log2_shift by lia. lia.
    + assert (e = -1073) by lia. subst e.
      rewrite round_aux_noshift.
      * cbn [round_nearest_even].
        replace (Z.max (Z.log2 (Zpos m) + (-1073 + 1074) - 52) 1) with 1 by lia.
        change (-1073 + 1074) with 1. rewrite rne_exact by lia.
        apply renormalised_finish; lia.
      * rewrite fexp_eq. cbn [Zdigits2]. rewrite digits_log2. lia.
    + assert (e = -1074) by lia. subst e.
      rewrite round_aux_noshift.
      * rewrite even_location by lia.
        replace (Z.max (Z.log2 (Zpos m) + (-1074 + 1074) - 52) 1) with 1 by lia.
        change (-1074 + 1074) with 0. rewrite Z.pow_0_r, Z.mul_1_r.
        apply renormalised_finish; [ | lia ].
        split; [ apply rne_nonneg; lia | ].
        apply Z.le_trans with (2 ^ 52); [ | apply Z.pow_le_mono_r; lia ].
        apply rne_le_pow; lia.
      * rewrite fexp_eq.
        assert (D : Zdigits2 (Zpos m / 2) <= 53).
        { pose proof (Z.div_pos (Zpos m) 2 ltac:(lia) ltac:(lia)) as P.
          destruct (Zpos m / 2) as [ | q | q ] eqn:Q; cbn [Zdigits2]; try lia.
          rewrite digits_log2.
          assert (Z.log2 (Zpos q) < 53); [ | lia ].
          apply Z.log2_lt_pow2; [ lia | ].
          rewrite <- Q. apply Z.div_lt_upper_bound; lia. }
        lia.
Qed.

End Halving.

(** ** Addition and halving are monotone, the special values included *)

Module HalfSum.
Import Binary64 Binary64Facts RoundFacts OrderFacts Monotone Operations Halving.
Local Open Scope Z_scope.

Lemma SFcompare_unsigned_zero (x y : spec_float) :
  SFcompare (unsigned_zero x) (unsigned_zero y) = SFcompare x y.
Proof. destruct x, y; reflexivity. Qed.

Lemma SFleb_unsigned_zero (x y x' y' : spec_float) :
  unsigned_zero x = unsigned_zero x' -> unsigned_zero y = unsigned_zero y' ->
  SFleb x y = SFleb x' y'.
Proof.
  intros Hx Hy. unfold SFleb.
  rewrite <- (SFcompare_unsigned_zero x y), <- (SFcompare_unsigned_zero x' y'), Hx, Hy.
  reflexivity.
Qed.

Lemma SFleb_grid (x y : spec_float) :
  valid_binary x = true -> valid_binary y = true ->
  finite x = true -> finite y = true ->
  SFleb x y = true -> grid x <= grid y.
Proof.
  intros Vx Vy Fx Fy. unfold SFleb. rewrite SFcompare_grid by assumption.
  destruct (Z.compare_spec (grid x) (grid y)); try discriminate; lia.
Qed.

(** [x <= y] and [y < x] exclude each other; without a NaN one of them
    holds. *)
Lemma SFleb_SFltb (x y : spec_float) :
  SFleb x y = true -> SFltb y x = false.
Proof.
  unfold SFleb, SFltb. rewrite (Order.SFcompare_swap x y).
  destruct (SFcompare x y) as [[ | | ] | ]; try reflexivity; discriminate.
Qed.

Lemma SFltb_SFleb (x y : spec_float) :
  x <> S754_nan -> y <> S754_nan -> SFltb y x = false -> SFleb x y = true.
Proof.
  intros Hx Hy. unfold SFleb, SFltb. rewrite (Order.SFcompare_swap x y).
  destruct (SFcompare x y) as [[ | | ] | ] eqn:E; try reflexivity; try discriminate.
  apply Order.SFcompare_None in E. tauto.
Qed.

Lemma SFltb_nan_l (x : spec_float) : SFltb S754_nan x = false.
Proof. reflexivity. Qed.

Lemma SFltb_nan_r (x : spec_float) : SFltb x S754_nan = false.
Proof. destruct x; reflexivity. Qed.

Lemma round_not_nan (K : Z) : round K <> S754_nan.
Proof.
  destruct K as [ | k | k ]; cbn [round]; try discriminate; unfold round_pos;
    match goal with |- finish ?s ?q ?t <> _ =>
      destruct (finish_sign s q t) as [E | [E | (m & e & E)]]; rewrite E; discriminate end.
Qed.

Lemma finite_unsigned_zero (x y : spec_float) :
  unsigned_zero x = unsigned_zero y -> y <> S754_nan -> x <> S754_nan.
Proof. destruct x, y; try discriminate; congruence. Qed.

(** The sum of finite values is monotone in both of them. *)
Lemma SFadd_mono_finite (a a' b b' : spec_float) :
  valid_binary a = true -> valid_binary a' = true ->
  valid_binary b = true -> valid_binary b' = true ->
  finite a = true -> finite a' = true -> finite b = true -> finite b' = true ->
  SFleb a a' = true -> SFleb b b' = true ->
  SFleb (SFadd prec emax a b) (SFadd prec emax a' b') = true.
Proof.
  intros Va Va' Vb Vb' Fa Fa' Fb Fb' Ha Hb.
  apply SFleb_grid in Ha; try assumption.
  apply SFleb_grid in Hb; try assumption.
  rewrite (SFleb_unsigned_zero _ _ _ _
             (SFadd_grid a b Va Vb Fa Fb) (SFadd_grid a' b' Va' Vb' Fa' Fb')).
  apply round_mono. lia.
Qed.

Lemma SFltb_pos_inf_l (x : spec_float) : SFltb (S754_infinity false) x = false.
Proof. destruct x as [ | [ | ] | | ]; reflexivity. Qed.

Lemma SFltb_neg_inf_r (x : spec_float) : SFltb x (S754_infinity true) = false.
Proof. destruct x as [ | [ | ] | | ]; reflexivity. Qed.

Lemma SFleb_neg_inf_l (x : spec_float) :
  x <> S754_nan -> SFleb (S754_infinity true) x = true.
Proof. destruct x as [ | [ | ] | | ]; intro; try reflexivity; congruence. Qed.

Lemma SFleb_pos_inf_r (x : spec_float) :
  x <> S754_nan -> SFleb x (S754_infinity false) = true.
Proof. destruct x as [ | [ | ] | | ]; intro; try reflexivity; congruence. Qed.

(** The sum never decreases when its first operand grows, whatever the
    operands are. *)
Lemma SFadd_mono_l (a a' b : spec_float) :
  valid_binary a = true -> valid_binary a' = true -> valid_binary b = true ->
  SFleb a a' = true ->
  SFltb (SFadd prec emax a' b) (SFadd prec emax a b) = false.
Proof.
  intros Va Va' Vb Ha.
  destruct (finite a && finite a' && finite b)%bool eqn:F.
  - apply andb_true_iff in F. destruct F as [F Fb].
    apply andb_true_iff in F. destruct F as [Fa Fa'].
    apply SFleb_SFltb. apply SFadd_mono_finite; try assumption.
    apply SFleb_refl. destruct b; discriminate.
  - clear Va Va' Vb.
    destruct a as [sa | [ | ] | | sa ma ea], a' as [sa' | [ | ] | | sa' ma' ea'];
      try discriminate Ha;
      destruct b as [sb | [ | ] | | sb mb eb]; try discriminate F;
      cbn [SFadd]; try reflexivity;
      try apply SFltb_pos_inf_l; try apply SFltb_neg_inf_r; try apply SFltb_nan_r.
Qed.

Lemma SFadd_comm (x y : spec_float) : SFadd prec emax x y = SFadd prec emax y x.
Proof.
  destruct x as [[ | ] | [ | ] | | sx mx ex], y as [[ | ] | [ | ] | | sy my ey];
    try reflexivity.
  cbn [SFadd]. rewrite (Z.min_comm ex ey), Z.add_comm. reflexivity.
Qed.

Lemma SFadd_mono_r (a b b' : spec_float) :
  valid_binary a = true -> valid_binary b = true -> valid_binary b' = true ->
  SFleb b b' = true ->
  SFltb (SFadd prec emax a b') (SFadd prec emax a b) = false.
Proof.
  intros Va Vb Vb' Hb. rewrite (SFadd_comm a b'), (SFadd_comm a b).
  apply SFadd_mono_l; assumption.
Qed.

Lemma SFdiv_two_not_nan (x : spec_float) :
  valid_binary x = true -> x <> S754_nan -> SFdiv prec emax x two <> S754_nan.
Proof.
  intros V N. destruct x as [s | s | | s m e]; try discriminate; try congruence.
  apply (finite_unsigned_zero _ _ (SFdiv_two_grid (S754_finite s m e) V eq_refl)).
  destruct (round (grid (S754_finite s m e))) eqn:E; try discriminate.
  exfalso. exact (round_not_nan _ E).
Qed.

(** Halving is monotone. *)
Lemma SFdiv_two_mono (x y : spec_float) :
  valid_binary x = true -> valid_binary y = true ->
  SFleb x y = true ->
  SFleb (SFdiv prec emax x two) (SFdiv prec emax y two) = true.
Proof.
  intros Vx Vy H.
  assert (Nx : x <> S754_nan) by (intro E; subst x; discriminate H).
  assert (Ny : y <> S754_nan) by (intro E; subst y; destruct x; discriminate H).
  pose proof (SFdiv_two_not_nan x Vx Nx) as Dx.
  pose proof (SFdiv_two_not_nan y Vy Ny) as Dy.
  destruct (finite x && finite y)%bool eqn:F.
  - apply andb_true_iff in F. destruct F as [Fx Fy].
    rewrite (SFleb_unsigned_zero _ _ _ _
               (SFdiv_two_grid x Vx Fx) (SFdiv_two_grid y Vy Fy)).
    apply round_mono. apply SFleb_grid; assumption.
  - unfold two in *.
    destruct x as [sx | [ | ] | | sx mx ex], y as [sy | [ | ] | | sy my ey];
      try congruence; try discriminate F; try discriminate H;
      cbn [SFdiv xorb] in *;
      try reflexivity;
      try (apply SFleb_pos_inf_r; assumption);
      try (apply SFleb_neg_inf_l; assumption).
    all: destruct sx; reflexivity.
Qed.

End HalfSum.
(** ** The average of two scores, on primitive floats *)

Module Average.
Import Binary64 Binary64Facts RoundFacts OrderFacts Monotone Operations Halving HalfSum.

Lemma Prim2SF_two : Prim2SF 2 = two.
Proof. vm_compute. reflexivity. Qed.

Lemma Prim2SF_add (x y : float) :
  Prim2SF (x + y) = SFadd prec emax (Prim2SF x) (Prim2SF y).
Proof. apply add_spec. Qed.

Lemma Prim2SF_half (x : float) :
  Prim2SF (x / 2) = SFdiv prec emax (Prim2SF x) two.
Proof. rewrite div_spec, Prim2SF_two. reflexivity. Qed.

Lemma nan_or_not (x : spec_float) : x = S754_nan \/ x <> S754_nan.
Proof. destruct x; auto; right; discriminate. Qed.

(** Halving never inverts an order, NaN or not. *)
Lemma SF_half_mono (x y : spec_float) :
  valid_binary x = true -> valid_binary y = true ->
  SFltb y x = false ->
  SFltb (SFdiv prec emax y two) (SFdiv prec emax x two) = false.
Proof.
  intros Vx Vy H.
  destruct (nan_or_not x) as [Nx | Nx]; [ subst x; apply SFltb_nan_r | ].
  destruct (nan_or_not y) as [Ny | Ny]; [ subst y; apply SFltb_nan_l | ].
  apply SFleb_SFltb, SFdiv_two_mono; try assumption.
  apply SFltb_SFleb; assumption.
Qed.

Lemma half_mono (s s' : float) :
  (s' <? s) = false -> (s' / 2 <? s / 2) = false.
Proof.
  rewrite !ltb_spec, !Prim2SF_half. apply SF_half_mono; apply Prim2SF_valid.
Qed.

(** C7, on the numbers: the average never decreases when one of the two
    scores grows. *)
Lemma average_mono_l (a a' b : float) :
  (a <=? a') = true -> ((a' + b) / 2 <? (a + b) / 2) = false.
Proof.
  intro H. apply half_mono. rewrite ltb_spec, !Prim2SF_add.
  rewrite leb_spec in H. apply SFadd_mono_l; try apply Prim2SF_valid. exact H.
Qed.

Lemma average_mono_r (a b b' : float) :
  (b <=? b') = true -> ((a + b') / 2 <? (a + b) / 2) = false.
Proof.
  intro H. apply half_mono. rewrite ltb_spec, !Prim2SF_add.
  rewrite leb_spec in H. apply SFadd_mono_r; try apply Prim2SF_valid. exact H.
Qed.

Lemma between_finite (lo x hi : spec_float) :
  finite lo = true -> finite hi = true ->
  SFleb lo x = true -> SFleb x hi = true -> finite x = true.
Proof.
  destruct x as [ | [ | ] | | ]; try reflexivity;
    destruct lo as [ | [ | ] | | ], hi as [ | [ | ] | | ]; discriminate.
Qed.

(** The average of finite scores is monotone in both. *)
Lemma average_mono (a a' b b' : float) :
  finite (Prim2SF a) = true -> finite (Prim2SF a') = true ->
  finite (Prim2SF b) = true -> finite (Prim2SF b') = true ->
  (a <=? a') = true -> (b <=? b') = true ->
  ((a + b) / 2 <=? (a' + b') / 2) = true.
Proof.
  intros Fa Fa' Fb Fb' Ha Hb. rewrite leb_spec in *.
  rewrite !Prim2SF_half. apply SFdiv_two_mono.
  - apply Prim2SF_valid.
  - apply Prim2SF_valid.
  - rewrite !Prim2SF_add.
    apply SFadd_mono_finite; try apply Prim2SF_valid; assumption.
Qed.

(** C6, on the numbers: the average of two scores of [0,1] is in [0,1]. *)
Lemma average_unit (v l : float) :
  (0 <=? v) = true -> (v <=? 1) = true ->
  (0 <=? l) = true -> (l <=? 1) = true ->
  (0 <=? (v + l) / 2) = true /\ ((v + l) / 2 <=? 1) = true.
Proof.
  intros V0 V1 L0 L1.
  assert (F0 : finite (Prim2SF 0) = true) by (vm_compute; reflexivity).
  assert (F1 : finite (Prim2SF 1) = true) by (vm_compute; reflexivity).
  assert (Fv : finite (Prim2SF v) = true).
  { apply (between_finite (Prim2SF 0) _ (Prim2SF 1) F0 F1); rewrite <- leb_spec; assumption. }
  assert (Fl : finite (Prim2SF l) = true).
  { apply (between_finite (Prim2SF 0) _ (Prim2SF 1) F0 F1); rewrite <- leb_spec; assumption. }
  split.
  - pose proof (average_mono 0 v 0 l F0 Fv F0 Fl V0 L0) as H.
    replace ((0 + 0) / 2)%float with 0%float in H by (vm_compute; reflexivity).
    exact H.
  - pose proof (average_mono v 1 l 1 Fv F1 Fl F1 V1 L1) as H.
    replace ((1 + 1) / 2)%float with 1%float in H by (vm_compute; reflexivity).
    exact H.
Qed.

Lemma SFleb_SFltb_trans (a b c : spec_float) :
  valid_binary a = true -> valid_binary b = true -> valid_binary c = true ->
  SFleb a b = true -> SFltb b c = true -> SFltb a c = true.
Proof.
  intros Va Vb Vc Hab Hbc.
  destruct (finite a && finite b && finite c)%bool eqn:F.
  - apply andb_true_iff in F. destruct F as [F Fc].
    apply andb_true_iff in F. destruct F as [Fa Fb].
    unfold SFleb, SFltb in *.
    rewrite SFcompare_grid in * by assumption.
    destruct (Z.compare_spec (grid a) (grid b)); try discriminate;
      destruct (Z.compare_spec (grid b) (grid c)); try discriminate;
      destruct (Z.compare_spec (grid a) (grid c)); try reflexivity; lia.
  - clear Va Vb Vc.
    destruct a as [sa | [ | ] | | sa ma ea], b as [sb | [ | ] | | sb mb eb];
      try discriminate Hab;
      destruct c as [sc | [ | ] | | sc mc ec];
      try discriminate Hbc; try discriminate F; try reflexivity.
    all: try (destruct sb; discriminate Hbc).
    all: try (destruct sa; discriminate Hab).
Qed.

(** What is above a bound is above every smaller bound. *)
Lemma leb_ltb_trans (a b c : float) :
  (a <=? b) = true -> (b <? c) = true -> (a <? c) = true.
Proof.
  rewrite leb_spec, !ltb_spec.
  apply SFleb_SFltb_trans; apply Prim2SF_valid.
Qed.

Lemma ltb_irrefl (x : float) : (x <? x) = false.
Proof.
  rewrite ltb_spec. unfold SFltb.
  destruct (nan_or_not (Prim2SF x)) as [N | N].
  - rewrite N. reflexivity.
  - rewrite Order.SFcompare_refl by assumption. reflexivity.
Qed.

Lemma Prim2SF_nan : Prim2SF nan = S754_nan.
Proof. vm_compute. reflexivity. Qed.

(** An absent score makes the sum, and the average, NaN. *)
Lemma add_nan_l (y : float) : (nan + y = nan)%float.
Proof. apply Prim2SF_inj. rewrite Prim2SF_add, Prim2SF_nan. reflexivity. Qed.

Lemma add_nan_r (x : float) : (x + nan = nan)%float.
Proof.
  apply Prim2SF_inj. rewrite Prim2SF_add, Prim2SF_nan.
  destruct (Prim2SF x); reflexivity.
Qed.

Lemma half_nan : (nan / 2 = nan)%float.
Proof. vm_compute. reflexivity. Qed.

End Average.

(** ** The average of two scores of [0,1] lies between them *)

Module Midpoint.
Import Binary64 Binary64Facts RoundFacts OrderFacts Monotone Operations Halving HalfSum Average.

Section Doubling.
Local Open Scope Z_scope.

(** A valid value that is at most 1 has an exponent of at most 0. *)
Lemma exponent_le_one (m : positive) (e : Z) :
  bounded prec emax m e = true ->
  Zpos m * 2 ^ (e + 1074) <= grid one -> e <= 0.
Proof.
  intros B H. apply bounded_mantissa in B. destruct B as [[Lo _] _].
  unfold grid, one, cond_Zopp in H.
  replace (-52 + 1074) with 1022 in H by reflexivity.
  assert (P : 0 < 2 ^ (e + 1074)) by (apply Z.pow_pos_nonneg; lia).
  assert (Q : 2 ^ (e + 1074) <= 2 ^ 1074).
  { replace (2 ^ 1074) with (Zpos (2 ^ 52) * 2 ^ 1022).
    - nia.
    - change (Zpos (2 ^ 52)) with (2 ^ 52). rewrite <- Z.pow_add_r by lia. reflexivity. }
  apply Z.pow_le_mono_r_iff in Q; lia.
Qed.

(** The double of a valid value of [0,1] is a valid value. *)
Lemma double_valid (m : positive) (e : Z) :
  bounded prec emax m e = true -> e <= 0 ->
  exists m' e',
    bounded prec emax m' e' = true /\
    Zpos m' * 2 ^ (e' + 1074) = 2 * (Zpos m * 2 ^ (e + 1074)).
Proof.
  intros B E. pose proof (bounded_mantissa m e B) as [[Lo Hi] [M53 M52]].
  apply bounded_spec in B. destruct B as [F _].
  destruct (Z_lt_le_dec (Zpos m) (2 ^ 52)) as [Sub | Nor].
  - assert (e = -1074) by (destruct (Z.eq_dec e (-1074)); [ assumption | lia ]).
    subst e. exists (m~0)%positive, (-1074). split.
    + apply bounded_spec. split; [ | lia ].
      assert (L : Z.log2 (Zpos m~0) < 53).
      { apply Z.log2_lt_pow2; [ lia | ]. change (2 ^ 53) with (2 * 2 ^ 52). lia. }
      lia.
    + change (-1074 + 1074) with 0. lia.
  - exists m, (e + 1). split.
    + apply bounded_spec. split; [ | lia ].
      assert (L : Z.log2 (Zpos m) = 52).
      { apply Z.log2_unique; [ lia | ]. change (52 + 1) with 53. lia. }
      rewrite L in *. lia.
    + replace (e + 1 + 1074) with (Z.succ (e + 1074)) by lia.
      rewrite Z.pow_succ_r by lia. lia.
Qed.

End Doubling.

(** A value of [0,1] added to itself and halved is that value. *)
Lemma SF_average_same (a : spec_float) :
  valid_binary a = true ->
  SFleb (S754_zero false) a = true -> SFleb a one = true ->
  SFdiv prec emax (SFadd prec emax a a) two = a.
Proof.
  intros V Lo Hi.
  destruct a as [s | s | | s m e].
  - destruct s; vm_compute; reflexivity.
  - destruct s; discriminate.
  - discriminate.
  - destruct s; [ discriminate Lo | ].
    assert (G : (Zpos m * 2 ^ (e + 1074) <= grid one)%Z).
    { apply (SFleb_grid (S754_finite false m e) one V eq_refl eq_refl eq_refl Hi). }
    pose proof (exponent_le_one m e V G) as E.
    destruct (double_valid m e V E) as [m' [e' [V' D]]].
    set (a := S754_finite false m e) in *.
    set (x := S754_finite false m' e').
    assert (Gx : grid x = (2 * grid a)%Z) by exact D.
    assert (S : SFadd prec emax a a = x).
    { pose proof (SFadd_grid a a V V eq_refl eq_refl) as A.
      replace (2 * (grid a + grid a))%Z with (2 * grid x)%Z in A by lia.
      rewrite (round_grid x V' eq_refl) in A.
      destruct (SFadd prec emax a a); try discriminate A; exact A. }
    rewrite S.
    pose proof (SFdiv_two_grid x V' eq_refl) as H.
    rewrite Gx, (round_grid a V eq_refl) in H.
    destruct (SFdiv prec emax x two); try discriminate H; exact H.
Qed.

Lemma SFleb_trans (a b c : spec_float) :
  valid_binary a = true -> valid_binary b = true -> valid_binary c = true ->
  SFleb a b = true -> SFleb b c = true -> SFleb a c = true.
Proof.
  intros Va Vb Vc Hab Hbc.
  destruct (finite a && finite b && finite c)%bool eqn:F.
  - apply andb_true_iff in F. destruct F as [F Fc].
    apply andb_true_iff in F. destruct F as [Fa Fb].
    unfold SFleb in *.
    rewrite SFcompare_grid in * by assumption.
    destruct (Z.compare_spec (grid a) (grid b)); try discriminate;
      destruct (Z.compare_spec (grid b) (grid c)); try discriminate;
      destruct (Z.compare_spec (grid a) (grid c)); try reflexivity; lia.
  - clear Va Vb Vc.
    destruct a as [sa | [ | ] | | sa ma ea], b as [sb | [ | ] | | sb mb eb];
      try discriminate Hab;
      destruct c as [sc | [ | ] | | sc mc ec];
      try discriminate Hbc; try discriminate F; try reflexivity.
    all: try (destruct sb; discriminate Hbc).
    all: try (destruct sa; discriminate Hab).
Qed.

Lemma SFltb_SFleb_trans (a b c : spec_float) :
  valid_binary a = true -> valid_binary b = true -> valid_binary c = true ->
  SFltb a b = true -> SFleb b c = true -> SFltb a c = true.
Proof.
  intros Va Vb Vc Hab Hbc.
  destruct (finite a && finite b && finite c)%bool eqn:F.
  - apply andb_true_iff in F. destruct F as [F Fc].
    apply andb_true_iff in F. destruct F as [Fa Fb].
    unfold SFleb, SFltb in *.
    rewrite SFcompare_grid in * by assumption.
    destruct (Z.compare_spec (grid a) (grid b)); try discriminate;
      destruct (Z.compare_spec (grid b) (grid c)); try discriminate;
      destruct (Z.compare_spec (grid a) (grid c)); try reflexivity; lia.
  - clear Va Vb Vc.
    destruct a as [sa | [ | ] | | sa ma ea], b as [sb | [ | ] | | sb mb eb];
      try discriminate Hab;
      destruct c as [sc | [ | ] | | sc mc ec];
      try discriminate Hbc; try discriminate F; try reflexivity.
    all: try (destruct sb; discriminate Hbc).
    all: try (destruct sa; discriminate Hab).
Qed.

Local Open Scope float_scope.

Lemma Prim2SF_zero : Prim2SF 0 = S754_zero false.
Proof. vm_compute. reflexivity. Qed.

Lemma Prim2SF_one : Prim2SF 1 = one.
Proof. vm_compute. reflexivity. Qed.

Lemma leb_trans (a b c : float) :
  (a <=? b) = true -> (b <=? c) = true -> (a <=? c) = true.
Proof. rewrite !leb_spec. apply SFleb_trans; apply Prim2SF_valid. Qed.

Lemma ltb_leb_trans (a b c : float) :
  (a <? b) = true -> (b <=? c) = true -> (a <? c) = true.
Proof. rewrite leb_spec, !ltb_spec. apply SFltb_SFleb_trans; apply Prim2SF_valid. Qed.

Lemma leb_not_ltb (a b : float) : (a <=? b) = true -> (b <? a) = false.
Proof. rewrite leb_spec, ltb_spec. apply SFleb_SFltb. Qed.

(** Two equal scores average to that score. *)
Lemma average_same (a : float) :
  (0 <=? a) = true -> (a <=? 1) = true -> (a + a) / 2 = a.
Proof.
  intros Lo Hi. apply Prim2SF_inj. rewrite Prim2SF_half, Prim2SF_add.
  rewrite leb_spec, ?Prim2SF_zero, ?Prim2SF_one in Lo, Hi.
  apply SF_average_same; [ apply Prim2SF_valid | assumption | assumption ].
Qed.

(** A number of [0,1] is finite. *)
Lemma unit_finite (a : float) :
  (0 <=? a) = true -> (a <=? 1) = true -> finite (Prim2SF a) = true.
Proof.
  intros Lo Hi. rewrite leb_spec in Lo, Hi.
  apply (between_finite (Prim2SF 0) _ (Prim2SF 1)); try assumption;
    vm_compute; reflexivity.
Qed.

(** The sum of two numbers is the same in both orders. *)
Lemma add_comm (x y : float) : x + y = y + x.
Proof. apply Prim2SF_inj. rewrite !Prim2SF_add. apply SFadd_comm. Qed.

(** The average of two scores of [0,1] is at least the smaller and at most
    the larger. *)
Lemma average_between (v l : float) :
  (0 <=? v) = true -> (v <=? l) = true -> (l <=? 1) = true ->
  (v <=? (v + l) / 2) = true /\ ((v + l) / 2 <=? l) = true.
Proof.
  intros V0 VL L1.
  pose proof (leb_trans _ _ _ V0 VL) as L0.
  pose proof (leb_trans _ _ _ VL L1) as V1.
  pose proof (unit_finite v V0 V1) as Fv.
  pose proof (unit_finite l L0 L1) as Fl.
  split.
  - pose proof (average_mono v v v l Fv Fv Fv Fl) as H.
    rewrite (average_same v V0 V1) in H. apply H; [ | exact VL ].
    rewrite leb_spec. apply SFleb_refl. intro N.
    rewrite leb_spec, N in V0. discriminate V0.
  - pose proof (average_mono v l l l Fv Fl Fl Fl VL) as H.
    rewrite (average_same l L0 L1) in H. apply H.
    rewrite leb_spec. apply SFleb_refl. intro N.
    rewrite leb_spec, N in L1. destruct (Prim2SF 1); discriminate L1.
Qed.

End Midpoint.

(** ** No text with a [u] in it is a number *)

Module Conversions.

Local Open Scope string_scope.

Lemma includes_append (c : ascii) (s t : string) :
  includes c (s ++ t) = includes c s || includes c t.
Proof.
  induction s as [ | a rest IH ]; [ reflexivity | ].
  cbn [String.append includes]. rewrite IH. apply orb_assoc.
Qed.

(** A byte with a code other than that of [u] is not [u]. *)
Lemma code_not_u (a : ascii) (n : nat) :
  n <> 117%nat -> Nat.eqb (nat_of_ascii a) n = true -> Ascii.eqb a "u" = false.
Proof.
  intros N E. apply Nat.eqb_eq in E.
  destruct (Ascii.eqb a "u") eqn:U; [ | reflexivity ].
  apply Ascii.eqb_eq in U. subst a. destruct (N (eq_sym E)).
Qed.

Lemma white1_not_u (a : ascii) : white1 a = true -> Ascii.eqb a "u" = false.
Proof.
  intro W. destruct (Ascii.eqb a "u") eqn:U; [ | reflexivity ].
  apply Ascii.eqb_eq in U. subst a. discriminate W.
Qed.

Lemma white2_not_u (a b : ascii) :
  white2 a b = true -> Ascii.eqb a "u" = false /\ Ascii.eqb b "u" = false.
Proof.
  unfold white2. intro W. apply andb_true_iff in W. destruct W as [A B].
  split; [ apply (code_not_u a 194) | apply (code_not_u b 160) ];
    try assumption; discriminate.
Qed.

Lemma white3_not_u (a b c : ascii) :
  white3 a b c = true ->
  Ascii.eqb a "u" = false /\ Ascii.eqb b "u" = false /\ Ascii.eqb c "u" = false.
Proof.
  intro W. repeat split.
  - destruct (Ascii.eqb a "u") eqn:U; [ | reflexivity ].
    apply Ascii.eqb_eq in U. subst a. discriminate W.
  - destruct (Ascii.eqb b "u") eqn:U; [ | reflexivity ].
    apply Ascii.eqb_eq in U. subst b. unfold white3 in W. cbn in W.
    rewrite !andb_false_r in W. discriminate W.
  - destruct (Ascii.eqb c "u") eqn:U; [ | reflexivity ].
    apply Ascii.eqb_eq in U. subst c. unfold white3 in W. cbn in W.
    rewrite !andb_false_r in W. discriminate W.
Qed.

(** Trimming takes no [u] away. *)
Lemma trim_start_u_bounded (n : nat) (s : string) :
  (String.length s <= n)%nat -> includes "u" (trim_start s) = includes "u" s.
Proof.
  revert s. induction n as [ | n IH ]; intros s L.
  - destruct s; [ reflexivity | cbn in L; lia ].
  - destruct s as [ | a r1 ]; [ reflexivity | ]. cbn [String.length] in L.
    cbn [trim_start]. destruct (white1 a) eqn:W1.
    { rewrite IH by lia. cbn [includes]. rewrite (white1_not_u a W1). reflexivity. }
    destruct r1 as [ | b r2 ]; [ reflexivity | ]. cbn [String.length] in L.
    destruct (white2 a b) eqn:W2.
    { rewrite IH by lia. cbn [includes].
      destruct (white2_not_u a b W2) as [A B]. rewrite A, B. reflexivity. }
    destruct r2 as [ | c r3 ]; [ reflexivity | ]. cbn [String.length] in L.
    destruct (white3 a b c) eqn:W3; [ | reflexivity ].
    rewrite IH by lia. cbn [includes].
    destruct (white3_not_u a b c W3) as [A [B C]]. rewrite A, B, C. reflexivity.
Qed.

Lemma trim_start_u (s : string) : includes "u" (trim_start s) = includes "u" s.
Proof. apply (trim_start_u_bounded (String.length s)). apply Nat.le_refl. Qed.

Lemma digit_not_u (base : Z) (a : ascii) (d : Z) :
  digit base a = Some d -> Ascii.eqb a "u" = false.
Proof.
  intro D. destruct (Ascii.eqb a "u") eqn:U; [ | reflexivity ].
  apply Ascii.eqb_eq in U. subst a. discriminate D.
Qed.

(** Reading digits takes no [u] away. *)
Lemma digits_u (base : Z) (s : string) :
  forall acc count v n rest,
    digits base acc count s = (v, n, rest) -> includes "u" rest = includes "u" s.
Proof.
  induction s as [ | a r IH ]; intros acc count v n rest D; cbn [digits] in D.
  - injection D as _ _ R. subst rest. reflexivity.
  - destruct (digit base a) as [ d | ] eqn:G.
    + rewrite (IH _ _ _ _ _ D). cbn [includes].
      rewrite (digit_not_u base a d G). reflexivity.
    + injection D as _ _ R. subst rest. reflexivity.
Qed.

Lemma after_prefix_u (prefix : string) :
  includes "u" prefix = false ->
  forall s rest, after_prefix prefix s = Some rest -> includes "u" rest = includes "u" s.
Proof.
  induction prefix as [ | a p IH ]; intros N s rest A; cbn [after_prefix] in A.
  - injection A as A. subst rest. reflexivity.
  - cbn [includes] in N. apply orb_false_iff in N. destruct N as [Na Np].
    destruct s as [ | b r ]; [ discriminate A | ].
    destruct (Ascii.eqb a b) eqn:E; [ | discriminate A ].
    apply Ascii.eqb_eq in E. subst b.
    rewrite (IH Np _ _ A). cbn [includes]. rewrite Na. reflexivity.
Qed.

Lemma exponent_u (s : string) (e : Z) (rest : string) :
  exponent s = (e, rest) -> includes "u" rest = includes "u" s.
Proof.
  unfold exponent. destruct s as [ | a r ].
  - intro E. injection E as _ R. subst rest. reflexivity.
  - destruct (Ascii.eqb a "e" || Ascii.eqb a "E") eqn:H.
    2:{ intro E. injection E as _ R. subst rest. reflexivity. }
    assert (Na : Ascii.eqb a "u" = false).
    { apply orb_true_iff in H. destruct H as [H | H];
        apply Ascii.eqb_eq in H; subst a; reflexivity. }
    assert (S : forall sign r1,
               (let '(v, n, r2) := digits 10 0 0 r1 in
                match n with
                | O => (0%Z, String a r)
                | S _ => ((sign * v)%Z, r2)
                end) = (e, rest) ->
               includes "u" r1 = includes "u" r ->
               includes "u" rest = includes "u" (String a r)).
    { intros sign r1. destruct (digits 10 0 0 r1) as [[v n] r2] eqn:D.
      destruct n; intros E R1; injection E as _ R; subst rest; [ reflexivity | ].
      rewrite (digits_u _ _ _ _ _ _ _ D), R1. cbn [includes]. rewrite Na. reflexivity. }
    destruct r as [ | b r' ]; [ intro E; apply (S 1%Z EmptyString E); reflexivity | ].
    destruct (Ascii.eqb b "+") eqn:Plus.
    { intro E. apply (S 1%Z r' E). apply Ascii.eqb_eq in Plus. subst b. reflexivity. }
    destruct (Ascii.eqb b "-") eqn:Minus.
    { intro E. apply (S (-1)%Z r' E). apply Ascii.eqb_eq in Minus. subst b. reflexivity. }
    intro E. apply (S 1%Z (String b r') E). reflexivity.
Qed.

Lemma unsigned_decimal_u (negative : bool) (s : string) (v : float) (rest : string) :
  unsigned_decimal negative s = Some (v, rest) -> includes "u" rest = includes "u" s.
Proof.
  unfold unsigned_decimal.
  destruct (after_prefix "Infinity" s) as [ r | ] eqn:A.
  { intro E. injection E as _ R. subst rest. apply (after_prefix_u "Infinity" eq_refl _ _ A). }
  destruct (digits 10 0 0 s) as [[whole n] r1] eqn:D1.
  pose proof (digits_u _ _ _ _ _ _ _ D1) as U1.
  assert (Plain : match n with
                  | O => None
                  | S _ => let '(e, r4) := exponent r1 in Some (decimal negative whole e, r4)
                  end = Some (v, rest) -> includes "u" rest = includes "u" s).
  { destruct n; [ discriminate | ].
    destruct (exponent r1) as [e r4] eqn:X. intro E. injection E as _ R. subst rest.
    rewrite (exponent_u _ _ _ X). exact U1. }
  destruct r1 as [ | a r2 ]; [ exact Plain | ].
  destruct (Ascii.eqb a ".") eqn:Dot.
  - apply Ascii.eqb_eq in Dot. subst a.
    destruct (digits 10 whole 0 r2) as [[m f] r3] eqn:D2.
    pose proof (digits_u _ _ _ _ _ _ _ D2) as U2.
    assert (Frac : (let '(e, r4) := exponent r3 in
                    Some (decimal negative m (e - Z.of_nat f), r4)) = Some (v, rest) ->
                   includes "u" rest = includes "u" s).
    { destruct (exponent r3) as [e r4] eqn:X. intro E. injection E as _ R. subst rest.
      rewrite (exponent_u _ _ _ X), U2, <- U1. reflexivity. }
    destruct n, f; try exact Frac. discriminate.
  - destruct a as [[ | ] [ | ] [ | ] [ | ] [ | ] [ | ] [ | ] [ | ]];
      try discriminate Dot; exact Plain.
Qed.

Lemma non_decimal_u (s : string) (v : float) (rest : string) :
  non_decimal s = Some (v, rest) -> includes "u" rest = includes "u" s.
Proof.
  unfold non_decimal. destruct s as [ | a [ | x r ] ]; try discriminate.
  - destruct a as [[ | ] [ | ] [ | ] [ | ] [ | ] [ | ] [ | ] [ | ]]; discriminate.
  - destruct (Ascii.eqb a "0") eqn:Zero.
    2:{ destruct a as [[ | ] [ | ] [ | ] [ | ] [ | ] [ | ] [ | ] [ | ]];
          try discriminate Zero; discriminate. }
    apply Ascii.eqb_eq in Zero. subst a.
    assert (Nx : forall y, Ascii.eqb x y = true -> Ascii.eqb y "u" = false ->
                           Ascii.eqb x "u" = false).
    { intros y E N. apply Ascii.eqb_eq in E. subst y. exact N. }
    assert (R : forall b,
               (let '(v', n, rest') := digits b 0 0 r in
                match n with
                | O => None
                | S _ => Some (nearest false v' 1, rest')
                end) = Some (v, rest) ->
               Ascii.eqb x "u" = false ->
               includes "u" rest = includes "u" (String "0" (String x r))).
    { intros b. destruct (digits b 0 0 r) as [[v' n] rest'] eqn:D.
      destruct n; [ discriminate | ]. intros E X. injection E as _ E. subst rest'.
      rewrite (digits_u _ _ _ _ _ _ _ D). cbn [includes]. rewrite X. reflexivity. }
    destruct (Ascii.eqb x "x" || Ascii.eqb x "X") eqn:Hx.
    { intro E. apply (R _ E). apply orb_true_iff in Hx.
      destruct Hx as [H | H]; apply (Nx _ H); reflexivity. }
    destruct (Ascii.eqb x "o" || Ascii.eqb x "O") eqn:Ho.
    { intro E. apply (R _ E). apply orb_true_iff in Ho.
      destruct Ho as [H | H]; apply (Nx _ H); reflexivity. }
    destruct (Ascii.eqb x "b" || Ascii.eqb x "B") eqn:Hb; [ | discriminate ].
    intro E. apply (R _ E). apply orb_true_iff in Hb.
    destruct Hb as [H | H]; apply (Nx _ H); reflexivity.
Qed.

Lemma numeric_literal_u (s : string) (v : float) (rest : string) :
  numeric_literal s = Some (v, rest) -> includes "u" rest = includes "u" s.
Proof.
  unfold numeric_literal. destruct (non_decimal s) as [[v' rest'] | ] eqn:N.
  { intro E. injection E as _ R. subst rest'. apply (non_decimal_u _ _ _ N). }
  destruct s as [ | a r ]; [ apply unsigned_decimal_u | ].
  destruct (Ascii.eqb a "+") eqn:Plus.
  { apply Ascii.eqb_eq in Plus. subst a. intro E.
    rewrite (unsigned_decimal_u _ _ _ _ E). reflexivity. }
  destruct (Ascii.eqb a "-") eqn:Minus.
  { apply Ascii.eqb_eq in Minus. subst a. intro E.
    rewrite (unsigned_decimal_u _ _ _ _ E). reflexivity. }
  destruct a as [[ | ] [ | ] [ | ] [ | ] [ | ] [ | ] [ | ] [ | ]];
    try discriminate Plus; try discriminate Minus; apply unsigned_decimal_u.
Qed.

Lemma is_empty_u (s : string) : is_empty s = true -> includes "u" s = false.
Proof. destruct s; [ reflexivity | discriminate ]. Qed.

(** A text that has a [u] in it converts to NaN. *)
Lemma StringToNumber_u (s : string) :
  includes "u" s = true -> StringToNumber s = nan.
Proof.
  intro U. unfold StringToNumber.
  destruct (is_empty (trim_start s)) eqn:E.
  { apply is_empty_u in E. rewrite trim_start_u in E. congruence. }
  destruct (numeric_literal (trim_start s)) as [[v rest] | ] eqn:N; [ | reflexivity ].
  destruct (is_empty (trim_start rest)) eqn:R; [ | reflexivity ].
  apply is_empty_u in R.
  rewrite trim_start_u, (numeric_literal_u _ _ _ N), trim_start_u in R. congruence.
Qed.

End Conversions.

(** ** Routing thresholds *)

Module Thresholds.

Import Average.

Lemma leb_0_06 : (0 <=? 0.6) = true.
Proof. vm_compute. reflexivity. Qed.

Lemma leb_06_085 : (0.6 <=? 0.85) = true.
Proof. vm_compute. reflexivity. Qed.

Lemma leb_085_1 : (0.85 <=? 1) = true.
Proof. vm_compute. reflexivity. Qed.

(** Whatever is above 0.85 is above 0.6, and whatever is above 1 is above
    0.85. *)
Lemma above_085_above_06 (c : float) : (0.85 <? c) = true -> (0.6 <? c) = true.
Proof. apply leb_ltb_trans. exact leb_06_085. Qed.

Lemma above_1_above_085 (c : float) : (1 <? c) = true -> (0.85 <? c) = true.
Proof. apply leb_ltb_trans. exact leb_085_1. Qed.

(** A negative number is not above 0.6. *)
Lemma below_0_not_above_06 (c : float) : (c <? 0) = true -> (0.6 <? c) = false.
Proof.
  intro N. destruct (0.6 <? c) eqn:G; [ | reflexivity ].
  assert (P : (0 <? c) = true) by (apply (leb_ltb_trans 0 0.6 c leb_0_06 G)).
  rewrite (Order.ltb_asym _ _ N) in P. discriminate P.
Qed.

Lemma route_nan : route nan = "REJECTED".
Proof. vm_compute. reflexivity. Qed.

Lemma route_above_085 (c : float) : (0.85 <? c) = true -> route c = "VERIFIED".
Proof. intro H. unfold route, gt. rewrite H. reflexivity. Qed.

Lemma route_not_above_06 (c : float) : (0.6 <? c) = false -> route c = "REJECTED".
Proof.
  intro H. unfold route, gt.
  destruct (0.85 <? c) eqn:H85.
  - apply above_085_above_06 in H85. congruence.
  - rewrite H. reflexivity.
Qed.

Lemma route_one_of_three (c : float) :
  In (route c) ["VERIFIED"; "PENDING_HITL"; "REJECTED"].
Proof.
  unfold route. destruct (gt c 0.85); [ | destruct (gt c 0.6) ]; simpl; auto.
Qed.

End Thresholds.

(** ** Runs of the handler *)

Module Runs.

Lemma JSON_parse_cases (t : ResponseText) :
  (exists j, JSON_parse (or_empty_object t) = Normal j) \/ t = Unparsable.
Proof. destruct t as [ | | j ]; [ left; exists (JObject []) | right | left; exists j ]; reflexivity. Qed.

Section OneRequest.

Variables (w : World) (req : Request).

(** A run without a key answers before anything else happens. *)
Lemma unconfigured :
  falsy (GEMINI_API_KEY w) = true ->
  run w req = (Normal (Error500 "API Key not configured"), []).
Proof. intro K. unfold_run. rewrite K. reflexivity. Qed.

Section Configured.

Hypothesis K : falsy (GEMINI_API_KEY w) = false.

(** A [documentType] that has no text makes the run throw before any
    call. *)
Lemma prompt_throws (e : error) :
  ToString (documentType req) = Throw e ->
  run w req = (Normal (Error500 "Verification failed"), []).
Proof. intro T. unfold_run. rewrite K, T. reflexivity. Qed.

(** So does a [documentImage] that is no string, whatever [documentType]
    is. *)
Lemma image_throws (e : error) :
  image_data (documentImage req) = Throw e ->
  run w req = (Normal (Error500 "Verification failed"), []).
Proof.
  intro I. unfold_run. rewrite K, I.
  destruct (ToString (documentType req)); reflexivity.
Qed.

Section WithPrompt.

Variables (text : string) (data : value).
Hypothesis T : ToString (documentType req) = Normal text.
Hypothesis I : image_data (documentImage req) = Normal data.

Local Abbreviation pv := (VisionPrompt (documentType req) data).

(** The vision call is rejected, or its text is unparsable: the run ends
    in the catch block after that one call. *)
Lemma vision_fails (o : Outcome) :
  engine w pv = o -> o = Rejects \/ o = Resolves Unparsable ->
  run w req = (Normal (Error500 "Verification failed"), [Called pv; Settled pv o]).
Proof.
  intros V Ho. unfold_run. rewrite K, T, I, V.
  destruct Ho as [Ho | Ho]; rewrite Ho; reflexivity.
Qed.

Section WithVision.

Variables (tv : ResponseText) (vr : json).
Hypothesis V : engine w pv = Resolves tv.
Hypothesis P : JSON_parse (or_empty_object tv) = Normal vr.

Local Abbreviation pl := (LogicPrompt (contextData req) vr).

(** The logic call is rejected, or its text is unparsable. *)
Lemma logic_fails (o : Outcome) :
  engine w pl = o -> o = Rejects \/ o = Resolves Unparsable ->
  run w req =
  (Normal (Error500 "Verification failed"),
   [Called pv; Settled pv (Resolves tv); Called pl; Settled pl o]).
Proof.
  intros L Ho. unfold_run. rewrite K, T, I, V, P, L.
  destruct Ho as [Ho | Ho]; rewrite Ho; reflexivity.
Qed.

(** Both results are parsed: the run aggregates them. *)
Lemma aggregates (tl : ResponseText) (lr : json) :
  engine w pl = Resolves tl -> JSON_parse (or_empty_object tl) = Normal lr ->
  run w req =
  (match finalConfidence vr lr with
   | Normal c =>
       Normal (Ok200 {| id := substr (random36 w) 2 9;
                        status := route c;
                        confidence := c;
                        vision := vr;
                        logic := lr;
                        timestamp := isoNow w |})
   | Throw _ => Normal (Error500 "Verification failed")
   end,
   [Called pv; Settled pv (Resolves tv); Called pl; Settled pl (Resolves tl)]).
Proof.
  intros L Q. unfold_run. rewrite K, T, I, V, P, L, Q.
  destruct (finalConfidence vr lr); reflexivity.
Qed.

End WithVision.
End WithPrompt.
End Configured.

(** Every run takes one of the paths of [Served]. *)
Lemma served : Served w req (response w req) (trace w req).
Proof.
  unfold response, trace.
  destruct (falsy (GEMINI_API_KEY w)) eqn:K.
  { rewrite unconfigured by assumption. apply Unconfigured. assumption. }
  destruct (ToString (documentType req)) as [text | e] eqn:T.
  2:{ rewrite (prompt_throws K e T). apply (PromptThrows w req e); assumption. }
  destruct (image_data (documentImage req)) as [data | e] eqn:I.
  2:{ rewrite (image_throws K e I). apply (ImageThrows w req text e); assumption. }
  destruct (engine w (VisionPrompt (documentType req) data)) as [ | tv ] eqn:V.
  { rewrite (vision_fails K text data T I Rejects V (or_introl eq_refl)).
    apply (VisionFails w req text); auto. }
  destruct (JSON_parse_cases tv) as [[vr P] | U].
  2:{ subst tv. rewrite (vision_fails K text data T I _ V (or_intror eq_refl)).
      apply (VisionFails w req text); auto. }
  destruct (engine w (LogicPrompt (contextData req) vr)) as [ | tl ] eqn:L.
  { rewrite (logic_fails K text data T I tv vr V P Rejects L (or_introl eq_refl)).
    apply (LogicFails w req text data tv vr); auto. }
  destruct (JSON_parse_cases tl) as [[lr Q] | U].
  2:{ subst tl. rewrite (logic_fails K text data T I tv vr V P _ L (or_intror eq_refl)).
      apply (LogicFails w req text data tv vr); auto. }
  rewrite (aggregates K text data T I tv vr V P tl lr L Q).
  apply (Aggregates w req text data tv tl vr lr); assumption.
Qed.

End OneRequest.

End Runs.

(** ** Aggregation of the two scores *)

Module Aggregation.

Import Average.

(** The final confidence is the halved sum of what the two score members
    convert to. *)
Lemma finalConfidence_operands (vr lr : json) (c l : value) (x y : float) :
  member (Some vr) "confidence" = Normal c -> ToNumber c = Some x ->
  member (Some lr) "logicScore" = Normal l -> ToNumber l = Some y ->
  finalConfidence vr lr = Normal ((x + y) / 2).
Proof.
  intros C X L Y. unfold finalConfidence, plus. rewrite C, L. cbn [and_then].
  rewrite X, Y. reflexivity.
Qed.

Lemma finalConfidence_numbers (vr lr : json) (v l : float) :
  member (Some vr) "confidence" = Normal (Some (JNumber v)) ->
  member (Some lr) "logicScore" = Normal (Some (JNumber l)) ->
  finalConfidence vr lr = Normal ((v + l) / 2).
Proof.
  intros V L. apply (finalConfidence_operands vr lr _ _ v l V eq_refl L eq_refl).
Qed.

(** A missing score makes the final confidence NaN, whatever the other
    score is. *)
Lemma finalConfidence_undefined_l (vr lr : json) (l : value) (y : float) :
  member (Some vr) "confidence" = Normal undefined ->
  member (Some lr) "logicScore" = Normal l -> ToNumber l = Some y ->
  finalConfidence vr lr = Normal nan.
Proof.
  intros C L Y. rewrite (finalConfidence_operands vr lr _ l nan y C eq_refl L Y).
  rewrite add_nan_l, half_nan. reflexivity.
Qed.

Lemma finalConfidence_undefined_r (vr lr : json) (c : value) (x : float) :
  member (Some vr) "confidence" = Normal c -> ToNumber c = Some x ->
  member (Some lr) "logicScore" = Normal undefined ->
  finalConfidence vr lr = Normal nan.
Proof.
  intros C X L. rewrite (finalConfidence_operands vr lr c _ x nan C X L eq_refl).
  rewrite add_nan_r, half_nan. reflexivity.
Qed.

(** What [ToPrimitive] gives has a text. *)
Lemma ToPrimitive_text (v p : value) :
  ToPrimitive v = Normal p -> exists s, ToString p = Normal s.
Proof.
  destruct v as [[ | b | n | s | items | members ] | ]; cbn [ToPrimitive].
  1-4, 7: intro H; injection H as H; subst p; eexists; reflexivity.
  - destruct (ToString_json (JArray items)) as [s | e]; [ | discriminate ].
    intro H. injection H as H. subst p. exists s. reflexivity.
  - destruct (ToString_json (JObject members)) as [s | e]; [ | discriminate ].
    intro H. injection H as H. subst p. exists s. reflexivity.
Qed.

(** What [+] adds as a number is a primitive already. *)
Lemma ToPrimitive_number (v : value) (x : float) :
  ToNumber v = Some x -> ToPrimitive v = Normal v.
Proof. destruct v as [[ | b | n | s | items | members ] | ]; try discriminate; reflexivity. Qed.

(** A result without a score: the run fails when the other score has no
    primitive, and the final confidence is NaN otherwise, whatever the
    other score is. *)
Lemma finalConfidence_missing_l (vr lr : json) :
  member (Some vr) "confidence" = Normal undefined ->
  finalConfidence vr lr =
  match and_then (member (Some lr) "logicScore") ToPrimitive with
  | Normal _ => Normal nan
  | Throw e => Throw e
  end.
Proof.
  intro C. unfold finalConfidence. rewrite C. cbn [and_then].
  destruct (member (Some lr) "logicScore") as [l | e]; [ | reflexivity ].
  cbn [and_then]. unfold plus. change (ToNumber undefined) with (Some nan).
  destruct (ToNumber l) as [y | ] eqn:Y.
  - rewrite (ToPrimitive_number l y Y). cbn [and_then ToNumber_sum].
    rewrite add_nan_l, half_nan. reflexivity.
  - change (ToPrimitive undefined) with (@Normal value undefined).
    destruct (ToPrimitive l) as [pl | e] eqn:P; [ | reflexivity ].
    destruct (ToPrimitive_text l pl P) as [sb B].
    cbn [and_then]. rewrite B.
    change (ToString undefined) with (Normal "undefined").
    cbn [and_then ToNumber_sum].
    rewrite (Conversions.StringToNumber_u ("undefined" ++ sb) eq_refl), half_nan.
    reflexivity.
Qed.

Lemma finalConfidence_missing_r (vr lr : json) :
  member (Some lr) "logicScore" = Normal undefined ->
  finalConfidence vr lr =
  match and_then (member (Some vr) "confidence") ToPrimitive with
  | Normal _ => Normal nan
  | Throw e => Throw e
  end.
Proof.
  intro L. unfold finalConfidence. rewrite L.
  destruct (member (Some vr) "confidence") as [c | e]; [ | reflexivity ].
  cbn [and_then]. unfold plus. change (ToNumber undefined) with (Some nan).
  destruct (ToNumber c) as [x | ] eqn:X.
  - rewrite (ToPrimitive_number c x X). cbn [and_then ToNumber_sum].
    rewrite add_nan_r, half_nan. reflexivity.
  - change (ToPrimitive undefined) with (@Normal value undefined).
    destruct (ToPrimitive c) as [pc | e] eqn:P; [ | reflexivity ].
    destruct (ToPrimitive_text c pc P) as [sa A].
    cbn [and_then]. rewrite A.
    change (ToString undefined) with (Normal "undefined").
    cbn [and_then ToNumber_sum].
    rewrite (Conversions.StringToNumber_u (sa ++ "undefined")), half_nan;
      [ reflexivity | ].
    rewrite Conversions.includes_append. apply orb_true_r.
Qed.

(** The final confidence depends on the two score members only. *)
Lemma finalConfidence_same_scores (vr vr' lr lr' : json) :
  member (Some vr) "confidence" = member (Some vr') "confidence" ->
  member (Some lr) "logicScore" = member (Some lr') "logicScore" ->
  finalConfidence vr lr = finalConfidence vr' lr'.
Proof. intros C L. unfold finalConfidence. rewrite C, L. reflexivity. Qed.

End Aggregation.

(** ** The claims *)

(** C1, as the handler decides it: a confidence above 0.85 is VERIFIED, one
    above 0.60 and at most 0.85 is PENDING_HITL, and every other one (at
    most 0.60, or NaN) is REJECTED; a confidence of exactly 0.85 or exactly
    0.60 lands in the lower band. *)
Theorem route_thresholds (c : float) :
  (route c = "VERIFIED" <-> (0.85 <? c) = true) /\
  (route c = "PENDING_HITL" <-> (0.6 <? c) = true /\ (c <=? 0.85) = true) /\
  (route c = "REJECTED" <-> (c <=? 0.6) = true \/ is_nan c = true) /\
  route 0.85 = "PENDING_HITL" /\ route 0.6 = "REJECTED".
Proof.
  assert (N85 : is_nan 0.85 = false) by (vm_compute; reflexivity).
  assert (N6 : is_nan 0.6 = false) by (vm_compute; reflexivity).
  assert (T85 : route 0.85 = "PENDING_HITL") by (vm_compute; reflexivity).
  assert (T6 : route 0.6 = "REJECTED") by (vm_compute; reflexivity).
  assert (Above : (0.85 <? c) = true -> (0.6 <? c) = true)
    by apply Thresholds.above_085_above_06.
  assert (Le85 : (0.85 <? c) = false <->
                 (c <=? 0.85) = true \/ is_nan c = true \/ is_nan 0.85 = true)
    by apply Order.ltb_false.
  assert (Le6 : (0.6 <? c) = false <->
                (c <=? 0.6) = true \/ is_nan c = true \/ is_nan 0.6 = true)
    by apply Order.ltb_false.
  assert (Nc : (0.6 <? c) = true -> is_nan c = false)
    by (intro H; apply (Order.ltb_true_not_nan _ _ H)).
  rewrite N85 in Le85. rewrite N6 in Le6. clear N85 N6.
  split; [ | split; [ | split; [ | split; assumption ] ] ]; clear T85 T6;
    unfold route, gt;
    destruct (0.85 <? c) eqn:H85; try (destruct (0.6 <? c) eqn:H6);
    intuition congruence.
Qed.

(** C1 fails as the spec words it: at exactly 0.85 the confidence is at
    least 0.85 and the status is PENDING_HITL, not VERIFIED; at exactly
    0.60 it is at least 0.60 and the status is REJECTED.  Two engine
    scores of 0.85 make the handler compute exactly 0.85. *)
Lemma route_tie_not_inclusive :
  (0.85 <=? 0.85) = true /\ route 0.85 = "PENDING_HITL" /\
  (0.6 <=? 0.6) = true /\ route 0.6 = "REJECTED" /\
  finalConfidence (Samples.vision_result 0.85 []) (Samples.logic_result 0.85) = Normal 0.85.
Proof. vm_compute. repeat split; reflexivity. Qed.

(** C2, as the handler behaves: when every engine call fails, the request
    ends with HTTP 500 and the body [{ error: "Verification failed" }]
    (or, without a key, [{ error: "API Key not configured" }]); the
    response carries neither a status nor a reason. *)
Theorem engines_fail_generic_error (w : World) (req : Request) :
  (forall p, engine w p = Rejects) ->
  response w req =
  Normal (Error500 (if falsy (GEMINI_API_KEY w)
                    then "API Key not configured"
                    else "Verification failed")).
Proof.
  intro Fail. destruct (Runs.served w req) as
    [K | e K T | text e K T I | text data o K T I V Ho
     | text data tv vr o K T I V P L Ho | text data tv tl vr lr K T I V P L Q];
    rewrite K; try reflexivity; rewrite Fail in V; discriminate V.
Qed.

(** The two engines down, served to the sample request. *)
Lemma engines_fail_witness :
  response (Samples.world Rejects Rejects "0.i" Samples.morning) Samples.request =
  Normal (Error500 "Verification failed").
Proof.
  exact (engines_fail_generic_error
           (Samples.world Rejects Rejects "0.i" Samples.morning) Samples.request
           (fun p => match p with
                     | VisionPrompt _ _ => eq_refl
                     | LogicPrompt _ _ => eq_refl
                     end)).
Defined.

(** C2 fails as the spec words it: with both engines down the caller gets
    the generic error after one rejected vision call, not a REJECTED
    decision with a reason. *)
Lemma engines_down_no_decision :
  run (Samples.world Rejects Rejects "0.i" Samples.morning) Samples.request =
  (Normal (Error500 "Verification failed"),
   [Called (VisionPrompt (Some (JString "passport")) (Some (JString "/9j/4AAQ")));
    Settled (VisionPrompt (Some (JString "passport")) (Some (JString "/9j/4AAQ"))) Rejects]).
Proof. vm_compute. reflexivity. Qed.

(** C3, as the handler behaves, for a configured run whose vision prompt
    is built ([documentType] has a text and the image is a string): an
    unparsable response text of either engine ends the whole request with
    HTTP 500 "Verification failed"; an absent or empty text is replaced by
    the empty object and the run proceeds with it as that engine's result:
    both engines are called, and once the other call has resolved with a
    parsable text the two results are aggregated, where the score missing
    from the empty object gives either HTTP 500 (the other result is
    [null], or its score has no primitive) or a 200 response with the
    confidence NaN and the status REJECTED. *)
Theorem malformed_response_handling (w : World) (req : Request)
    (text : string) (data : value) :
  falsy (GEMINI_API_KEY w) = false ->
  ToString (documentType req) = Normal text ->
  image_data (documentImage req) = Normal data ->
  let pv := VisionPrompt (documentType req) data in
  (engine w pv = Resolves Unparsable ->
   response w req = Normal (Error500 "Verification failed")) /\
  (forall tv vr,
     engine w pv = Resolves tv -> JSON_parse (or_empty_object tv) = Normal vr ->
     engine w (LogicPrompt (contextData req) vr) = Resolves Unparsable ->
     response w req = Normal (Error500 "Verification failed")) /\
  (forall tl lr,
     engine w pv = Resolves NoText ->
     engine w (LogicPrompt (contextData req) (JObject [])) = Resolves tl ->
     JSON_parse (or_empty_object tl) = Normal lr ->
     calls (trace w req) = [Vision; Logic] /\
     response w req =
     match and_then (member (Some lr) "logicScore") ToPrimitive with
     | Normal _ =>
         Normal (Ok200 {| id := substr (random36 w) 2 9;
                          status := "REJECTED";
                          confidence := nan;
                          vision := JObject [];
                          logic := lr;
                          timestamp := isoNow w |})
     | Throw _ => Normal (Error500 "Verification failed")
     end) /\
  (forall tv vr,
     engine w pv = Resolves tv -> JSON_parse (or_empty_object tv) = Normal vr ->
     engine w (LogicPrompt (contextData req) vr) = Resolves NoText ->
     calls (trace w req) = [Vision; Logic] /\
     response w req =
     match and_then (member (Some vr) "confidence") ToPrimitive with
     | Normal _ =>
         Normal (Ok200 {| id := substr (random36 w) 2 9;
                          status := "REJECTED";
                          confidence := nan;
                          vision := vr;
                          logic := JObject [];
                          timestamp := isoNow w |})
     | Throw _ => Normal (Error500 "Verification failed")
     end).
Proof.
  intros K T I pv. subst pv. unfold response, trace. repeat split.
  - intro V. rewrite (Runs.vision_fails w req K text data T I _ V (or_intror eq_refl)).
    reflexivity.
  - intros tv vr V P L.
    rewrite (Runs.logic_fails w req K text data T I tv vr V P _ L (or_intror eq_refl)).
    reflexivity.
  - rewrite (Runs.aggregates w req K text data T I NoText (JObject []) H eq_refl
               tl lr H0 H1).
    reflexivity.
  - rewrite (Runs.aggregates w req K text data T I NoText (JObject []) H eq_refl
               tl lr H0 H1).
    rewrite (Aggregation.finalConfidence_missing_l (JObject []) lr eq_refl). cbn [fst].
    destruct (and_then (member (Some lr) "logicScore") ToPrimitive); [ | reflexivity ].
    rewrite Thresholds.route_nan. reflexivity.
  - rewrite (Runs.aggregates w req K text data T I tv vr H H0 NoText (JObject [])
               H1 eq_refl).
    reflexivity.
  - rewrite (Runs.aggregates w req K text data T I tv vr H H0 NoText (JObject [])
               H1 eq_refl).
    rewrite (Aggregation.finalConfidence_missing_r vr (JObject []) eq_refl). cbn [fst].
    destruct (and_then (member (Some vr) "confidence") ToPrimitive); [ | reflexivity ].
    rewrite Thresholds.route_nan. reflexivity.
Qed.

(** An empty vision response and a logic score of 0.9. *)
Lemma malformed_response_witness :
  response (Samples.world (Resolves NoText) (Samples.reply (Samples.logic_result 0.9))
              "0.i" Samples.morning) Samples.request =
  Normal (Ok200 {| id := "i";
                   status := "REJECTED";
                   confidence := nan;
                   vision := JObject [];
                   logic := Samples.logic_result 0.9;
                   timestamp := Samples.morning |}).
Proof.
  exact (proj2 (proj1 (proj2 (proj2
           (malformed_response_handling
              (Samples.world (Resolves NoText) (Samples.reply (Samples.logic_result 0.9))
                 "0.i" Samples.morning)
              Samples.request "passport" (Some (JString "/9j/4AAQ"))
              eq_refl eq_refl eq_refl)))
           (Parses (Samples.logic_result 0.9)) (Samples.logic_result 0.9)
           eq_refl eq_refl eq_refl)).
Defined.

(** C3 fails as the spec words it: an empty vision response is not treated
    as an engine failure; the handler goes on with the empty object, asks
    the logic engine about it and aggregates, answering 200 with a NaN
    confidence (the logic score 0.9 alone is not what is reported); an
    unparsable one fails the whole request instead of being excluded. *)
Lemma empty_response_is_aggregated :
  run (Samples.world (Resolves NoText) (Samples.reply (Samples.logic_result 0.9))
         "0.i" Samples.morning) Samples.request =
  (Normal (Ok200 {| id := "i";
                    status := "REJECTED";
                    confidence := nan;
                    vision := JObject [];
                    logic := Samples.logic_result 0.9;
                    timestamp := Samples.morning |}),
   [Called (VisionPrompt (Some (JString "passport")) (Some (JString "/9j/4AAQ")));
    Settled (VisionPrompt (Some (JString "passport")) (Some (JString "/9j/4AAQ")))
      (Resolves NoText);
    Called (LogicPrompt (Some (JObject [("name", JString "A. Guardian")])) (JObject []));
    Settled (LogicPrompt (Some (JObject [("name", JString "A. Guardian")])) (JObject []))
      (Samples.reply (Samples.logic_result 0.9))]) /\
  response (Samples.world (Resolves Unparsable) (Samples.reply (Samples.logic_result 0.9))
              "0.i" Samples.morning) Samples.request =
  Normal (Error500 "Verification failed").
Proof. vm_compute. split; reflexivity. Qed.

(** C4, as the handler computes it: the final confidence is the plain mean
    [(confidence + logicScore) / 2] of the vision and the logic score, each
    with the fixed weight one half (no forensic score enters: the function
    reads the two results only); when one of the two scores is missing the
    weights are not renormalised, the final confidence is NaN. *)
Theorem finalConfidence_plain_mean (vr lr : json) :
  (forall v l,
     member (Some vr) "confidence" = Normal (Some (JNumber v)) ->
     member (Some lr) "logicScore" = Normal (Some (JNumber l)) ->
     finalConfidence vr lr = Normal ((v + l) / 2)) /\
  (forall l y,
     member (Some vr) "confidence" = Normal undefined ->
     member (Some lr) "logicScore" = Normal l -> ToNumber l = Some y ->
     finalConfidence vr lr = Normal nan) /\
  (forall c x,
     member (Some vr) "confidence" = Normal c -> ToNumber c = Some x ->
     member (Some lr) "logicScore" = Normal undefined ->
     finalConfidence vr lr = Normal nan).
Proof.
  split; [ | split ].
  - intros v l. apply Aggregation.finalConfidence_numbers.
  - intros l y. apply Aggregation.finalConfidence_undefined_l.
  - intros c x. apply Aggregation.finalConfidence_undefined_r.
Qed.

(** The scores 0.9 and 0.8. *)
Lemma finalConfidence_plain_mean_witness :
  finalConfidence (Samples.vision_result 0.9 []) (Samples.logic_result 0.8) =
  Normal ((0.9 + 0.8) / 2).
Proof.
  exact (proj1 (finalConfidence_plain_mean
                  (Samples.vision_result 0.9 []) (Samples.logic_result 0.8))
           0.9 0.8 eq_refl eq_refl).
Defined.

(** C4 fails as the spec words it: with the vision score 0.9 available and
    the logic score missing, renormalised weights would give 0.9; the
    handler gives NaN, in the aggregation and in the response. *)
Lemma missing_score_not_renormalised :
  finalConfidence (Samples.vision_result 0.9 []) (JObject []) = Normal nan /\
  response (Samples.world (Samples.reply (Samples.vision_result 0.9 [])) (Resolves NoText)
              "0.i" Samples.morning) Samples.request =
  Normal (Ok200 {| id := "i";
                   status := "REJECTED";
                   confidence := nan;
                   vision := Samples.vision_result 0.9 [];
                   logic := JObject [];
                   timestamp := Samples.morning |}).
Proof. vm_compute. split; reflexivity. Qed.

(** C5, as the handler behaves: two runs on the same request, with the same
    key and the same engine results, make the same calls and agree on the
    outcome, and on the status, confidence, vision and logic fields of a
    decision; the id is taken from [Math.random()] and the timestamp from
    the clock of each run, so the two decisions are equal as soon as those
    two draws are. *)
Theorem decision_determined_up_to_draws (w1 w2 : World) (req : Request) :
  GEMINI_API_KEY w1 = GEMINI_API_KEY w2 ->
  (forall p, engine w1 p = engine w2 p) ->
  trace w1 req = trace w2 req /\
  match response w1 req, response w2 req with
  | Normal (Ok200 d1), Normal (Ok200 d2) =>
      status d1 = status d2 /\ confidence d1 = confidence d2 /\
      vision d1 = vision d2 /\ logic d1 = logic d2 /\
      id d1 = substr (random36 w1) 2 9 /\ id d2 = substr (random36 w2) 2 9 /\
      timestamp d1 = isoNow w1 /\ timestamp d2 = isoNow w2
  | r1, r2 => r1 = r2
  end /\
  (random36 w1 = random36 w2 -> isoNow w1 = isoNow w2 ->
   response w1 req = response w2 req).
Proof.
  intros Key E.
  destruct (Runs.served w1 req) as
    [K | e K T | text e K T I | text data o K T I V Ho
     | text data tv vr o K T I V P L Ho | text data tv tl vr lr K T I V P L Q];
    rewrite Key in K; unfold response, trace.
  - rewrite Runs.unconfigured by assumption. cbn [fst snd]. auto.
  - rewrite (Runs.prompt_throws w2 req K e T). cbn [fst snd]. auto.
  - rewrite (Runs.image_throws w2 req K e I). cbn [fst snd]. auto.
  - rewrite E in V. rewrite (Runs.vision_fails w2 req K text data T I o V Ho).
    cbn [fst snd]. auto.
  - rewrite E in V, L.
    rewrite (Runs.logic_fails w2 req K text data T I tv vr V P o L Ho).
    cbn [fst snd]. auto.
  - rewrite E in V, L.
    rewrite (Runs.aggregates w2 req K text data T I tv vr V P tl lr L Q).
    cbn [fst snd]. destruct (finalConfidence vr lr) as [c | e]; auto.
    cbn [id status confidence vision logic timestamp].
    repeat split; try reflexivity. intros R N. rewrite R, N. reflexivity.
Qed.

(** Two runs that differ in the random draw and in the time only. *)
Lemma decision_determined_witness :
  trace (Samples.world (Samples.reply (Samples.vision_result 0.95 []))
           (Samples.reply (Samples.logic_result 0.97)) "0.i" Samples.morning)
        Samples.request =
  trace (Samples.world (Samples.reply (Samples.vision_result 0.95 []))
           (Samples.reply (Samples.logic_result 0.97)) "0.4fzyo82mvyr" Samples.evening)
        Samples.request.
Proof.
  exact (proj1 (decision_determined_up_to_draws
           (Samples.world (Samples.reply (Samples.vision_result 0.95 []))
              (Samples.reply (Samples.logic_result 0.97)) "0.i" Samples.morning)
           (Samples.world (Samples.reply (Samples.vision_result 0.95 []))
              (Samples.reply (Samples.logic_result 0.97)) "0.4fzyo82mvyr" Samples.evening)
           Samples.request eq_refl (fun p => eq_refl))).
Defined.

(** C5 fails as the spec words it: the same request, key and engine results
    served twice give decisions that differ in id and timestamp, because
    [Math.random()] returned 0.5 (["0.i"] in base 36) in one run and another
    number in the other, and the clock moved. *)
Lemma same_inputs_two_decisions :
  exists d1 d2 : Decision,
    response (Samples.world (Samples.reply (Samples.vision_result 0.95 []))
                (Samples.reply (Samples.logic_result 0.97)) "0.i" Samples.morning)
             Samples.request = Normal (Ok200 d1) /\
    response (Samples.world (Samples.reply (Samples.vision_result 0.95 []))
                (Samples.reply (Samples.logic_result 0.97)) "0.4fzyo82mvyr" Samples.evening)
             Samples.request = Normal (Ok200 d2) /\
    id d1 = "i" /\ id d2 = "4fzyo82mv" /\
    timestamp d1 = Samples.morning /\ timestamp d2 = Samples.evening /\
    d1 <> d2.
Proof.
  eexists. eexists. split; [ vm_compute; reflexivity | ].
  split; [ vm_compute; reflexivity | ].
  repeat split. discriminate.
Qed.

(** C6: when the vision result reports a confidence and the logic result a
    logicScore, both numbers of [0,1], the aggregation returns a final
    confidence, that confidence lies in [0,1], and the routing gives it one
    of the three statuses. *)
Theorem well_formed_confidence_in_unit_interval (vr lr : json) (v l : float) :
  member (Some vr) "confidence" = Normal (Some (JNumber v)) ->
  member (Some lr) "logicScore" = Normal (Some (JNumber l)) ->
  (0 <=? v) = true -> (v <=? 1) = true ->
  (0 <=? l) = true -> (l <=? 1) = true ->
  exists c,
    finalConfidence vr lr = Normal c /\
    (0 <=? c) = true /\ (c <=? 1) = true /\
    In (route c) ["VERIFIED"; "PENDING_HITL"; "REJECTED"].
Proof.
  intros V L V0 V1 L0 L1. exists ((v + l) / 2).
  destruct (Average.average_unit v l V0 V1 L0 L1) as [Lo Hi].
  split; [ | split; [ exact Lo | split; [ exact Hi | apply Thresholds.route_one_of_three ] ] ].
  apply Aggregation.finalConfidence_numbers; assumption.
Qed.

(** The scores 0.7 and 0.72 of the review scenario. *)
Lemma well_formed_confidence_witness :
  exists c,
    finalConfidence (Samples.vision_result 0.7 [Samples.anomaly "high"])
                    (Samples.logic_result 0.72) = Normal c /\
    (0 <=? c) = true /\ (c <=? 1) = true /\
    In (route c) ["VERIFIED"; "PENDING_HITL"; "REJECTED"].
Proof.
  exact (well_formed_confidence_in_unit_interval
           (Samples.vision_result 0.7 [Samples.anomaly "high"]) (Samples.logic_result 0.72)
           0.7 0.72 eq_refl eq_refl eq_refl eq_refl eq_refl eq_refl).
Defined.

(** C7: with the other score fixed (a number, or anything [+] converts to
    one), a larger vision confidence never gives a smaller final
    confidence, and neither does a larger logic score; and results that
    report the same two scores get the same final confidence however many
    high-severity descriptors they list, so that more of them never give a
    larger one. *)
Theorem aggregation_monotone (vr vr' lr lr' : json) :
  (forall v v' l y,
     member (Some vr) "confidence" = Normal (Some (JNumber v)) ->
     member (Some vr') "confidence" = Normal (Some (JNumber v')) ->
     member (Some lr) "logicScore" = Normal l -> ToNumber l = Some y ->
     (v <=? v') = true ->
     exists c c',
       finalConfidence vr lr = Normal c /\ finalConfidence vr' lr = Normal c' /\
       (c' <? c) = false) /\
  (forall c x l l',
     member (Some vr) "confidence" = Normal c -> ToNumber c = Some x ->
     member (Some lr) "logicScore" = Normal (Some (JNumber l)) ->
     member (Some lr') "logicScore" = Normal (Some (JNumber l')) ->
     (l <=? l') = true ->
     exists f f',
       finalConfidence vr lr = Normal f /\ finalConfidence vr lr' = Normal f' /\
       (f' <? f) = false) /\
  (member (Some vr) "confidence" = member (Some vr') "confidence" ->
   member (Some lr) "logicScore" = member (Some lr') "logicScore" ->
   (high_severity_count vr lr <= high_severity_count vr' lr')%nat ->
   finalConfidence vr' lr' = finalConfidence vr lr /\
   forall c c',
     finalConfidence vr lr = Normal c -> finalConfidence vr' lr' = Normal c' ->
     (c <? c') = false).
Proof.
  split; [ | split ].
  - intros v v' l y V V' L Y H. exists ((v + y) / 2), ((v' + y) / 2).
    rewrite (Aggregation.finalConfidence_operands vr lr _ l v y V eq_refl L Y).
    rewrite (Aggregation.finalConfidence_operands vr' lr _ l v' y V' eq_refl L Y).
    repeat split. apply Average.average_mono_l. exact H.
  - intros c x l l' C X L L' H. exists ((x + l) / 2), ((x + l') / 2).
    rewrite (Aggregation.finalConfidence_operands vr lr c _ x l C X L eq_refl).
    rewrite (Aggregation.finalConfidence_operands vr lr' c _ x l' C X L' eq_refl).
    repeat split. apply Average.average_mono_r. exact H.
  - intros V L _.
    pose proof (Aggregation.finalConfidence_same_scores vr vr' lr lr' V L) as E.
    split; [ symmetry; exact E | ].
    intros c c' C C'. rewrite <- E, C in C'. injection C' as Ec. subst c'.
    apply Average.ltb_irrefl.
Qed.

(** A vision confidence raised from 0.7 to 0.95 beside the logic score
    0.72, and two high-severity anomalies added to a result. *)
Lemma aggregation_monotone_witness :
  (exists c c',
     finalConfidence (Samples.vision_result 0.7 []) (Samples.logic_result 0.72) = Normal c /\
     finalConfidence (Samples.vision_result 0.95 []) (Samples.logic_result 0.72) = Normal c' /\
     (c' <? c) = false) /\
  finalConfidence (Samples.vision_result 0.95 [Samples.anomaly "high"; Samples.anomaly "high"])
                  (Samples.logic_result 0.72) =
  finalConfidence (Samples.vision_result 0.95 []) (Samples.logic_result 0.72).
Proof.
  split.
  - exact (proj1 (aggregation_monotone
                    (Samples.vision_result 0.7 []) (Samples.vision_result 0.95 [])
                    (Samples.logic_result 0.72) (Samples.logic_result 0.72))
             0.7 0.95 (Some (JNumber 0.72)) 0.72 eq_refl eq_refl eq_refl eq_refl eq_refl).
  - exact (proj1 (proj2 (proj2 (aggregation_monotone
                    (Samples.vision_result 0.95 [])
                    (Samples.vision_result 0.95 [Samples.anomaly "high"; Samples.anomaly "high"])
                    (Samples.logic_result 0.72) (Samples.logic_result 0.72)))
                    eq_refl eq_refl (le_S _ _ (le_S _ _ (le_n 0))))).
Defined.

(** C8, as the handler behaves: a missing key is answered with
    "API Key not configured", whatever the request; every failure of a
    configured run (a request whose image is no string, a rejected engine
    call, an unparsable response, a result that is [null]) is answered with
    the one body "Verification failed", so that the body of an error
    response tells the configuration failure from the others and nothing
    else. *)
Theorem error_bodies (w : World) (req : Request) :
  (falsy (GEMINI_API_KEY w) = true ->
   response w req = Normal (Error500 "API Key not configured")) /\
  (falsy (GEMINI_API_KEY w) = false ->
   forall e, image_data (documentImage req) = Throw e ->
   response w req = Normal (Error500 "Verification failed")) /\
  (falsy (GEMINI_API_KEY w) = false ->
   forall data, image_data (documentImage req) = Normal data ->
   engine w (VisionPrompt (documentType req) data) = Rejects ->
   response w req = Normal (Error500 "Verification failed")) /\
  (forall error, response w req = Normal (Error500 error) ->
   error = if falsy (GEMINI_API_KEY w)
           then "API Key not configured"
           else "Verification failed").
Proof.
  split; [ | split; [ | split ] ].
  - intro K. unfold response. rewrite Runs.unconfigured by assumption. reflexivity.
  - intros K e I. unfold response. rewrite (Runs.image_throws w req K e I). reflexivity.
  - intros K data I V. unfold response.
    destruct (ToString (documentType req)) as [text | e] eqn:T.
    + rewrite (Runs.vision_fails w req K text data T I _ V (or_introl eq_refl)).
      reflexivity.
    + rewrite (Runs.prompt_throws w req K e T). reflexivity.
  - intro error. destruct (Runs.served w req) as
      [K | e K T | text e K T I | text data o K T I V Ho
     | text data tv vr o K T I V P L Ho | text data tv tl vr lr K T I V P L Q];
      rewrite K; try congruence.
    destruct (finalConfidence vr lr); congruence.
Qed.

(** A request without an image. *)
Lemma error_bodies_witness :
  response (Samples.world Rejects Rejects "0.i" Samples.morning)
           Samples.request_without_image =
  Normal (Error500 "Verification failed").
Proof.
  exact (proj1 (proj2 (error_bodies (Samples.world Rejects Rejects "0.i" Samples.morning)
                         Samples.request_without_image))
           eq_refl TypeError eq_refl).
Defined.

(** C8 fails as the spec words it: a request without an image (a validation
    failure) served by healthy engines, and a valid request whose vision
    call is rejected (an upstream failure), get the same error response. *)
Lemma validation_and_upstream_indistinguishable :
  response (Samples.world (Samples.reply (Samples.vision_result 0.95 []))
              (Samples.reply (Samples.logic_result 0.97)) "0.i" Samples.morning)
           Samples.request_without_image =
  Normal (Error500 "Verification failed") /\
  response (Samples.world Rejects (Samples.reply (Samples.logic_result 0.97))
              "0.i" Samples.morning)
           Samples.request =
  Normal (Error500 "Verification failed").
Proof. vm_compute. split; reflexivity. Qed.

(** C9, as the handler behaves: a run makes no call, or the vision call
    alone, or the vision call and then, once it has settled and its text is
    parsed, the logic call, whose prompt carries the parsed vision result;
    each call settles before anything else happens, and no forensic engine
    is called. *)
Theorem calls_in_sequence (w : World) (req : Request) :
  (trace w req = [] \/
   (exists data o,
      trace w req = [Called (VisionPrompt (documentType req) data);
                     Settled (VisionPrompt (documentType req) data) o]) \/
   (exists data tv vr o,
      JSON_parse (or_empty_object tv) = Normal vr /\
      trace w req = [Called (VisionPrompt (documentType req) data);
                     Settled (VisionPrompt (documentType req) data) (Resolves tv);
                     Called (LogicPrompt (contextData req) vr);
                     Settled (LogicPrompt (contextData req) vr) o])) /\
  In (calls (trace w req)) [[]; [Vision]; [Vision; Logic]].
Proof.
  destruct (Runs.served w req) as
    [K | e K T | text e K T I | text data o K T I V Ho
     | text data tv vr o K T I V P L Ho | text data tv tl vr lr K T I V P L Q].
  - split; [ left; reflexivity | cbn; auto ].
  - split; [ left; reflexivity | cbn; auto ].
  - split; [ left; reflexivity | cbn; auto ].
  - split; [ right; left; exists data, o; reflexivity | cbn; auto ].
  - split; [ right; right; exists data, tv, vr, o; split; [ exact P | reflexivity ]
           | cbn; auto ].
  - split; [ right; right; exists data, tv, vr, (Resolves tl);
             split; [ exact P | reflexivity ]
           | cbn; auto ].
Qed.

(** C9 fails as the spec words it: a complete run calls the vision engine,
    waits for it to settle, then calls the logic engine with the vision
    result in its prompt; there is no forensic call for the vision call to
    be concurrent with. *)
Lemma no_forensic_call :
  trace (Samples.world (Samples.reply (Samples.vision_result 0.95 []))
           (Samples.reply (Samples.logic_result 0.97)) "0.i" Samples.morning)
        Samples.request =
  [Called (VisionPrompt (Some (JString "passport")) (Some (JString "/9j/4AAQ")));
   Settled (VisionPrompt (Some (JString "passport")) (Some (JString "/9j/4AAQ")))
     (Samples.reply (Samples.vision_result 0.95 []));
   Called (LogicPrompt (Some (JObject [("name", JString "A. Guardian")]))
             (Samples.vision_result 0.95 []));
   Settled (LogicPrompt (Some (JObject [("name", JString "A. Guardian")]))
              (Samples.vision_result 0.95 []))
     (Samples.reply (Samples.logic_result 0.97))] /\
  calls (trace (Samples.world (Samples.reply (Samples.vision_result 0.95 []))
                  (Samples.reply (Samples.logic_result 0.97)) "0.i" Samples.morning)
               Samples.request) = [Vision; Logic].
Proof. vm_compute. split; reflexivity. Qed.

(** C10, as the handler behaves: the status of every 200 response is the
    routing of its confidence and one of VERIFIED, PENDING_HITL, REJECTED,
    whatever the confidence; a NaN confidence and one below the range
    (negative) fail both comparisons and are REJECTED, one above the range
    (more than 1) passes the first and is VERIFIED. *)
Theorem status_one_of_three (w : World) (req : Request) (d : Decision) :
  response w req = Normal (Ok200 d) ->
  status d = route (confidence d) /\
  In (status d) ["VERIFIED"; "PENDING_HITL"; "REJECTED"] /\
  (is_nan (confidence d) = true -> status d = "REJECTED") /\
  ((confidence d <? 0) = true -> status d = "REJECTED") /\
  ((1 <? confidence d) = true -> status d = "VERIFIED").
Proof.
  intro R.
  assert (S : status d = route (confidence d)).
  { revert R. destruct (Runs.served w req) as
      [K | e K T | text e K T I | text data o K T I V Ho
     | text data tv vr o K T I V P L Ho | text data tv tl vr lr K T I V P L Q];
      try discriminate.
    destruct (finalConfidence vr lr) as [c | e]; try discriminate.
    intro E. injection E as E. subst d. reflexivity. }
  rewrite S. split; [ reflexivity | split; [ apply Thresholds.route_one_of_three | ] ].
  split; [ | split ].
  - intro N. apply Thresholds.route_not_above_06. apply Order.ltb_false. auto.
  - intro N. apply Thresholds.route_not_above_06.
    apply Thresholds.below_0_not_above_06. exact N.
  - intro N. apply Thresholds.route_above_085. apply Thresholds.above_1_above_085. exact N.
Qed.

(** The decision on the scores 0.95 and 0.97. *)
Lemma status_one_of_three_witness :
  let d := {| id := "i";
              status := "VERIFIED";
              confidence := (0.95 + 0.97) / 2;
              vision := Samples.vision_result 0.95 [];
              logic := Samples.logic_result 0.97;
              timestamp := Samples.morning |} in
  status d = route (confidence d) /\
  In (status d) ["VERIFIED"; "PENDING_HITL"; "REJECTED"] /\
  (is_nan (confidence d) = true -> status d = "REJECTED") /\
  ((confidence d <? 0) = true -> status d = "REJECTED") /\
  ((1 <? confidence d) = true -> status d = "VERIFIED").
Proof.
  exact (status_one_of_three
           (Samples.world (Samples.reply (Samples.vision_result 0.95 []))
              (Samples.reply (Samples.logic_result 0.97)) "0.i" Samples.morning)
           Samples.request _ eq_refl).
Defined.

(** C10 fails as the spec words it for the confidences above the range:
    engine scores of 2 and 1 give the final confidence 1.5, which is more
    than 1 and is VERIFIED, not REJECTED. *)
Lemma above_range_is_verified :
  response (Samples.world (Samples.reply (Samples.vision_result 2 []))
              (Samples.reply (Samples.logic_result 1)) "0.i" Samples.morning)
           Samples.request =
  Normal (Ok200 {| id := "i";
                   status := "VERIFIED";
                   confidence := 1.5;
                   vision := Samples.vision_result 2 [];
                   logic := Samples.logic_result 1;
                   timestamp := Samples.morning |}) /\
  (1 <? 1.5) = true.
Proof. vm_compute. split; reflexivity. Qed.

(** The three statuses are all reached. *)
Example three_statuses_reached :
  route 0.96 = "VERIFIED" /\ route 0.71 = "PENDING_HITL" /\ route 0.3 = "REJECTED".
Proof. vm_compute. repeat split; reflexivity. Qed.

(** ** More about the handler: strings, results, scores *)

Module Strings.

Lemma split_without (c : ascii) (s : string) :
  includes c s = false -> split c s = [s].
Proof.
  induction s as [ | a rest IH ]; [ reflexivity | ].
  cbn [includes split]. intro H. apply orb_false_iff in H. destruct H as [A R].
  rewrite A, (IH R). reflexivity.
Qed.

Lemma split_append (c : ascii) (head rest : string) :
  includes c head = false ->
  split c (head ++ String c rest) = head :: split c rest.
Proof.
  induction head as [ | a head' IH ]; cbn [includes split String.append].
  - intros _. rewrite Ascii.eqb_refl. reflexivity.
  - intro H. apply orb_false_iff in H. destruct H as [A R].
    rewrite A, (IH R). reflexivity.
Qed.

(** [split] always gives a first piece: the text before the first
    separator, or the whole text when it has none. *)
Lemma split_head (c : ascii) (s : string) :
  exists piece pieces,
    split c s = piece :: pieces /\ includes c piece = false /\
    (s = piece /\ pieces = [] \/
     exists rest, s = piece ++ String c rest /\ pieces = split c rest).
Proof.
  induction s as [ | a rest IH ]; cbn [split].
  - exists EmptyString, []. repeat split. left. split; reflexivity.
  - destruct (Ascii.eqb a c) eqn:A.
    + apply Ascii.eqb_eq in A. subst a.
      exists EmptyString, (split c rest). repeat split.
      right. exists rest. split; reflexivity.
    + destruct IH as [piece [pieces [E [N Shape]]]]. rewrite E.
      exists (String a piece), pieces. split; [ reflexivity | ]. split.
      * cbn [includes]. rewrite A, N. reflexivity.
      * destruct Shape as [[S P] | [rest' [S P]]].
        -- left. subst. split; reflexivity.
        -- right. exists rest'. subst rest. split; [ reflexivity | exact P ].
Qed.

Lemma substring_length (s : string) (start count : nat) :
  String.length (String.substring start count s) =
  Nat.min count (String.length s - start).
Proof.
  revert start count. induction s as [ | a rest IH ]; intros start count.
  - destruct start, count; reflexivity.
  - destruct start as [ | start' ].
    + destruct count as [ | count' ]; [ reflexivity | ].
      cbn [String.substring String.length]. rewrite IH. cbn. rewrite Nat.sub_0_r.
      reflexivity.
    + cbn [String.substring String.length]. rewrite IH. reflexivity.
Qed.

Lemma toUpperCase_length (s : string) :
  String.length (toUpperCase s) = String.length s.
Proof.
  induction s as [ | a rest IH ]; [ reflexivity | ].
  cbn [toUpperCase String.length]. rewrite IH. reflexivity.
Qed.

Lemma append_length (s t : string) :
  String.length (s ++ t) = (String.length s + String.length t)%nat.
Proof.
  induction s as [ | a rest IH ]; [ reflexivity | ].
  cbn [String.append String.length]. rewrite IH. reflexivity.
Qed.

(** No character that [upper] returns is a lower-case letter. *)
Lemma upper_not_lower (a : ascii) : lower_case (upper a) = false.
Proof.
  destruct a as [[ | ] [ | ] [ | ] [ | ] [ | ] [ | ] [ | ] [ | ]]; vm_compute; reflexivity.
Qed.

Lemma toUpperCase_no_lower (s : string) :
  Forall (fun a => lower_case a = false) (list_ascii_of_string (toUpperCase s)).
Proof.
  induction s as [ | a rest IH ]; cbn [toUpperCase list_ascii_of_string].
  - constructor.
  - constructor; [ apply upper_not_lower | exact IH ].
Qed.

End Strings.

Module Results.

(** The image data are defined for strings only, where they are the second
    of the pieces between commas. *)
Lemma image_data_normal (v data : value) :
  image_data v = Normal data ->
  exists s, v = Some (JString s) /\
            data = option_map JString (nth_error (split "," s) 1).
Proof.
  destruct v as [[ | b | n | s | items | members ] | ]; try discriminate.
  intro H. injection H as H. exists s. split; [ reflexivity | symmetry; exact H ].
Qed.

Lemma image_data_throw (v : value) (e : error) :
  image_data v = Throw e -> forall s, v <> Some (JString s).
Proof.
  destruct v as [[ | b | n | s | items | members ] | ]; try discriminate;
    intros _ s' H; discriminate H.
Qed.

(** [+] throws exactly when one of its operands has no primitive. *)
Lemma plus_throws (a b : value) :
  (exists e, plus a b = Throw e) <->
  (exists e, ToPrimitive a = Throw e) \/ (exists e, ToPrimitive b = Throw e).
Proof.
  unfold plus. split.
  - intros [e H].
    destruct (ToPrimitive a) as [pa | ea] eqn:A; [ | left; exists ea; reflexivity ].
    destruct (ToPrimitive b) as [pb | eb] eqn:B; [ | right; exists eb; reflexivity ].
    destruct (Aggregation.ToPrimitive_text a pa A) as [sa Sa].
    destruct (Aggregation.ToPrimitive_text b pb B) as [sb Sb].
    destruct (ToNumber a), (ToNumber b); cbn [and_then] in H;
      try discriminate H; rewrite Sa, Sb in H; discriminate H.
  - intros [[e A] | [e B]].
    + destruct (ToNumber a) as [x | ] eqn:X.
      { rewrite (Aggregation.ToPrimitive_number a x X) in A. discriminate A. }
      rewrite A. exists e. reflexivity.
    + destruct (ToNumber b) as [y | ] eqn:Y.
      { rewrite (Aggregation.ToPrimitive_number b y Y) in B. discriminate B. }
      rewrite B. destruct (ToNumber a), (ToPrimitive a) as [pa | ea];
        eexists; reflexivity.
Qed.

Lemma member_throws (j : json) (k : string) :
  (exists e, member (Some j) k = Throw e) <-> j = JNull.
Proof.
  split.
  - intros [e H]. destruct j; try discriminate H. reflexivity.
  - intro H. subst j. exists TypeError. reflexivity.
Qed.

(** The aggregation throws exactly on a result that is [null] and on a
    score that has no primitive. *)
Lemma finalConfidence_throws (vr lr : json) :
  (exists e, finalConfidence vr lr = Throw e) <->
  vr = JNull \/ lr = JNull \/
  exists c l,
    member (Some vr) "confidence" = Normal c /\
    member (Some lr) "logicScore" = Normal l /\
    ((exists e, ToPrimitive c = Throw e) \/ (exists e, ToPrimitive l = Throw e)).
Proof.
  unfold finalConfidence. split.
  - intros [e H].
    destruct (member (Some vr) "confidence") as [c | e'] eqn:C.
    2:{ left. apply (member_throws vr "confidence"). exists e'. exact C. }
    destruct (member (Some lr) "logicScore") as [l | e'] eqn:L.
    2:{ right. left. apply (member_throws lr "logicScore"). exists e'. exact L. }
    right. right. exists c, l. repeat split. apply plus_throws.
    cbn [and_then] in H. destruct (plus c l) as [sum | e'']; [ discriminate H | ].
    exists e''. reflexivity.
  - intros [H | [H | [c [l [C [L H]]]]]].
    + subst vr. exists TypeError. reflexivity.
    + subst lr. destruct (member (Some vr) "confidence") as [c | e'];
        eexists; reflexivity.
    + rewrite C, L. cbn [and_then]. apply plus_throws in H. destruct H as [e H].
      rewrite H. exists e. reflexivity.
Qed.

(** An object has no primitive exactly when it has a member of its own
    named [toString]; numbers, strings, booleans, [null] and [undefined]
    are primitives. *)
Lemma ToPrimitive_object (members : list (string * json)) :
  (exists e, ToPrimitive (Some (JObject members)) = Throw e) <->
  assoc "toString" members <> undefined.
Proof.
  cbn [ToPrimitive ToString_json]. destruct (assoc "toString" members) as [ j | ]; split.
  - intros _. discriminate.
  - intros _. exists TypeError. reflexivity.
  - intros [e H]. discriminate H.
  - intro H. destruct (H eq_refl).
Qed.

(** The text of [documentType] fails the same way. *)
Lemma ToString_object (members : list (string * json)) :
  (exists e, ToString (Some (JObject members)) = Throw e) <->
  assoc "toString" members <> undefined.
Proof.
  cbn [ToString ToString_json]. destruct (assoc "toString" members) as [ j | ]; split.
  - intros _. discriminate.
  - intros _. exists TypeError. reflexivity.
  - intros [e H]. discriminate H.
  - intro H. destruct (H eq_refl).
Qed.

End Results.

Module Routing.

Import Average Midpoint.

Lemma route_verified_inv (c : float) : route c = "VERIFIED" -> (0.85 <? c) = true.
Proof.
  unfold route, gt. destruct (0.85 <? c); [ reflexivity | ].
  destruct (0.6 <? c); discriminate.
Qed.

Lemma route_rejected_inv (c : float) : route c = "REJECTED" -> (0.6 <? c) = false.
Proof.
  unfold route, gt. destruct (0.85 <? c); [ discriminate | ].
  destruct (0.6 <? c); [ discriminate | reflexivity ].
Qed.

Lemma route_not_verified (c : float) : (0.85 <? c) = false -> route c <> "VERIFIED".
Proof. intros H V. apply route_verified_inv in V. congruence. Qed.

Lemma route_not_rejected (c : float) : (0.6 <? c) = true -> route c <> "REJECTED".
Proof. intros H R. apply route_rejected_inv in R. congruence. Qed.

(** A larger confidence never gets a lower status. *)
Lemma route_mono (c c' : float) :
  (c <=? c') = true ->
  (route c = "VERIFIED" -> route c' = "VERIFIED") /\
  (route c' = "REJECTED" -> route c = "REJECTED").
Proof.
  intro H. split.
  - intro V. apply route_verified_inv in V.
    apply Thresholds.route_above_085. exact (ltb_leb_trans _ _ _ V H).
  - intro R. apply route_rejected_inv in R.
    apply Thresholds.route_not_above_06.
    destruct (0.6 <? c) eqn:G; [ | reflexivity ].
    rewrite (ltb_leb_trans _ _ _ G H) in R. discriminate R.
Qed.

Lemma ltb_leb (a b : float) : (a <? b) = true -> (a <=? b) = true.
Proof.
  rewrite ltb_spec, leb_spec. unfold SFltb, SFleb.
  destruct (SFcompare (Prim2SF a) (Prim2SF b)) as [[ | | ] | ]; congruence.
Qed.

(** Two numbers that are not NaN are ordered one way or the other. *)
Lemma leb_total (a b : float) :
  (0 <=? a) = true -> (0 <=? b) = true -> (a <=? b) = true \/ (b <=? a) = true.
Proof.
  intros A B. destruct (b <? a) eqn:H.
  - right. apply ltb_leb. exact H.
  - left. apply Order.ltb_false in H. destruct H as [H | [N | N]]; [ exact H | | ].
    + apply Order.is_nan_spec in N. exfalso.
      rewrite leb_spec, N in A. destruct (Prim2SF 0); discriminate A.
    + apply Order.is_nan_spec in N. exfalso.
      rewrite leb_spec, N in B. destruct (Prim2SF 0); discriminate B.
Qed.

(** The average of two scores of [0,1] is between a lower and an upper
    bound of the two. *)
Lemma average_bounds (v l lo hi : float) :
  (0 <=? v) = true -> (v <=? 1) = true ->
  (0 <=? l) = true -> (l <=? 1) = true ->
  ((lo <? v) = true -> (lo <? l) = true -> (lo <? (v + l) / 2) = true) /\
  ((v <=? hi) = true -> (l <=? hi) = true -> ((v + l) / 2 <=? hi) = true).
Proof.
  intros V0 V1 L0 L1.
  destruct (leb_total v l V0 L0) as [O | O].
  - destruct (average_between v l V0 O L1) as [Lo Hi]. split.
    + intros A _. exact (ltb_leb_trans _ _ _ A Lo).
    + intros _ B. exact (leb_trans _ _ _ Hi B).
  - destruct (average_between l v L0 O V1) as [Lo Hi].
    rewrite (add_comm l v) in Lo, Hi. split.
    + intros _ B. exact (ltb_leb_trans _ _ _ B Lo).
    + intros A _. exact (leb_trans _ _ _ Hi A).
Qed.

End Routing.

(** ** Further properties of the handler *)

(** X1: The engine is called exactly when a key is configured,
    [documentType] has a text and [documentImage] is a string; the first
    call is then the vision call, with [documentType] and the second of
    the comma-separated pieces of the image (undefined when the image has
    no comma).  A [documentType] that is an object with a member of its own
    named [toString] has no text. *)
Theorem engine_called_iff_key_and_image (w : World) (req : Request) :
  match trace w req with
  | [] =>
      falsy (GEMINI_API_KEY w) = true \/
      (exists e, ToString (documentType req) = Throw e) \/
      (forall s, documentImage req <> Some (JString s))
  | first :: _ =>
      falsy (GEMINI_API_KEY w) = false /\
      (exists text, ToString (documentType req) = Normal text) /\
      exists s,
        documentImage req = Some (JString s) /\
        first = Called (VisionPrompt (documentType req)
                          (option_map JString (nth_error (split "," s) 1)))
  end /\
  (forall members,
     (exists e, ToString (Some (JObject members)) = Throw e) <->
     assoc "toString" members <> undefined).
Proof.
  split; [ | exact Results.ToString_object ].
  destruct (Runs.served w req) as
    [K | e K T | text e K T I | text data o K T I V Ho
     | text data tv vr o K T I V P L Ho | text data tv tl vr lr K T I V P L Q].
  - left. exact K.
  - right. left. exists e. exact T.
  - right. right. exact (Results.image_data_throw _ _ I).
  - destruct (Results.image_data_normal _ _ I) as [s [D E]].
    split; [ exact K | split; [ exists text; exact T | ] ].
    exists s. split; [ exact D | rewrite E; reflexivity ].
  - destruct (Results.image_data_normal _ _ I) as [s [D E]].
    split; [ exact K | split; [ exists text; exact T | ] ].
    exists s. split; [ exact D | rewrite E; reflexivity ].
  - destruct (Results.image_data_normal _ _ I) as [s [D E]].
    split; [ exact K | split; [ exists text; exact T | ] ].
    exists s. split; [ exact D | rewrite E; reflexivity ].
Qed.

(** A [documentType] without a text: the vision prompt cannot be built, and
    the request fails before any call, engines up or not. *)
Example prompt_without_text_no_call :
  run (Samples.world (Samples.reply (Samples.vision_result 0.95 []))
         (Samples.reply (Samples.logic_result 0.97)) "0.i" Samples.morning)
      Samples.request_with_untyped_document =
  (Normal (Error500 "Verification failed"), []).
Proof. vm_compute. reflexivity. Qed.

(** X2: The request gets a 200 response exactly when a key is configured,
    [documentType] has a text, the image is a string, both engine calls
    resolve with a text that parses (or with no text), and the aggregation
    of the two results does not throw.  The response then carries the two
    parsed results as they came, the logic engine was asked about that very
    vision result, and confidence, status, id and timestamp are computed
    from them, the random draw and the clock. *)
Theorem ok_response_iff (w : World) (req : Request) (d : Decision) :
  response w req = Normal (Ok200 d) <->
  falsy (GEMINI_API_KEY w) = false /\
  exists text data tv tl,
    ToString (documentType req) = Normal text /\
    image_data (documentImage req) = Normal data /\
    engine w (VisionPrompt (documentType req) data) = Resolves tv /\
    JSON_parse (or_empty_object tv) = Normal (vision d) /\
    engine w (LogicPrompt (contextData req) (vision d)) = Resolves tl /\
    JSON_parse (or_empty_object tl) = Normal (logic d) /\
    finalConfidence (vision d) (logic d) = Normal (confidence d) /\
    status d = route (confidence d) /\
    id d = substr (random36 w) 2 9 /\
    timestamp d = isoNow w.
Proof.
  split.
  - destruct (Runs.served w req) as
      [K | e K T | text e K T I | text data o K T I V Ho
       | text data tv vr o K T I V P L Ho | text data tv tl vr lr K T I V P L Q];
      try discriminate.
    destruct (finalConfidence vr lr) as [c | e] eqn:F; try discriminate.
    intro E. injection E as E. subst d. cbn [vision logic confidence status id timestamp].
    split; [ exact K | ]. exists text, data, tv, tl. repeat split; assumption.
  - intros (K & text & data & tv & tl & T & I & V & P & L & Q & F & S & N & C).
    unfold response.
    rewrite (Runs.aggregates w req K text data T I tv (vision d) V P tl (logic d) L Q), F.
    cbn [fst]. destruct d as [i s c v l t]. cbn in S, N, C. subst i s t. reflexivity.
Qed.

(** A vision score that is the string "1" and the logic score 7: [+] joins
    them to "17", which [/] converts back to the number. *)
Lemma ok_response_witness :
  response (Samples.world (Samples.reply (JObject [("confidence", JString "1")]))
              (Samples.reply (Samples.logic_result 7)) "0.i" Samples.morning)
           Samples.request =
  Normal (Ok200 {| id := "i";
                   status := "VERIFIED";
                   confidence := 8.5;
                   vision := JObject [("confidence", JString "1")];
                   logic := Samples.logic_result 7;
                   timestamp := Samples.morning |}).
Proof.
  apply (proj2 (ok_response_iff
                  (Samples.world (Samples.reply (JObject [("confidence", JString "1")]))
                     (Samples.reply (Samples.logic_result 7)) "0.i" Samples.morning)
                  Samples.request _)).
  split; [ reflexivity | ].
  exists "passport", (Some (JString "/9j/4AAQ")),
         (Parses (JObject [("confidence", JString "1")])), (Parses (Samples.logic_result 7)).
  repeat split.
Defined.

(** X3: When both engines have answered with JSON, the request fails
    exactly when one of the two results is [null] (reading its score
    throws) or one of the two scores has no primitive, as an object with a
    member of its own named [toString]; both engines have been called by
    then.  Every other pair of results is aggregated. *)
Theorem aggregation_fails_iff (w : World) (req : Request)
    (text : string) (data : value) (tv tl : ResponseText) (vr lr : json) :
  falsy (GEMINI_API_KEY w) = false ->
  ToString (documentType req) = Normal text ->
  image_data (documentImage req) = Normal data ->
  engine w (VisionPrompt (documentType req) data) = Resolves tv ->
  JSON_parse (or_empty_object tv) = Normal vr ->
  engine w (LogicPrompt (contextData req) vr) = Resolves tl ->
  JSON_parse (or_empty_object tl) = Normal lr ->
  calls (trace w req) = [Vision; Logic] /\
  (response w req = Normal (Error500 "Verification failed") <->
   vr = JNull \/ lr = JNull \/
   exists c l,
     member (Some vr) "confidence" = Normal c /\
     member (Some lr) "logicScore" = Normal l /\
     ((exists e, ToPrimitive c = Throw e) \/ (exists e, ToPrimitive l = Throw e))) /\
  (forall members,
     (exists e, ToPrimitive (Some (JObject members)) = Throw e) <->
     assoc "toString" members <> undefined).
Proof.
  intros K T I V P L Q. unfold response, trace.
  rewrite (Runs.aggregates w req K text data T I tv vr V P tl lr L Q). cbn [fst snd].
  split; [ reflexivity | ]. split; [ | exact Results.ToPrimitive_object ].
  rewrite <- Results.finalConfidence_throws.
  destruct (finalConfidence vr lr) as [c | e]; split;
    try discriminate; try (intros [e' H]; discriminate H).
  - intros _. exists e. reflexivity.
  - intros _. reflexivity.
Qed.

(** A logic score that is the object [{"toString": 0}]. *)
Lemma aggregation_fails_witness :
  response (Samples.world (Samples.reply (Samples.vision_result 0.9 []))
              (Samples.reply (JObject [("logicScore", JObject [("toString", JNumber 0)])]))
              "0.i" Samples.morning) Samples.request =
  Normal (Error500 "Verification failed").
Proof.
  apply (proj2 (proj1 (proj2 (aggregation_fails_iff
           (Samples.world (Samples.reply (Samples.vision_result 0.9 []))
              (Samples.reply (JObject [("logicScore", JObject [("toString", JNumber 0)])]))
              "0.i" Samples.morning)
           Samples.request "passport" (Some (JString "/9j/4AAQ"))
           (Parses (Samples.vision_result 0.9 []))
           (Parses (JObject [("logicScore", JObject [("toString", JNumber 0)])]))
           (Samples.vision_result 0.9 [])
           (JObject [("logicScore", JObject [("toString", JNumber 0)])])
           eq_refl eq_refl eq_refl eq_refl eq_refl eq_refl eq_refl)))).
  right. right.
  exists (Some (JNumber 0.9)), (Some (JObject [("toString", JNumber 0)])).
  repeat split. right. exists TypeError. reflexivity.
Defined.

(** Scores that are not numbers are joined as texts and converted back:
    "0.9" and 0.8 make "0.90.8", which is no number; an empty array and 1
    make "1"; [true] and "1" make "true1". *)
Example string_scores_are_joined :
  finalConfidence (JObject [("confidence", JString "0.9")]) (Samples.logic_result 0.8) =
    Normal nan /\
  finalConfidence (JObject [("confidence", JArray [])]) (Samples.logic_result 1) =
    Normal 0.5 /\
  finalConfidence (JObject [("confidence", JBool true)])
                  (JObject [("logicScore", JString "1")]) = Normal nan /\
  finalConfidence (JObject [("confidence", JString "1")]) (Samples.logic_result 0.5) =
    Normal 5.25.
Proof. vm_compute. repeat split; reflexivity. Qed.

(** X4: The data sent to the vision engine are the text between the first and
    the second comma of [documentImage]: the payload of a data URL; what
    follows a second comma is dropped; an image without a comma gives
    undefined data (and the call is made all the same); anything that is
    not a string throws. *)
Theorem image_data_is_second_piece (header payload : string) :
  includes "," header = false -> includes "," payload = false ->
  image_data (Some (JString (header ++ "," ++ payload))) =
    Normal (Some (JString payload)) /\
  (forall rest,
     image_data (Some (JString (header ++ "," ++ payload ++ "," ++ rest))) =
       Normal (Some (JString payload))) /\
  image_data (Some (JString header)) = Normal undefined /\
  (forall v, (forall s, v <> Some (JString s)) -> image_data v = Throw TypeError).
Proof.
  intros H P. unfold image_data. repeat split.
  - change ("," ++ payload) with (String "," payload).
    rewrite (Strings.split_append _ _ _ H), (Strings.split_without _ _ P). reflexivity.
  - intro rest. change ("," ++ payload ++ "," ++ rest) with (String "," (payload ++ String "," rest)).
    rewrite (Strings.split_append _ _ _ H), (Strings.split_append _ _ _ P). reflexivity.
  - rewrite (Strings.split_without _ _ H). reflexivity.
  - intros v N. destruct v as [[ | b | n | s | items | members ] | ]; try reflexivity.
    exfalso. exact (N s eq_refl).
Qed.

(** A JPEG data URL. *)
Lemma image_data_witness :
  image_data (Some (JString "data:image/jpeg;base64,/9j/4AAQ")) =
  Normal (Some (JString "/9j/4AAQ")).
Proof.
  exact (proj1 (image_data_is_second_piece "data:image/jpeg;base64" "/9j/4AAQ"
                  eq_refl eq_refl)).
Defined.

(** X5: The id of a decision is what [Math.random().toString(36)] has from its
    third character on, cut at nine characters: at most nine characters,
    fewer when the random text is shorter than eleven, and none when
    [Math.random()] returned 0. *)
Theorem decision_id_length (w : World) (req : Request) (d : Decision) :
  response w req = Normal (Ok200 d) ->
  String.length (id d) = Nat.min 9 (String.length (random36 w) - 2) /\
  (String.length (id d) <= 9)%nat /\
  (random36 w = "0" -> id d = "").
Proof.
  destruct (Runs.served w req) as
    [K | e K T | text e K T I | text data o K T I V Ho
     | text data tv vr o K T I V P L Ho | text data tv tl vr lr K T I V P L Q];
    try discriminate.
  destruct (finalConfidence vr lr) as [c | e]; try discriminate.
  intro E. injection E as E. subst d. cbn [id]. unfold substr.
  rewrite Strings.substring_length. repeat split.
  - apply Nat.le_min_l.
  - intro Z. rewrite Z. reflexivity.
Qed.

(** A random text of thirteen characters. *)
Lemma decision_id_length_witness :
  String.length "4fzyo82mv" = Nat.min 9 (String.length "0.4fzyo82mvyr" - 2).
Proof.
  exact (proj1 (decision_id_length
                  (Samples.world (Samples.reply (Samples.vision_result 0.95 []))
                     (Samples.reply (Samples.logic_result 0.97))
                     "0.4fzyo82mvyr" Samples.evening)
                  Samples.request _ eq_refl)).
Defined.

(** X6: The two scores are interchangeable: a vision result and a logic result
    that report each other's scores get the same final confidence. *)
Theorem finalConfidence_symmetric (vr lr vr' lr' : json) (c l : value) (x y : float) :
  member (Some vr) "confidence" = Normal c -> ToNumber c = Some x ->
  member (Some lr) "logicScore" = Normal l -> ToNumber l = Some y ->
  member (Some vr') "confidence" = Normal l ->
  member (Some lr') "logicScore" = Normal c ->
  finalConfidence vr' lr' = finalConfidence vr lr.
Proof.
  intros C X L Y C' L'.
  rewrite (Aggregation.finalConfidence_operands vr lr c l x y C X L Y).
  rewrite (Aggregation.finalConfidence_operands vr' lr' l c y x C' Y L' X).
  rewrite (Midpoint.add_comm y x). reflexivity.
Qed.

(** The scores 0.9 and 0.4, and 0.4 and 0.9. *)
Lemma finalConfidence_symmetric_witness :
  finalConfidence (Samples.vision_result 0.4 []) (Samples.logic_result 0.9) =
  finalConfidence (Samples.vision_result 0.9 []) (Samples.logic_result 0.4).
Proof.
  exact (finalConfidence_symmetric
           (Samples.vision_result 0.9 []) (Samples.logic_result 0.4)
           (Samples.vision_result 0.4 []) (Samples.logic_result 0.9)
           (Some (JNumber 0.9)) (Some (JNumber 0.4)) 0.9 0.4
           eq_refl eq_refl eq_refl eq_refl eq_refl eq_refl).
Defined.

(** X7: Two engines that report the same score of [0,1] get exactly that score
    as the final confidence: adding the score to itself and halving the sum
    loses nothing to rounding. *)
Theorem equal_scores_are_kept (vr lr : json) (s : float) :
  member (Some vr) "confidence" = Normal (Some (JNumber s)) ->
  member (Some lr) "logicScore" = Normal (Some (JNumber s)) ->
  (0 <=? s) = true -> (s <=? 1) = true ->
  finalConfidence vr lr = Normal s.
Proof.
  intros V L Lo Hi. rewrite (Aggregation.finalConfidence_numbers vr lr s s V L).
  rewrite (Midpoint.average_same s Lo Hi). reflexivity.
Qed.

(** Both engines report 0.1, which no binary64 number equals. *)
Lemma equal_scores_witness :
  finalConfidence (Samples.vision_result 0.1 []) (Samples.logic_result 0.1) = Normal 0.1.
Proof.
  exact (equal_scores_are_kept (Samples.vision_result 0.1 []) (Samples.logic_result 0.1) 0.1
           eq_refl eq_refl eq_refl eq_refl).
Defined.

(** X8: The final confidence of two scores of [0,1] is at least the smaller
    one and at most the larger one. *)
Theorem finalConfidence_between_scores (vr lr : json) (v l : float) :
  member (Some vr) "confidence" = Normal (Some (JNumber v)) ->
  member (Some lr) "logicScore" = Normal (Some (JNumber l)) ->
  (0 <=? v) = true -> (v <=? 1) = true ->
  (0 <=? l) = true -> (l <=? 1) = true ->
  exists c,
    finalConfidence vr lr = Normal c /\
    ((v <=? l) = true -> (v <=? c) = true /\ (c <=? l) = true) /\
    ((l <=? v) = true -> (l <=? c) = true /\ (c <=? v) = true).
Proof.
  intros V L V0 V1 L0 L1. exists ((v + l) / 2).
  split; [ apply Aggregation.finalConfidence_numbers; assumption | ]. split.
  - intro O. exact (Midpoint.average_between v l V0 O L1).
  - intro O. rewrite (Midpoint.add_comm v l).
    exact (Midpoint.average_between l v L0 O V1).
Qed.

(** The scores 0.7 and 0.72. *)
Lemma finalConfidence_between_witness :
  exists c,
    finalConfidence (Samples.vision_result 0.7 []) (Samples.logic_result 0.72) = Normal c /\
    ((0.7 <=? 0.72) = true -> (0.7 <=? c) = true /\ (c <=? 0.72) = true) /\
    ((0.72 <=? 0.7) = true -> (0.72 <=? c) = true /\ (c <=? 0.7) = true).
Proof.
  exact (finalConfidence_between_scores
           (Samples.vision_result 0.7 []) (Samples.logic_result 0.72) 0.7 0.72
           eq_refl eq_refl eq_refl eq_refl eq_refl eq_refl).
Defined.

(** X9: Engines that agree decide: with scores of [0,1], two scores above 0.85
    are VERIFIED and two scores of at most 0.6 are REJECTED; two scores
    above 0.6 are never REJECTED, and two scores of at most 0.85 are never
    VERIFIED. *)
Theorem unanimous_scores_decide (vr lr : json) (v l : float) :
  member (Some vr) "confidence" = Normal (Some (JNumber v)) ->
  member (Some lr) "logicScore" = Normal (Some (JNumber l)) ->
  (0 <=? v) = true -> (v <=? 1) = true ->
  (0 <=? l) = true -> (l <=? 1) = true ->
  exists c,
    finalConfidence vr lr = Normal c /\
    ((0.85 <? v) = true -> (0.85 <? l) = true -> route c = "VERIFIED") /\
    ((v <=? 0.6) = true -> (l <=? 0.6) = true -> route c = "REJECTED") /\
    ((0.6 <? v) = true -> (0.6 <? l) = true -> route c <> "REJECTED") /\
    ((v <=? 0.85) = true -> (l <=? 0.85) = true -> route c <> "VERIFIED").
Proof.
  intros V L V0 V1 L0 L1. exists ((v + l) / 2).
  split; [ apply Aggregation.finalConfidence_numbers; assumption | ].
  repeat split.
  - intros A B. apply Thresholds.route_above_085.
    exact (proj1 (Routing.average_bounds v l 0.85 1 V0 V1 L0 L1) A B).
  - intros A B. apply Thresholds.route_not_above_06, Midpoint.leb_not_ltb.
    exact (proj2 (Routing.average_bounds v l 0 0.6 V0 V1 L0 L1) A B).
  - intros A B. apply Routing.route_not_rejected.
    exact (proj1 (Routing.average_bounds v l 0.6 1 V0 V1 L0 L1) A B).
  - intros A B. apply Routing.route_not_verified, Midpoint.leb_not_ltb.
    exact (proj2 (Routing.average_bounds v l 0 0.85 V0 V1 L0 L1) A B).
Qed.

(** The scores 0.9 and 0.86. *)
Lemma unanimous_scores_witness :
  exists c,
    finalConfidence (Samples.vision_result 0.9 []) (Samples.logic_result 0.86) = Normal c /\
    route c = "VERIFIED".
Proof.
  destruct (unanimous_scores_decide
              (Samples.vision_result 0.9 []) (Samples.logic_result 0.86) 0.9 0.86
              eq_refl eq_refl eq_refl eq_refl eq_refl eq_refl) as [c [F [A _]]].
  exists c. split; [ exact F | exact (A eq_refl eq_refl) ].
Defined.

(** X10: Raising scores never lowers the decision: with all scores in [0,1], a
    request that is VERIFIED stays VERIFIED when either score grows, and one
    that is REJECTED with the larger scores is REJECTED with the smaller
    ones. *)
Theorem status_monotone (vr vr' lr lr' : json) (v v' l l' : float) :
  member (Some vr) "confidence" = Normal (Some (JNumber v)) ->
  member (Some vr') "confidence" = Normal (Some (JNumber v')) ->
  member (Some lr) "logicScore" = Normal (Some (JNumber l)) ->
  member (Some lr') "logicScore" = Normal (Some (JNumber l')) ->
  (0 <=? v) = true -> (v <=? v') = true -> (v' <=? 1) = true ->
  (0 <=? l) = true -> (l <=? l') = true -> (l' <=? 1) = true ->
  exists c c',
    finalConfidence vr lr = Normal c /\ finalConfidence vr' lr' = Normal c' /\
    (c <=? c') = true /\
    (route c = "VERIFIED" -> route c' = "VERIFIED") /\
    (route c' = "REJECTED" -> route c = "REJECTED").
Proof.
  intros V V' L L' V0 VV V1 L0 LL L1.
  exists ((v + l) / 2), ((v' + l') / 2).
  split; [ apply Aggregation.finalConfidence_numbers; assumption | ].
  split; [ apply Aggregation.finalConfidence_numbers; assumption | ].
  assert (H : ((v + l) / 2 <=? (v' + l') / 2) = true).
  { apply Average.average_mono; try assumption.
    - apply Midpoint.unit_finite; [ assumption | exact (Midpoint.leb_trans _ _ _ VV V1) ].
    - apply Midpoint.unit_finite; [ exact (Midpoint.leb_trans _ _ _ V0 VV) | assumption ].
    - apply Midpoint.unit_finite; [ assumption | exact (Midpoint.leb_trans _ _ _ LL L1) ].
    - apply Midpoint.unit_finite; [ exact (Midpoint.leb_trans _ _ _ L0 LL) | assumption ]. }
  split; [ exact H | exact (Routing.route_mono _ _ H) ].
Qed.

(** The vision score raised from 0.7 to 0.95 and the logic score from 0.72
    to 0.97. *)
Lemma status_monotone_witness :
  exists c c',
    finalConfidence (Samples.vision_result 0.7 []) (Samples.logic_result 0.72) = Normal c /\
    finalConfidence (Samples.vision_result 0.95 []) (Samples.logic_result 0.97) = Normal c' /\
    (c <=? c') = true /\
    (route c = "VERIFIED" -> route c' = "VERIFIED") /\
    (route c' = "REJECTED" -> route c = "REJECTED").
Proof.
  exact (status_monotone
           (Samples.vision_result 0.7 []) (Samples.vision_result 0.95 [])
           (Samples.logic_result 0.72) (Samples.logic_result 0.97)
           0.7 0.95 0.72 0.97
           eq_refl eq_refl eq_refl eq_refl eq_refl eq_refl eq_refl eq_refl eq_refl eq_refl).
Defined.

(** X11: Scores are not checked to be numbers: [+] converts [true] to 1, and
    [false] and [null] to 0, so that two results that report the score
    [true] are VERIFIED with confidence 1, and a [null] score halves the
    other one. *)
Theorem boolean_scores_are_counted (vr lr : json) :
  (member (Some vr) "confidence" = Normal (Some (JBool true)) ->
   member (Some lr) "logicScore" = Normal (Some (JBool true)) ->
   finalConfidence vr lr = Normal 1 /\ route 1 = "VERIFIED") /\
  (forall s,
     member (Some vr) "confidence" = Normal (Some (JNumber s)) ->
     member (Some lr) "logicScore" = Normal (Some JNull) ->
     finalConfidence vr lr = Normal ((s + 0) / 2)) /\
  (forall s,
     member (Some vr) "confidence" = Normal (Some (JBool false)) ->
     member (Some lr) "logicScore" = Normal (Some (JNumber s)) ->
     finalConfidence vr lr = Normal ((0 + s) / 2)).
Proof.
  split; [ | split ].
  - intros V L. split; [ | vm_compute; reflexivity ].
    exact (Aggregation.finalConfidence_operands vr lr _ _ 1 1 V eq_refl L eq_refl).
  - intros s V L.
    exact (Aggregation.finalConfidence_operands vr lr _ _ s 0 V eq_refl L eq_refl).
  - intros s V L.
    exact (Aggregation.finalConfidence_operands vr lr _ _ 0 s V eq_refl L eq_refl).
Qed.

(** Two results that report [true]. *)
Lemma boolean_scores_witness :
  finalConfidence (JObject [("confidence", JBool true)]) (JObject [("logicScore", JBool true)]) =
  Normal 1.
Proof.
  exact (proj1 (proj1 (boolean_scores_are_counted
                         (JObject [("confidence", JBool true)])
                         (JObject [("logicScore", JBool true)]))
                  eq_refl eq_refl)).
Defined.

(** ** The dashboard's upload and what it renders *)

Module Dashboard.

Import App.

(** A loop keeps what each of its rounds keeps. *)
Lemma for_from_rule (b : Browser) (I : State -> Prop) (Q : Frame -> Prop)
    (body : nat -> Task unit) (bound : nat) :
  (forall i s, (i < bound)%nat -> I s ->
     I (after (body i) b s) /\ Forall Q (frames (body i) b s)) ->
  forall count first s, (first + count <= bound)%nat -> I s ->
    I (after (for_from first count body) b s) /\
    Forall Q (frames (for_from first count body) b s).
Proof.
  intros Body count. induction count as [ | count IH ]; intros first s B H.
  - split; [ exact H | constructor ].
  - destruct (Body first s) as [H1 F1]; [ lia | exact H | ].
    specialize (IH (S first) (after (body first) b s)).
    destruct IH as [H2 F2]; [ lia | exact H1 | ].
    unfold after, frames in *.
    change (for_from first (S count) body b s)
      with (bind (body first) (fun _ => for_from (S first) count body) b s).
    unfold bind.
    destruct (body first b s) as [[u s1] f1]. cbn [fst snd] in *.
    destruct (for_from (S first) count body b s1) as [[u2 s2] f2]. cbn [fst snd] in *.
    split; [ exact H2 | apply Forall_app; split; assumption ].
Qed.

Lemma frames_bind {A B} (m : Task A) (k : A -> Task B) (b : Browser) (s : State) :
  frames (bind m k) b s =
  (frames m b s ++ frames (k (fst (fst (m b s)))) b (after m b s))%list.
Proof.
  unfold frames, after, bind. destruct (m b s) as [[a s1] f1]. cbn [fst snd].
  destruct (k a b s1) as [[r s2] f2]. reflexivity.
Qed.

Lemma Forall_frames_bind {A B} (Q : Frame -> Prop) (m : Task A) (k : A -> Task B)
    (b : Browser) (s : State) :
  Forall Q (frames m b s) ->
  Forall Q (frames (k (fst (fst (m b s)))) b (after m b s)) ->
  Forall Q (frames (bind m k) b s).
Proof. intros M K. rewrite frames_bind. apply Forall_app. split; assumption. Qed.

(** One round of the upload loop keeps the display in order. *)
Lemma round_displayable (b : Browser) (s0 s : State) (i : nat) :
  (i < List.length steps)%nat -> uploading s0 s ->
  let round :=
    (setCurrentStep i ;;
     setScanningMessage (nth_error feedbackMessages i) ;;
     when (i =? 2)%nat (setScanningMessage (Some glare_warning) ;; sleep 1200%N) ;;
     sleep 800%N)%task in
  uploading s0 (after round b s) /\ Forall (displayable s0) (frames round b s).
Proof.
  intros B [U [R [T A]]].
  destruct i as [ | [ | [ | [ | [ | [ | i ] ] ] ] ] ]; [ .. | cbn in B; lia ];
    cbv [after frames bind when setCurrentStep setScanningMessage set sleep ret
         Nat.eqb fst snd app];
    (split; [ repeat split; assumption | ]);
    repeat constructor; cbn; try assumption; try lia;
    try (rewrite U; cbn); eauto.
Qed.

(** X12: While an upload runs, every state put on display is an uploading one
    without a result, its step is one of the six of the pipeline, so that
    the banner reads the label of an existing step and never throws, and
    its message is defined; the tab and the audit mode stay as they
    were. *)
Theorem upload_frames_displayable (b : Browser) (s : State) (f : File) :
  Forall (displayable s) (frames (handleFileUpload (Some f)) b s).
Proof.
  unfold handleFileUpload.
  do 4 (apply Forall_frames_bind; [ constructor | ]).
  apply Forall_frames_bind.
  - refine (proj2 (for_from_rule b (uploading s) (displayable s) _ (List.length steps) _
                     (List.length steps) 0 _ (Nat.le_refl _) _)).
    + intros i s1 B U. exact (round_displayable b s s1 i B U).
    + repeat split.
  - do 4 (apply Forall_frames_bind; [ constructor | ]). constructor.
Qed.

(** X13: An upload ends the same way whatever the file is: the result stored is
    the demonstration's VERIFIED one, which differs from one upload to the
    next in its id and its time only; the success card, the finished
    pipeline and the four fields of the audit tab render from it; the tab
    and the audit mode stay as they were.  An event without a file changes
    nothing and waits for nothing. *)
Theorem upload_outcome (b : Browser) (s : State) (f : File) :
  let s' := after (handleFileUpload (Some f)) b s in
  isUploading s' = false /\
  verificationResult s' = Some (mock_result (randomText b) (localeTime b)) /\
  scanningMessage s' = Some "" /\
  activeTab s' = activeTab s /\ showAudit s' = showAudit s /\
  banner s' = Normal (Some PipelineComplete) /\
  (forall idx, isComplete idx s' = true /\ isActive idx s' = false) /\
  card (mock_result (randomText b) (localeTime b)) =
    Normal "border-l-emerald-500 status-glow-success" /\
  (exists fields,
     audit_tab s' = Normal (Some fields) /\
     map field_value fields =
       [ Some (JString "ALEXANDER V. GUARDIAN"); Some (JString "TX-8829-X01");
         Some (JString "1985-05-14"); Some (JString "2029-12-31") ]) /\
  after (handleFileUpload None) b s = s /\
  frames (handleFileUpload None) b s = [].
Proof.
  cbv zeta. repeat split.
  - unfold isComplete. cbn. apply orb_true_r.
  - unfold isActive. cbn. apply andb_false_r.
  - eexists. split; reflexivity.
Qed.

(** X14: The course of an upload: seven waits of six seconds in all, one per
    step and a second one on the third step; each shows the feedback
    message of its step, except the third step, which shows the glare
    warning throughout, so that the third feedback message never
    appears. *)
Theorem upload_timeline (b : Browser) (s : State) (f : File) :
  map (fun fr => (currentStep (shown fr), wait fr)) (frames (handleFileUpload (Some f)) b s) =
    [ (0%nat, 800%N); (1%nat, 800%N); (2%nat, 1200%N); (2%nat, 800%N);
      (3%nat, 800%N); (4%nat, 800%N); (5%nat, 800%N) ] /\
  total_wait (frames (handleFileUpload (Some f)) b s) = 6000%N /\
  Forall (fun fr =>
            scanningMessage (shown fr) =
            if (currentStep (shown fr) =? 2)%nat then Some glare_warning
            else nth_error feedbackMessages (currentStep (shown fr)))
         (frames (handleFileUpload (Some f)) b s) /\
  ~ In (nth_error feedbackMessages 2)
       (map (fun fr => scanningMessage (shown fr)) (frames (handleFileUpload (Some f)) b s)).
Proof.
  set (fs := frames (handleFileUpload (Some f)) b s).
  vm_compute in fs. subst fs.
  split; [ reflexivity | ]. split; [ reflexivity | ]. split.
  - repeat (constructor; [ reflexivity | ]). constructor.
  - cbn [map In shown scanningMessage nth_error feedbackMessages].
    intros [H | [H | [H | [H | [H | [H | [H | H]]]]]]]; try discriminate H. exact H.
Qed.

(** X15: A step of the pipeline is never shown both complete and active.  While
    an upload runs, the steps before the current one are complete, the
    current one is active and the others are neither; otherwise no step is
    active, and with a result all are complete. *)
Theorem step_complete_or_active (idx : nat) (s : State) :
  isComplete idx s && isActive idx s = false /\
  (isUploading s = true ->
   (isComplete idx s = true <-> (idx < currentStep s)%nat) /\
   (isActive idx s = true <-> idx = currentStep s)) /\
  (isUploading s = false ->
   isActive idx s = false /\
   (truthy (verificationResult s) = true -> isComplete idx s = true)).
Proof.
  unfold isComplete, isActive. repeat split.
  - destruct (isUploading s); cbn [negb andb orb].
    + rewrite orb_false_r, andb_true_r.
      destruct (Nat.ltb_spec idx (currentStep s)), (Nat.eqb_spec idx (currentStep s));
        try reflexivity; lia.
    + rewrite andb_false_r. apply andb_false_r.
  - rewrite H. cbn [negb andb orb]. rewrite orb_false_r. apply Nat.ltb_lt.
  - rewrite H. cbn [negb andb orb]. rewrite orb_false_r. apply Nat.ltb_lt.
  - rewrite H, andb_true_r. apply Nat.eqb_eq.
  - rewrite H, andb_true_r. apply Nat.eqb_eq.
  - rewrite H. apply andb_false_r.
  - intro T. rewrite H, T. apply orb_true_r.
Qed.

(** The second and the third step of an upload that has reached its third
    step. *)
Lemma step_complete_or_active_witness :
  isComplete 1 at_third_step = true /\ isActive 2 at_third_step = true.
Proof.
  split.
  - apply (proj1 (proj2 (step_complete_or_active 1 at_third_step)) eq_refl). cbn. lia.
  - apply (proj1 (proj2 (step_complete_or_active 2 at_third_step)) eq_refl). reflexivity.
Defined.

(** X16: The caption under a step is the first word of its label: it is always
    defined, has no space in it, and is the whole label or what the label
    has before its first space. *)
Theorem caption_is_first_word (step : Step) :
  exists word,
    caption step = Some word /\ includes " " word = false /\
    (label step = word \/ exists rest, label step = word ++ " " ++ rest).
Proof.
  unfold caption.
  destruct (Strings.split_head " " (label step)) as [piece [pieces [E [N Shape]]]].
  rewrite E. exists piece. repeat split; [ exact N | ].
  destruct Shape as [[S _] | [rest [S _]]]; [ left; exact S | right; exists rest; exact S ].
Qed.

(** X17: The id of a stored result is GRD- and at most six characters of the
    random text, none of them a lower-case letter. *)
Theorem mock_id_format (random time : string) :
  exists tail,
    member (Some (mock_result random time)) "id" = Normal (Some (JString ("GRD-" ++ tail))) /\
    String.length tail = Nat.min 6 (String.length random - 2) /\
    (String.length ("GRD-" ++ tail) <= 10)%nat /\
    Forall (fun a => lower_case a = false) (list_ascii_of_string tail).
Proof.
  exists (toUpperCase (substr random 2 6)).
  assert (L : String.length (toUpperCase (substr random 2 6)) =
              Nat.min 6 (String.length random - 2)).
  { rewrite Strings.toUpperCase_length. apply Strings.substring_length. }
  repeat split.
  - exact L.
  - rewrite Strings.append_length, L. cbn [String.length]. lia.
  - apply Strings.toUpperCase_no_lower.
Qed.

Lemma above_09_above_08 (c : float) : (0.9 <? c) = true -> (0.8 <? c) = true.
Proof. apply Average.leb_ltb_trans. vm_compute. reflexivity. Qed.

(** X18: The colour of a field of the audit tab: green above 0.9, amber above
    0.8 and up to 0.9, red for everything else (up to 0.8, or NaN); the box
    of the field and its percentage always have the same colour. *)
Theorem zone_thresholds (c : float) :
  (zone_text c = "text-emerald-400" <-> (0.9 <? c) = true) /\
  (zone_text c = "text-amber-400" <-> (0.8 <? c) = true /\ (c <=? 0.9) = true) /\
  (zone_text c = "text-rose-400" <-> (c <=? 0.8) = true \/ is_nan c = true) /\
  (zone_box c = "bg-emerald-500/5 border-emerald-500/20" <-> zone_text c = "text-emerald-400") /\
  (zone_box c = "bg-amber-500/5 border-amber-500/20" <-> zone_text c = "text-amber-400") /\
  (zone_box c = "bg-rose-500/5 border-rose-500/20" <-> zone_text c = "text-rose-400").
Proof.
  assert (N9 : is_nan 0.9 = false) by (vm_compute; reflexivity).
  assert (N8 : is_nan 0.8 = false) by (vm_compute; reflexivity).
  assert (Above : (0.9 <? c) = true -> (0.8 <? c) = true) by apply above_09_above_08.
  assert (Le9 : (0.9 <? c) = false <->
                (c <=? 0.9) = true \/ is_nan c = true \/ is_nan 0.9 = true)
    by apply Order.ltb_false.
  assert (Le8 : (0.8 <? c) = false <->
                (c <=? 0.8) = true \/ is_nan c = true \/ is_nan 0.8 = true)
    by apply Order.ltb_false.
  assert (Nc : (0.8 <? c) = true -> is_nan c = false)
    by (intro H; apply (Order.ltb_true_not_nan _ _ H)).
  rewrite N9 in Le9. rewrite N8 in Le8. clear N9 N8.
  unfold zone_text, zone_box, gt.
  destruct (0.9 <? c) eqn:H9; try (destruct (0.8 <? c) eqn:H8);
    repeat split; intuition congruence.
Qed.

End Dashboard.

